(** * The Reflex command line: [run], [login] and [deploy]

    A shallow embedding of [reflex/reflex.py].  The commands are dispatch
    code over external collaborators (the hosting control plane, the
    console, the process helpers), so the embedding is a small state and
    exception monad: every external call is recorded in a trace and
    answered by a [world], the record of everything the command cannot
    decide by itself. *)

From Stdlib Require Import ZArith List String Ascii Bool Lia.
From stdpp Require Import base option list strings gmap.
Import ListNotations.

Local Open Scope string_scope.
Local Open Scope list_scope.

(** ** Python values *)

(** Exceptions.  Every constructor is a subclass of [Exception]:
    [typer.Exit] is [click.exceptions.Exit], a [RuntimeError], so a bare
    [except Exception] catches it too. *)
Inductive exn : Type :=
| TyperExit (code : Z)
| ValueError (msg : string)
| ImportError (msg : string)
| AssertionError
| EOFError
| OtherError (msg : string).

Inductive result (A : Type) : Type :=
| Ok (a : A)
| Raise (e : exn).
Arguments Ok {A} a.
Arguments Raise {A} e.

(** Truth value of a [str], of an [Optional[str]] and of a list. *)
Definition truthy_str (s : string) : bool :=
  match s with
  | EmptyString => false
  | String _ _ => true
  end.

Definition truthy_opt (o : option string) : bool :=
  match o with
  | None => false
  | Some s => truthy_str s
  end.

Definition truthy_list {A : Type} (l : list A) : bool :=
  match l with
  | [] => false
  | _ :: _ => true
  end.

(** [s.split(sep, maxsplit=1)] for a one-character separator: the text
    before the first separator and the text after it, or the whole string
    alone when there is no separator. *)
Fixpoint partition_at (sep : ascii) (s : string) : option (string * string) :=
  match s with
  | EmptyString => None
  | String c rest =>
      if Ascii.eqb c sep then Some (EmptyString, rest)
      else match partition_at sep rest with
           | Some (before, after) => Some (String c before, after)
           | None => None
           end
  end.

Definition split_maxsplit1 (sep : ascii) (s : string) : list string :=
  match partition_at sep s with
  | Some (before, after) => [before; after]
  | None => [s]
  end.

(** Character classes of the pattern [^[a-zA-Z_][a-zA-Z0-9_]*$]. *)
Definition in_range (lo hi : ascii) (c : ascii) : bool :=
  (nat_of_ascii lo <=? nat_of_ascii c)%nat && (nat_of_ascii c <=? nat_of_ascii hi)%nat.

Definition is_name_start (c : ascii) : bool :=
  in_range "a" "z" c || in_range "A" "Z" c || Ascii.eqb c "_".

Definition is_name_char (c : ascii) : bool :=
  in_range "a" "z" c || in_range "A" "Z" c || in_range "0" "9" c || Ascii.eqb c "_".

Definition newline : ascii := "010".

(** [[a-zA-Z0-9_]*$] as Python's [re] reads it: the star takes every name
    character, and [$] (no MULTILINE flag) matches at the end of the
    string and also just before a newline that ends the string. *)
Fixpoint match_name_tail (s : string) : bool :=
  match s with
  | EmptyString => true
  | String c rest =>
      if is_name_char c then match_name_tail rest
      else Ascii.eqb c newline && negb (truthy_str rest)
  end.

(** [re.match(r"^[a-zA-Z_][a-zA-Z0-9_]*$", s)] as a truth value. *)
Definition re_match_env_name (s : string) : bool :=
  match s with
  | EmptyString => false
  | String c rest => is_name_start c && match_name_tail rest
  end.

(** The language of the pattern read as a plain regular expression: a
    letter or underscore followed by letters, digits or underscores, and
    nothing else. *)
Definition valid_env_name (s : string) : bool :=
  match s with
  | EmptyString => false
  | String c rest => is_name_start c && forallb is_name_char (list_ascii_of_string rest)
  end.

(** ** Data exchanged with the collaborators *)

(** One candidate deployment of a prepare-deploy answer. *)
Record prep_info : Type := mk_prep_info {
  pi_key : string;
  pi_api_url : string;
  pi_deploy_url : string
}.

(** The answer of [hosting.prepare_deploy], with the fields [deploy]
    reads.  An absent field is [None]. *)
Record prepare_response : Type := mk_prepare_response {
  app_prefix : string;
  reply : option prep_info;
  existing : option (list prep_info);
  suggestion : option prep_info
}.

(** The answer of [hosting.deploy]. *)
Record deploy_response : Type := mk_deploy_response {
  backend_url : string;
  frontend_url : string
}.

(** The keyword arguments of the [hosting.deploy] call. *)
Record upload_request : Type := mk_upload_request {
  up_frontend_file_name : string;
  up_backend_file_name : string;
  up_key : option string;
  up_app_name : string;
  up_regions : list string;
  up_app_prefix : string;
  up_cpus : option Z;
  up_memory_mb : option Z;
  up_auto_start : option bool;
  up_auto_stop : option bool;
  up_frontend_hostname : option string;
  up_envs : option (gmap string string)
}.

(** The options of the [deploy] command. *)
Record deploy_options : Type := mk_deploy_options {
  opt_key : option string;
  opt_app_name : string;
  opt_regions : list string;
  opt_envs : list string;
  opt_cpus : option Z;
  opt_memory_mb : option Z;
  opt_auto_start : option bool;
  opt_auto_stop : option bool;
  opt_frontend_hostname : option string;
  opt_interactive : bool;
  opt_loglevel : string
}.

Inductive Env : Type := DEV | PROD.

Definition env_value (e : Env) : string :=
  match e with DEV => "dev" | PROD => "prod" end.

(** The commands handed to the process helpers by [run]. *)
Inductive command : Type :=
| run_frontend | run_backend | run_frontend_prod | run_backend_prod.

Inductive setup_command : Type :=
| setup_frontend | setup_frontend_prod.

(** The options of the [run] command. *)
Record run_options : Type := mk_run_options {
  run_env : Env;
  run_frontend_only : bool;
  run_backend_only : bool;
  run_frontend_port : string;
  run_backend_port : string;
  run_backend_host : string;
  run_loglevel : string
}.

(** ** Console text *)

(** The parts of a formatted message: literal text and interpolated
    values, kept apart so that no [str()] or [repr()] has to be
    reproduced. *)
Inductive piece : Type :=
| Lit (s : string)
| Str (s : string)
| OptStr (o : option string)
| StrList (l : list string)
| ExnText (e : exn)
| DeployResponseText (r : deploy_response).

(** ** Events *)

Inductive event : Type :=
| ConsoleSetLogLevel (level : string)
| ConsolePrint (msg : list piece)
| ConsoleError (msg : list piece)
| ConsoleWarn (msg : list piece)
| ConsoleDebug (msg : list piece)
| ConsoleRule (msg : list piece)
| ConsoleStatus (msg : string)
| ConsoleAsk (question : string) (default : option string)
| Sleep (seconds : Z)
| OutputSystemInfo
| FeatureEnabled
| CheckRequirementsTxtExist
| CheckInitialized (frontend : bool)
| PrepareDeploy (app_name : string) (key : option string) (frontend_hostname : option string)
| GetApp
| BuildSetup (how : setup_command)
| BuildExport (backend frontend zip : bool) (deploy_url : string)
| TelemetrySend (what : string)
| HostingDeploy (request : upload_request)
| PollBackend (url : string)
| PollFrontend (url : string)
| CleanUp
| GetExistingAccessToken
| WebbrowserOpen (url : list piece)
| FetchToken (request_id : string)
| ValidateToken (token : string)
| DeleteTokenFromConfig
| SaveTokenToConfig (token code : string)
| SkipCompile
| IsProcessOnPort (port : string)
| ChangeOrTerminatePort (port role : string)
| SetPersistentFrontendPort (port : string)
| SetPersistentBackendPort (port : string)
| CheckSchemaUpToDate
| AtexitRegister
| RunConcurrently (commands : list (command * string * string))
| RunOnMainThread (cmd : command) (host port : string).

(** ** The world *)

(** Everything the commands ask for and do not compute: the answers of
    the hosting, prerequisites and process helpers, the constants of
    [constants.Hosting], and the values of [uuid] and [webbrowser].  An
    answer that can change from one call to the next takes the number of
    the call (from 0) as its first argument. *)
Record world : Type := mk_world {
  w_feature_enabled : bool;
  w_check_requirements_txt_exist : result unit;
  w_check_initialized : bool -> result unit;
  w_prepare_deploy : nat -> string -> option string -> option string -> result prepare_response;
  w_get_app : result unit;
  w_deploy : upload_request -> result deploy_response;
  w_poll_backend : nat -> string -> bool;
  w_poll_frontend : nat -> string -> bool;
  w_clean_up : result unit;
  w_get_existing_access_token : result (string * string);
  w_uuid4_hex : string;
  w_webbrowser_open : list piece -> bool;
  w_fetch_token : nat -> string -> result (string * string);
  w_validate_token : nat -> string -> result unit;
  w_is_process_on_port : string -> bool;
  w_change_or_terminate_port : string -> string -> string;
  WEB_AUTH_TIMEOUT : nat;
  BACKEND_POLL_TIMEOUT : nat;
  FRONTEND_POLL_TIMEOUT : nat;
  FRONTEND_ZIP : string;
  BACKEND_ZIP : string;
  REQUIREMENTS_TXT_FILE : string
}.

(** ** State *)

(** The fields of the global [config] that the three commands read or
    write; the ports are kept as their [str()]. *)
Record config : Type := mk_config {
  cfg_frontend_port : string;
  cfg_backend_port : string;
  cfg_api_url : string;
  cfg_deploy_url : string;
  cfg_cp_web_url : string
}.

Record state : Type := mk_state {
  trace : list event;
  cfg : config
}.

Definition initial_state (c : config) : state :=
  {| trace := []; cfg := c |}.

(** ** The monad: state, and a result that is a value or an exception *)

Definition M (A : Type) : Type := state -> result A * state.

Definition ret {A : Type} (a : A) : M A :=
  fun s => (Ok a, s).

Definition bind {A B : Type} (m : M A) (k : A -> M B) : M B :=
  fun s =>
    match m s with
    | (Ok a, s') => k a s'
    | (Raise e, s') => (Raise e, s')
    end.

Definition raise {A : Type} (e : exn) : M A :=
  fun s => (Raise e, s).

(** [try: m  except Exception as ex: ...], with the handler left to the
    caller: the exception becomes a value. *)
Definition try_ {A : Type} (m : M A) : M (result A) :=
  fun s =>
    match m s with
    | (r, s') => (Ok r, s')
    end.

Definition lift {A : Type} (r : result A) : M A :=
  fun s => (r, s).

Definition log (e : event) : M unit :=
  fun s => (Ok tt, {| trace := trace s ++ [e]; cfg := cfg s |}).

Definition get_cfg : M config :=
  fun s => (Ok (cfg s), s).

Definition put_cfg (c : config) : M unit :=
  fun s => (Ok tt, {| trace := trace s; cfg := c |}).

Declare Scope cli_scope.
Delimit Scope cli_scope with cli.
Notation "'do' x <- m ; k" := (bind m (fun x => k))
  (at level 10, x name, m at level 100, k at level 200) : cli_scope.
Notation "'do' ' p <- m ; k" := (bind m (fun x => match x with p => k end))
  (at level 10, p pattern, m at level 100, k at level 200) : cli_scope.
Notation "m ;; k" := (bind m (fun _ => k))
  (at level 100, k at level 200, only parsing, right associativity) : cli_scope.
Local Open Scope cli_scope.

(** The events a command emits from a given configuration, and how it
    ends. *)
Definition outcome {A : Type} (m : M A) (c : config) : result A :=
  fst (m (initial_state c)).

Definition events {A : Type} (m : M A) (c : config) : list event :=
  trace (snd (m (initial_state c))).

Definition final_cfg {A : Type} (m : M A) (c : config) : config :=
  cfg (snd (m (initial_state c))).

(** What the operating system sees: a normal return is exit code 0,
    [typer.Exit(code)] is that code, an exception that escapes is a
    traceback. *)
Inductive exit_status : Type :=
| ExitCode (code : Z)
| Traceback (e : exn).

Definition exit_status_of {A : Type} (r : result A) : exit_status :=
  match r with
  | Ok _ => ExitCode 0
  | Raise (TyperExit code) => ExitCode code
  | Raise e => Traceback e
  end.

(** ** The collaborators as monadic calls

    Each call records its event and then gives the world's answer. *)

Definition console_set_log_level (level : string) : M unit := log (ConsoleSetLogLevel level).
Definition console_print (msg : list piece) : M unit := log (ConsolePrint msg).
Definition console_error (msg : list piece) : M unit := log (ConsoleError msg).
Definition console_warn (msg : list piece) : M unit := log (ConsoleWarn msg).
Definition console_debug (msg : list piece) : M unit := log (ConsoleDebug msg).
Definition console_rule (msg : list piece) : M unit := log (ConsoleRule msg).
Definition console_status (msg : string) : M unit := log (ConsoleStatus msg).
Definition time_sleep (seconds : Z) : M unit := log (Sleep seconds).
Definition exec_output_system_info : M unit := log OutputSystemInfo.
Definition telemetry_send (what : string) : M unit := log (TelemetrySend what).

Definition hosting_feature_enabled (w : world) : M bool :=
  log FeatureEnabled ;; ret (w_feature_enabled w).

Definition hosting_check_requirements_txt_exist (w : world) : M unit :=
  log CheckRequirementsTxtExist ;; lift (w_check_requirements_txt_exist w).

Definition prerequisites_check_initialized (w : world) (frontend : bool) : M unit :=
  log (CheckInitialized frontend) ;; lift (w_check_initialized w frontend).

Definition prerequisites_get_app (w : world) : M unit :=
  log GetApp ;; lift (w_get_app w).

Definition hosting_prepare_deploy (w : world) (call : nat)
    (app_name : string) (key frontend_hostname : option string) : M prepare_response :=
  log (PrepareDeploy app_name key frontend_hostname) ;;
  lift (w_prepare_deploy w call app_name key frontend_hostname).

Definition hosting_deploy (w : world) (request : upload_request) : M deploy_response :=
  log (HostingDeploy request) ;; lift (w_deploy w request).

Definition hosting_poll_backend (w : world) (call : nat) (url : string) : M bool :=
  log (PollBackend url) ;; ret (w_poll_backend w call url).

Definition hosting_poll_frontend (w : world) (call : nat) (url : string) : M bool :=
  log (PollFrontend url) ;; ret (w_poll_frontend w call url).

Definition hosting_clean_up (w : world) : M unit :=
  log CleanUp ;; lift (w_clean_up w).

Definition hosting_get_existing_access_token (w : world) : M (string * string) :=
  log GetExistingAccessToken ;; lift (w_get_existing_access_token w).

Definition webbrowser_open (w : world) (url : list piece) : M bool :=
  log (WebbrowserOpen url) ;; ret (w_webbrowser_open w url).

Definition hosting_fetch_token (w : world) (call : nat) (request_id : string) : M (string * string) :=
  log (FetchToken request_id) ;; lift (w_fetch_token w call request_id).

Definition hosting_validate_token (w : world) (call : nat) (token : string) : M unit :=
  log (ValidateToken token) ;; lift (w_validate_token w call token).

Definition hosting_delete_token_from_config : M unit := log DeleteTokenFromConfig.

Definition hosting_save_token_to_config (token code : string) : M unit :=
  log (SaveTokenToConfig token code).

Definition processes_is_process_on_port (w : world) (port : string) : M bool :=
  log (IsProcessOnPort port) ;; ret (w_is_process_on_port w port).

Definition processes_change_or_terminate_port (w : world) (port role : string) : M string :=
  log (ChangeOrTerminatePort port role) ;; ret (w_change_or_terminate_port w port role).

(** [config._set_persistent(frontend_port=...)] and its backend twin. *)
Definition set_persistent_frontend_port (port : string) : M unit :=
  log (SetPersistentFrontendPort port) ;;
  do c <- get_cfg;
  put_cfg {| cfg_frontend_port := port; cfg_backend_port := cfg_backend_port c;
             cfg_api_url := cfg_api_url c; cfg_deploy_url := cfg_deploy_url c;
             cfg_cp_web_url := cfg_cp_web_url c |}.

Definition set_persistent_backend_port (port : string) : M unit :=
  log (SetPersistentBackendPort port) ;;
  do c <- get_cfg;
  put_cfg {| cfg_frontend_port := cfg_frontend_port c; cfg_backend_port := port;
             cfg_api_url := cfg_api_url c; cfg_deploy_url := cfg_deploy_url c;
             cfg_cp_web_url := cfg_cp_web_url c |}.

(** [config.api_url = api_url; config.deploy_url = deploy_url]. *)
Definition set_config_urls (api_url deploy_url : string) : M unit :=
  do c <- get_cfg;
  put_cfg {| cfg_frontend_port := cfg_frontend_port c; cfg_backend_port := cfg_backend_port c;
             cfg_api_url := api_url; cfg_deploy_url := deploy_url;
             cfg_cp_web_url := cfg_cp_web_url c |}.

(** Modelled from the spec: [console.ask] of [reflex.utils.console], which
    is not part of the source given.  It presents the question with its
    default and reads one line from the operator: an empty line takes the
    default (the empty string when there is none), any other line is the
    answer.  At the end of the operator's input the read raises
    [EOFError]. *)
Definition ask_answer (default : option string) (line : string) : string :=
  if truthy_str line then line
  else match default with
       | Some d => d
       | None => EmptyString
       end.

(** ** [run], lines 116 to 216 *)

(** One port resolution, lines 157 to 161: the negotiation is asked for
    only when the side is on and something listens on the port. *)
Definition resolve_port (w : world) (enabled : bool) (port role : string) : M string :=
  if enabled then
    do occupied <- processes_is_process_on_port w port;
    if occupied then processes_change_or_terminate_port w port role
    else ret port
  else ret port.

Definition run (w : world) (o : run_options) : M unit :=
  console_set_log_level (run_loglevel o) ;;
  exec_output_system_info ;;
  (* neither --frontend-only nor --backend-only: both sides are on *)
  let both := negb (run_frontend_only o) && negb (run_backend_only o) in
  let frontend := if both then true else run_frontend_only o in
  let backend := if both then true else run_backend_only o in
  (if negb frontend && backend then log SkipCompile else ret tt) ;;
  prerequisites_check_initialized w frontend ;;
  do frontend_port <- resolve_port w frontend (run_frontend_port o) "frontend";
  do backend_port <- resolve_port w backend (run_backend_port o) "backend";
  do c <- get_cfg;
  (if negb (String.eqb frontend_port (cfg_frontend_port c))
   then set_persistent_frontend_port frontend_port else ret tt) ;;
  do c <- get_cfg;
  (if negb (String.eqb backend_port (cfg_backend_port c))
   then set_persistent_backend_port backend_port else ret tt) ;;
  console_rule [Lit "[bold]Starting Reflex App"] ;;
  (if frontend then prerequisites_get_app w else ret tt) ;;
  log CheckSchemaUpToDate ;;
  let '(setup, frontend_cmd, backend_cmd) :=
    match run_env o with
    | DEV => (setup_frontend, run_frontend, run_backend)
    | PROD => (setup_frontend_prod, run_frontend_prod, run_backend_prod)
    end in
  telemetry_send ("run-" +:+ env_value (run_env o)) ;;
  log AtexitRegister ;;
  (if frontend then log (BuildSetup setup) else ret tt) ;;
  let commands :=
    (if frontend then [(frontend_cmd, "cwd", frontend_port)] else []) ++
    (match run_env o with
     | PROD => if backend then [(backend_cmd, run_backend_host o, backend_port)] else []
     | DEV => []
     end) in
  log (RunConcurrently commands) ;;
  match run_env o with
  | DEV => if backend then log (RunOnMainThread backend_cmd (run_backend_host o) backend_port)
           else ret tt
  | PROD => ret tt
  end.

(** ** [login], lines 265 to 334 *)

(** Lines 298 to 304: ask for the token up to [n] more times, five seconds
    after each failed request; [None] when no request came back. *)
Fixpoint fetch_token_loop (w : world) (request_id : string) (n call : nat)
    : M (option (string * string)) :=
  match n with
  | O => ret None
  | S n' =>
      do r <- try_ (hosting_fetch_token w call request_id);
      match r with
      | Ok token_code => ret (Some token_code)
      | Raise _ => time_sleep 5 ;; fetch_token_loop w request_id n' (S call)
      end
  end.

(** Lines 314 to 325: validate up to [n] more times.  [true] is
    [token_valid]. *)
Fixpoint validate_token_loop (w : world) (token : string) (n call : nat) : M bool :=
  match n with
  | O => ret false
  | S n' =>
      do r <- try_ (hosting_validate_token w call token);
      match r with
      | Ok _ => ret true
      | Raise (ValueError msg) =>
          console_error [Lit "Access denied"] ;;
          hosting_delete_token_from_config ;;
          raise (TyperExit 1)
      | Raise ex =>
          console_debug [Lit "Unable to validate token due to: "; ExnText ex] ;;
          time_sleep 5 ;;
          validate_token_loop w token n' (S call)
      end
  end.

(** Lines 312 to 334: the validation of the token that was found or
    fetched, and the report. *)
Definition validate_and_report (w : world) (token code : string)
    (using_existing_token : bool) : M unit :=
  console_status "Validating access token ..." ;;
  do token_valid <- validate_token_loop w token (WEB_AUTH_TIMEOUT w) 0;
  if negb token_valid then
    console_error [Lit "Unable to validate token. Please try again or contact support."] ;;
    raise (TyperExit 1)
  else if negb using_existing_token then
    hosting_save_token_to_config token code ;;
    console_print [Lit "Successfully logged in."]
  else
    console_print [Lit "You already logged in."].

Definition login (w : world) (loglevel : string) : M unit :=
  console_set_log_level loglevel ;;
  do enabled <- hosting_feature_enabled w;
  if negb enabled then ret tt
  else
    do existing_token <- try_ (hosting_get_existing_access_token w);
    match existing_token with
    | Ok (token, code) => validate_and_report w token code true
    | Raise ex =>
        do c <- get_cfg;
        console_print [Lit "Opening "; Str (cfg_cp_web_url c); Lit " ..."] ;;
        let request_id := w_uuid4_hex w in
        do opened <- webbrowser_open w
          [Str (cfg_cp_web_url c); Lit "?request-id="; Str request_id; Lit "&code="; Str EmptyString];
        if negb opened then
          console_error [Lit "Unable to open the browser to authenticate. Please contact support."] ;;
          raise (TyperExit 1)
        else
          console_status "Waiting for access token ..." ;;
          do fetched <- fetch_token_loop w request_id (WEB_AUTH_TIMEOUT w) 0;
          match fetched with
          | Some (token, code) =>
              if truthy_str token then validate_and_report w token code false
              else
                console_error [Lit "Unable to fetch access token. Please try again or contact support."] ;;
                raise (TyperExit 1)
          | None =>
              console_error [Lit "Unable to fetch access token. Please try again or contact support."] ;;
              raise (TyperExit 1)
          end
    end.

(** ** [export], lines 219 to 262 *)

Definition export (w : world) (zipping frontend backend : bool) (loglevel : string) : M unit :=
  console_set_log_level loglevel ;;
  exec_output_system_info ;;
  prerequisites_check_initialized w frontend ;;
  console_rule [Lit "[bold]Compiling production app and preparing for export."] ;;
  (if frontend then prerequisites_get_app w ;; log (BuildSetup setup_frontend) else ret tt) ;;
  do c <- get_cfg;
  log (BuildExport backend frontend zipping (cfg_deploy_url c)) ;;
  telemetry_send "export".

(** ** [deploy], lines 417 to 681 *)

(** The local variables of [deploy] once the negotiation with the control
    plane and the operator is over, line 577. *)
Record negotiated : Type := mk_negotiated {
  n_key : option string;
  n_regions : list string;
  n_envs : list string;
  n_app_prefix : string;
  n_api_url : string;
  n_deploy_url : string;
  n_overwrite_existing : bool
}.

(** Lines 523 to 542: the operator names the deployment until the control
    plane confirms the name or the operator gives none.  [lines] is what
    the operator will type, [call] the number of prepare-deploy calls made
    so far.  The result is [key_candidate], [api_url], [deploy_url] and the
    lines not read. *)
Fixpoint confirm_suggestion (w : world) (o : deploy_options) (call : nat)
    (key_candidate api_url deploy_url : string) (lines : list string)
    : M (string * string * string * list string) :=
  match lines with
  | [] =>
      log (ConsoleAsk "Name of deployment" (Some key_candidate)) ;;
      raise EOFError
  | line :: rest =>
      log (ConsoleAsk "Name of deployment" (Some key_candidate)) ;;
      let key_input := ask_answer (Some key_candidate) line in
      if truthy_str key_input then
        do confirmed <- try_ (
          do pre_deploy_response <- hosting_prepare_deploy w call
               (opt_app_name o) (Some key_input) (opt_frontend_hostname o);
          match reply pre_deploy_response with
          | None => raise AssertionError
          | Some r =>
              if String.eqb key_input (pi_key r) then ret r
              else raise AssertionError
          end);
        match confirmed with
        | Ok r => ret (pi_key r, pi_api_url r, pi_deploy_url r, rest)
        | Raise _ =>
            console_error [Lit "Cannot deploy at this name, try picking a different name"] ;;
            confirm_suggestion w o (S call) key_candidate api_url deploy_url rest
        end
      else ret (key_candidate, api_url, deploy_url, rest)
  end.

(** Lines 563 to 575: the operator adds environment entries until an empty
    name. *)
Fixpoint ask_envs (env_key_prompt : string) (envs : list string) (lines : list string)
    : M (list string) :=
  match lines with
  | [] => log (ConsoleAsk env_key_prompt None) ;; raise EOFError
  | line :: rest =>
      log (ConsoleAsk env_key_prompt None) ;;
      let env_key := ask_answer None line in
      if negb (truthy_str env_key) then
        (if truthy_list envs then console_print [Lit "Finished adding envs."]
         else console_print [Lit "No envs added. Continuing ..."]) ;;
        ret envs
      else
        match rest with
        | [] => log (ConsoleAsk "  env value" None) ;; raise EOFError
        | line' :: rest' =>
            log (ConsoleAsk "  env value" None) ;;
            let env_value := ask_answer None line' in
            ask_envs "  env name (enter to finish)"
                     (envs ++ [env_key +:+ "=" +:+ env_value]) rest'
        end
  end.

(** One read of the operator's input outside the two loops. *)
Definition console_ask (question : string) (default : option string) (lines : list string)
    : M (string * list string) :=
  log (ConsoleAsk question default) ;;
  match lines with
  | [] => raise EOFError
  | line :: rest => ret (ask_answer default line, rest)
  end.

(** Lines 495 to 501: without the operator, only a [reply] will do. *)
Definition negotiate_non_interactive (o : deploy_options)
    (pre_deploy_response : prepare_response) : M negotiated :=
  match reply pre_deploy_response with
  | None =>
      console_error [Lit "Unable to deploy at this name "; OptStr (opt_key o); Lit "."] ;;
      raise (TyperExit 1)
  | Some r =>
      ret {| n_key := opt_key o; n_regions := opt_regions o; n_envs := opt_envs o;
             n_app_prefix := app_prefix pre_deploy_response;
             n_api_url := pi_api_url r; n_deploy_url := pi_deploy_url r;
             n_overwrite_existing := false |}
  end.

(** Lines 503 to 542: the three kinds of answer.  The result is
    [key_candidate], [api_url], [deploy_url], [overwrite_existing] and the
    operator's lines not read. *)
Definition pick_key (w : world) (o : deploy_options)
    (pre_deploy_response : prepare_response) (lines : list string)
    : M (string * string * string * bool * list string) :=
  match reply pre_deploy_response with
  | Some r => ret (pi_key r, pi_api_url r, pi_deploy_url r, false, lines)
  | None =>
      match existing pre_deploy_response with
      | Some (first :: _) =>
          console_print [Lit "Overwrite deployment [ "; Str (pi_key first); Lit " ] ..."] ;;
          ret (pi_key first, pi_api_url first, pi_deploy_url first, true, lines)
      | _ =>
          match suggestion pre_deploy_response with
          | Some sg =>
              do '(key_candidate, api_url, deploy_url, rest) <-
                confirm_suggestion w o 1 (pi_key sg) (pi_api_url sg) (pi_deploy_url sg) lines;
              ret (key_candidate, api_url, deploy_url, false, rest)
          | None => ret (EmptyString, EmptyString, EmptyString, false, lines)
          end
      end
  end.

(** Lines 544 to 575: the candidate must be complete; then the operator
    is asked for the region and for environment entries. *)
Definition ask_params (o : deploy_options) (pre_deploy_response : prepare_response)
    (key_candidate api_url deploy_url : string) (overwrite_existing : bool)
    (lines : list string) : M negotiated :=
  if negb (truthy_str key_candidate) || negb (truthy_str api_url) || negb (truthy_str deploy_url)
  then
    console_error [Lit "Unable to find a suitable deployment key."] ;;
    raise (TyperExit 1)
  else
    do '(region_input, lines') <-
      console_ask "Region to deploy to"
        (Some (match opt_regions o with first :: _ => first | [] => "sjc" end)) lines;
    let regions := if truthy_list (opt_regions o) then opt_regions o else [region_input] in
    console_print [Lit "Environment variables ..."] ;;
    do envs <- ask_envs "  Env name (enter to skip)" (opt_envs o) lines';
    ret {| n_key := Some key_candidate; n_regions := regions; n_envs := envs;
           n_app_prefix := app_prefix pre_deploy_response;
           n_api_url := api_url; n_deploy_url := deploy_url;
           n_overwrite_existing := overwrite_existing |}.

(** Lines 503 to 575. *)
Definition negotiate_interactive (w : world) (o : deploy_options)
    (pre_deploy_response : prepare_response) (lines : list string) : M negotiated :=
  do '(key_candidate, api_url, deploy_url, overwrite_existing, lines') <-
    pick_key w o pre_deploy_response lines;
  ask_params o pre_deploy_response key_candidate api_url deploy_url overwrite_existing lines'.

(** Lines 586 to 597: every entry is split at its first [=] and its name
    checked; the names and values go into the dictionary in order, a later
    value replacing an earlier one of the same name. *)
Fixpoint process_envs (envs : list string) (processed_envs : gmap string string)
    : M (gmap string string) :=
  match envs with
  | [] => ret processed_envs
  | env :: rest =>
      match split_maxsplit1 "=" env with
      | [name; value] =>
          if negb (re_match_env_name name) then
            console_error [Lit "Invalid env name: should start with a letter or underscore, followed by letters, digits, or underscores."] ;;
            raise (TyperExit 1)
          else process_envs rest (<[name := value]> processed_envs)
      | _ =>
          console_error [Lit "Invalid env format: should be <key>=<value>."] ;;
          raise (TyperExit 1)
      end
  end.

(** Lines 646 and 647: [n] sleeps of one second. *)
Fixpoint wait_seconds (n : nat) : M unit :=
  match n with
  | O => ret tt
  | S n' => time_sleep 1 ;; wait_seconds n'
  end.

(** Lines 653 to 656: poll the backend up to [n] more times, one second
    after each poll that fails; the result is [backend_up]. *)
Fixpoint poll_backend_loop (w : world) (url : string) (n call : nat) : M bool :=
  match n with
  | O => ret false
  | S n' =>
      do up <- hosting_poll_backend w call url;
      if up then ret true
      else time_sleep 1 ;; poll_backend_loop w url n' (S call)
  end.

(** Lines 663 to 666, the same for the frontend. *)
Fixpoint poll_frontend_loop (w : world) (url : string) (n call : nat) : M bool :=
  match n with
  | O => ret false
  | S n' =>
      do up <- hosting_poll_frontend w call url;
      if up then ret true
      else time_sleep 1 ;; poll_frontend_loop w url n' (S call)
  end.

Definition upload_request_of (w : world) (o : deploy_options) (n : negotiated)
    (processed_envs : option (gmap string string)) : upload_request :=
  {| up_frontend_file_name := FRONTEND_ZIP w;
     up_backend_file_name := BACKEND_ZIP w;
     up_key := n_key n;
     up_app_name := opt_app_name o;
     up_regions := n_regions n;
     up_app_prefix := n_app_prefix n;
     up_cpus := opt_cpus o;
     up_memory_mb := opt_memory_mb o;
     up_auto_start := opt_auto_start o;
     up_auto_stop := opt_auto_stop o;
     up_frontend_hostname := opt_frontend_hostname o;
     up_envs := processed_envs |}.

(** Lines 643 to 681: what follows an upload that succeeded. *)
Definition await_deployment (w : world) (n : negotiated) (deploy_response : deploy_response)
    : M unit :=
  console_debug [Lit "deploy_response: "; DeployResponseText deploy_response] ;;
  console_print [Lit "Deployment will start shortly."] ;;
  (if n_overwrite_existing n then
     console_print [Lit "Waiting for the old deployment to come down"] ;;
     console_status "this is a TODO" ;;
     wait_seconds 60
   else ret tt) ;;
  console_print [Lit "Waiting for the new deployment to come up"] ;;
  console_status "Checking backend ..." ;;
  do backend_up <- poll_backend_loop w (backend_url deploy_response) (BACKEND_POLL_TIMEOUT w) 0;
  (if negb backend_up then console_print [Lit "Backend unreachable"]
   else console_print [Lit "Backend is up"]) ;;
  console_status "Checking frontend ..." ;;
  do frontend_up <- poll_frontend_loop w (frontend_url deploy_response) (FRONTEND_POLL_TIMEOUT w) 0;
  (if negb frontend_up then console_print [Lit "frontend is unreachable"]
   else console_print [Lit "frontend is up"]) ;;
  hosting_clean_up w ;;
  if frontend_up && backend_up then
    console_print [Lit "Your site [ "; OptStr (n_key n); Lit " ] at "; StrList (n_regions n);
                   Lit " is up: "; Str (frontend_url deploy_response)]
  else
    console_warn [Lit "Your deployment is taking unusually long. Check back later on its status: `reflex deployments status`"].

(** Lines 613 to 681: the upload and what follows it. *)
Definition upload_and_await (w : world) (o : deploy_options) (n : negotiated)
    (processed_envs : option (gmap string string)) : M unit :=
  console_print [Lit "Uploading code ..."] ;;
  do uploaded <- try_ (hosting_deploy w (upload_request_of w o n processed_envs));
  match uploaded with
  | Raise ex =>
      console_error [Lit "Unable to deploy due to: "; ExnText ex] ;;
      do _ <- try_ (hosting_clean_up w);
      raise (TyperExit 1)
  | Ok deploy_response => await_deployment w n deploy_response
  end.

(** Lines 577 to 681: the required parameters, the environment entries,
    the export, the upload. *)
Definition check_and_deploy (w : world) (o : deploy_options) (n : negotiated) : M unit :=
  console_debug [Lit "key="; OptStr (n_key n); Lit ", regions="; StrList (n_regions n);
                 Lit ", app_name="; Str (opt_app_name o); Lit ", app_prefix=";
                 Str (n_app_prefix n); Lit ", "; Str (n_api_url n)] ;;
  if negb (truthy_opt (n_key n)) || negb (truthy_list (n_regions n))
     || negb (truthy_str (opt_app_name o)) || negb (truthy_str (n_app_prefix n))
     || negb (truthy_str (n_api_url n))
  then
    console_error [Lit "Please provide all the required parameters."] ;;
    raise (TyperExit 1)
  else
    do processed_envs <-
      (if truthy_list (n_envs n)
       then do d <- process_envs (n_envs n) ∅; ret (Some d)
       else ret None);
    set_config_urls (n_api_url n) (n_deploy_url n) ;;
    do exported <- try_ (export w true true true (opt_loglevel o));
    match exported with
    | Raise (ImportError msg) =>
        console_error [Lit "Encountered ImportError, did you install all the dependencies? ";
                       ExnText (ImportError msg)] ;;
        raise (TyperExit 1)
    | Raise ex => raise ex
    | Ok _ => upload_and_await w o n processed_envs
    end.

(** Lines 484 to 575: the first prepare-deploy call and the negotiation. *)
Definition negotiate (w : world) (o : deploy_options) (lines : list string) : M negotiated :=
  do prepared <- try_ (hosting_prepare_deploy w 0
                         (opt_app_name o) (opt_key o) (opt_frontend_hostname o));
  match prepared with
  | Raise ex =>
      console_error [Lit "Unable to prepare deployment due to: "; ExnText ex] ;;
      raise (TyperExit 1)
  | Ok pre_deploy_response =>
      if negb (opt_interactive o) then negotiate_non_interactive o pre_deploy_response
      else negotiate_interactive w o pre_deploy_response lines
  end.

(** The [deploy] command.  [lines] is what the operator will type when
    asked. *)
Definition deploy (w : world) (o : deploy_options) (lines : list string) : M unit :=
  console_set_log_level (opt_loglevel o) ;;
  do enabled <- hosting_feature_enabled w;
  if negb enabled then ret tt
  else if negb (opt_interactive o) && negb (truthy_opt (opt_key o)) then
    console_error [Lit "Please provide a deployment key when not in interactive mode."] ;;
    raise (TyperExit 1)
  else
    do requirements <- try_ (hosting_check_requirements_txt_exist w);
    match requirements with
    | Raise ex =>
        console_error [Str (REQUIREMENTS_TXT_FILE w); Lit " required for deployment"] ;;
        raise (TyperExit 1)
    | Ok _ =>
        prerequisites_check_initialized w true ;;
        do n <- negotiate w o lines;
        check_and_deploy w o n
    end.

(** * Vocabulary of the statements *)

(** ** Traces *)

Definition is_upload (e : event) : bool :=
  match e with HostingDeploy _ => true | _ => false end.

Definition is_prepare (e : event) : bool :=
  match e with PrepareDeploy _ _ _ => true | _ => false end.


Definition is_error (e : event) : bool :=
  match e with ConsoleError _ => true | _ => false end.

(** Events that are not an upload, not a prepare-deploy call, or
    neither. *)
Definition no_upload (e : event) : Prop := is_upload e = false.
Definition no_prepare (e : event) : Prop := is_prepare e = false.
Definition local (e : event) : Prop := is_upload e = false /\ is_prepare e = false.

(** The state after the events [t] more. *)
Definition extend (s : state) (t : list event) : state :=
  {| trace := trace s ++ t; cfg := cfg s |}.

(** [yields P Q m]: from any state, [m] adds to the trace only events
    that satisfy [P], leaves the configuration as it is, and a value it
    returns satisfies [Q]. *)
Definition yields {A : Type} (P : event -> Prop) (Q : A -> Prop) (m : M A) : Prop :=
  forall s, exists t,
    snd (m s) = extend s t /\ Forall P t /\
    match fst (m s) with Ok a => Q a | Raise _ => True end.

Abbreviation emits P m := (yields P (fun _ => True) m).

(** ** Strings *)

(** Whether the character occurs in the string. *)
Fixpoint occurs (c : ascii) (s : string) : bool :=
  match s with
  | EmptyString => false
  | String a rest => Ascii.eqb a c || occurs c rest
  end.

(** [chomp] drops one newline at the very end, if there is one. *)
Fixpoint chomp (s : string) : string :=
  match s with
  | EmptyString => EmptyString
  | String c rest =>
      if Ascii.eqb c newline && negb (truthy_str rest) then EmptyString
      else String c (chomp rest)
  end.

(** ** The environment entries *)

(** What lines 588 to 596 accept: an entry with a [=] whose name passes
    the check. *)
Definition accepted (env : string) : bool :=
  match partition_at "=" env with
  | Some (name, _) => re_match_env_name name
  | None => false
  end.

(** The value of the last entry of [envs] that has the name [name]. *)
Fixpoint last_value (name : string) (envs : list string) : option string :=
  match envs with
  | [] => None
  | env :: rest =>
      match last_value name rest with
      | Some value => Some value
      | None =>
          match partition_at "=" env with
          | Some (name', value) => if String.eqb name' name then Some value else None
          | None => None
          end
      end
  end.

(** The two messages of lines 590 and 593. *)
Definition env_error (msg : list piece) : Prop :=
  msg = [Lit "Invalid env format: should be <key>=<value>."] \/
  msg = [Lit "Invalid env name: should start with a letter or underscore, followed by letters, digits, or underscores."].

(** The entries that a run has at line 583: those of the command line,
    followed in interactive mode by those the operator added. *)
Definition entries_of (o : deploy_options) (envs : list string) : Prop :=
  (exists extra, envs = opt_envs o ++ extra) /\
  (opt_interactive o = false -> envs = opt_envs o).

(** What [processed_envs] is for a list of entries: [None] for no entry,
    else the dictionary of the last value of every name. *)
Definition processed (envs : list string) (d : option (gmap string string)) : Prop :=
  match d with
  | None => envs = []
  | Some d => envs <> [] /\ forall name, d !! name = last_value name envs
  end.

(** ** The run of [deploy] from line 577 *)

(** The test of line 579, passed. *)
Definition required_ok (o : deploy_options) (n : negotiated) : bool :=
  truthy_opt (n_key n) && truthy_list (n_regions n) && truthy_str (opt_app_name o)
  && truthy_str (n_app_prefix n) && truthy_str (n_api_url n).

(** The debug line of line 578. *)
Definition params_debug (o : deploy_options) (n : negotiated) : event :=
  ConsoleDebug [Lit "key="; OptStr (n_key n); Lit ", regions="; StrList (n_regions n);
                Lit ", app_name="; Str (opt_app_name o); Lit ", app_prefix=";
                Str (n_app_prefix n); Lit ", "; Str (n_api_url n)].

(** The configuration after lines 600 and 601. *)
Definition with_urls (c : config) (n : negotiated) : config :=
  {| cfg_frontend_port := cfg_frontend_port c; cfg_backend_port := cfg_backend_port c;
     cfg_api_url := n_api_url n; cfg_deploy_url := n_deploy_url n;
     cfg_cp_web_url := cfg_cp_web_url c |}.

(** ** The polls *)

(** The first call, among the [n] calls numbered from [call], that the
    service answers with success. *)
Fixpoint first_success (answer : nat -> bool) (n call : nat) : option nat :=
  match n with
  | O => None
  | S n' => if answer call then Some call else first_success answer n' (S call)
  end.

(** [k] polls that failed, each followed by its second of sleep. *)
Definition failed_polls (poll : event) (k : nat) : list event :=
  concat (repeat [poll; Sleep 1] k).

(** The events of a poll loop of at most [n] polls. *)
Definition poll_events (poll : event) (answer : nat -> bool) (n call : nat) : list event :=
  match first_success answer n call with
  | Some k => failed_polls poll (k - call) ++ [poll]
  | None => failed_polls poll n
  end.


(** Whether one of the first [n] polls succeeds. *)
Definition came_up (answer : nat -> bool) (n : nat) : bool :=
  match first_success answer n 0 with Some _ => true | None => false end.

Definition backend_answer (w : world) (r : deploy_response) (i : nat) : bool :=
  w_poll_backend w i (backend_url r).

Definition frontend_answer (w : world) (r : deploy_response) (i : nat) : bool :=
  w_poll_frontend w i (frontend_url r).

Definition backend_up (w : world) (r : deploy_response) : bool :=
  came_up (backend_answer w r) (BACKEND_POLL_TIMEOUT w).

Definition frontend_up (w : world) (r : deploy_response) : bool :=
  came_up (frontend_answer w r) (FRONTEND_POLL_TIMEOUT w).

(** The events of lines 643 to 647: the wait for the old deployment. *)
Definition old_deployment_wait (n : negotiated) : list event :=
  if n_overwrite_existing n
  then [ConsolePrint [Lit "Waiting for the old deployment to come down"];
        ConsoleStatus "this is a TODO"] ++ repeat (Sleep 1) 60
  else [].

Definition backend_events (w : world) (r : deploy_response) : list event :=
  poll_events (PollBackend (backend_url r)) (backend_answer w r) (BACKEND_POLL_TIMEOUT w) 0.

Definition frontend_events (w : world) (r : deploy_response) : list event :=
  poll_events (PollFrontend (frontend_url r)) (frontend_answer w r) (FRONTEND_POLL_TIMEOUT w) 0.

(** The events of lines 640 to 673, up to the cleanup call. *)
Definition await_events (w : world) (n : negotiated) (r : deploy_response) : list event :=
  [ConsoleDebug [Lit "deploy_response: "; DeployResponseText r];
   ConsolePrint [Lit "Deployment will start shortly."]] ++
  old_deployment_wait n ++
  [ConsolePrint [Lit "Waiting for the new deployment to come up"];
   ConsoleStatus "Checking backend ..."] ++
  backend_events w r ++
  [ConsolePrint [Lit (if backend_up w r then "Backend is up" else "Backend unreachable")];
   ConsoleStatus "Checking frontend ..."] ++
  frontend_events w r ++
  [ConsolePrint [Lit (if frontend_up w r then "frontend is up" else "frontend is unreachable")];
   CleanUp].

(** The last message, lines 674 to 681. *)
Definition final_report (w : world) (n : negotiated) (r : deploy_response) : event :=
  if frontend_up w r && backend_up w r then
    ConsolePrint [Lit "Your site [ "; OptStr (n_key n); Lit " ] at "; StrList (n_regions n);
                  Lit " is up: "; Str (frontend_url r)]
  else
    ConsoleWarn [Lit "Your deployment is taking unusually long. Check back later on its status: `reflex deployments status`"].

(** ** Reaching line 577 *)

(** The events of lines 465 to 482 when nothing stops the command. *)
Definition deploy_preamble (o : deploy_options) : list event :=
  [ConsoleSetLogLevel (opt_loglevel o); FeatureEnabled;
   CheckRequirementsTxtExist; CheckInitialized true].

(** The variables and the state with which a run of [deploy] arrives at
    line 577, if it does: the feature is on, a key is given or the run is
    interactive, the two checks pass and the negotiation returns. *)
Definition reaches_check (w : world) (o : deploy_options) (lines : list string) (c : config)
    : option (negotiated * state) :=
  if negb (w_feature_enabled w) then None
  else if negb (opt_interactive o) && negb (truthy_opt (opt_key o)) then None
  else
    match w_check_requirements_txt_exist w, w_check_initialized w true with
    | Ok _, Ok _ =>
        match negotiate w o lines (extend (initial_state c) (deploy_preamble o)) with
        | (Ok n, s) => Some (n, s)
        | (Raise _, _) => None
        end
    | _, _ => None
    end.

(** An entry that the validation is to reject: no [=] in it, or a name
    (the text before the first [=]) that is not in the language of the
    pattern even with one final newline set aside. *)
Definition bad_entry (env : string) : Prop :=
  occurs "=" env = false \/
  exists name value,
    env = name +:+ String "=" value /\ occurs "=" name = false /\
    valid_env_name (chomp name) = false.

(** ** The validation of the token *)

(** An answer of [hosting.validate_token] that is an error other than
    [ValueError]. *)
Definition transient (r : result unit) : Prop :=
  match r with
  | Ok _ => False
  | Raise (ValueError _) => False
  | Raise _ => True
  end.

Definition raised (r : result unit) : exn :=
  match r with
  | Ok _ => OtherError EmptyString
  | Raise e => e
  end.

(** The events of the validation attempts [call], ..., [call + k - 1]
    when each meets a transient error: the call, the debug line, five
    seconds of sleep. *)
Definition retries (w : world) (token : string) (call k : nat) : list event :=
  flat_map (fun i =>
    [ValidateToken token;
     ConsoleDebug [Lit "Unable to validate token due to: ";
                   ExnText (raised (w_validate_token w i token))];
     Sleep 5]) (seq call k).

(** ** Ports *)

(** [adds P m]: from any state, [m] adds to the trace only events that
    satisfy [P].  Unlike [yields] it lets [m] change the
    configuration. *)
Definition adds {A : Type} (P : event -> Prop) (m : M A) : Prop :=
  forall s, exists t, trace (snd (m s)) = trace s ++ t /\ Forall P t.

(** A call of [processes.change_or_terminate_port] is for a port that a
    process is on. *)
Definition port_negotiated_if_taken (w : world) (e : event) : Prop :=
  match e with
  | ChangeOrTerminatePort port _ => w_is_process_on_port w port = true
  | _ => True
  end.

Definition is_change_port (e : event) : bool :=
  match e with ChangeOrTerminatePort _ _ => true | _ => false end.

(** ** Worlds and options of the examples *)

Definition example_config : config :=
  {| cfg_frontend_port := "3000"; cfg_backend_port := "8000";
     cfg_api_url := EmptyString; cfg_deploy_url := EmptyString; cfg_cp_web_url := "https://cp.example" |}.

(** The answer of a control plane that suggests [app-one] when no key
    is given and confirms the key it is given, with the given API URL. *)
Definition example_prepare (api_url : string) (key : option string) : result prepare_response :=
  let info := {| pi_key := "app-one"; pi_api_url := api_url;
                 pi_deploy_url := "https://app.example" |} in
  match key with
  | Some _ =>
      Ok {| app_prefix := "prefix"; reply := Some info; existing := None; suggestion := None |}
  | None =>
      Ok {| app_prefix := "prefix"; reply := None; existing := None; suggestion := Some info |}
  end.

(** The worlds of the examples: the backend answers its third poll, the
    first validation of the token meets a transient error and the second
    an invalid token, no port is taken; the rest is given. *)
Definition make_world (feature_enabled : bool) (api_url : string)
    (poll_frontend : nat -> bool) (clean_up : result unit) : world :=
  {| w_feature_enabled := feature_enabled;
     w_check_requirements_txt_exist := Ok tt;
     w_check_initialized := fun _ => Ok tt;
     w_prepare_deploy := fun _ _ key _ => example_prepare api_url key;
     w_get_app := Ok tt;
     w_deploy := fun _ => Ok {| backend_url := "https://b"; frontend_url := "https://f" |};
     w_poll_backend := fun call _ => Nat.eqb call 2;
     w_poll_frontend := fun call _ => poll_frontend call;
     w_clean_up := clean_up;
     w_get_existing_access_token := Ok ("token", "code");
     w_uuid4_hex := "0123456789abcdef";
     w_webbrowser_open := fun _ => true;
     w_fetch_token := fun _ _ => Ok ("token", "code");
     w_validate_token := fun call _ =>
       match call with
       | O => Raise (OtherError "timeout")
       | _ => Raise (ValueError "invalid")
       end;
     w_is_process_on_port := fun _ => false;
     w_change_or_terminate_port := fun port _ => port;
     WEB_AUTH_TIMEOUT := 8;
     BACKEND_POLL_TIMEOUT := 30;
     FRONTEND_POLL_TIMEOUT := 30;
     FRONTEND_ZIP := "frontend.zip";
     BACKEND_ZIP := "backend.zip";
     REQUIREMENTS_TXT_FILE := "requirements.txt" |}.

(** A world in which everything works; the frontend answers its first
    poll. *)
Definition example_world : world :=
  make_world true "https://api.example" (fun call => Nat.eqb call 0) (Ok tt).

(** The same world with the hosting feature off. *)
Definition world_feature_off : world :=
  make_world false "https://api.example" (fun call => Nat.eqb call 0) (Ok tt).

(** The same world in which the cleanup call fails. *)
Definition world_cleanup_fails : world :=
  make_world true "https://api.example" (fun call => Nat.eqb call 0)
    (Raise (OtherError "PermissionError")).


(** The same world in which the control plane gives no API URL. *)
Definition world_no_api_url : world :=
  make_world true EmptyString (fun call => Nat.eqb call 0) (Ok tt).

(** [deploy --no-interactive -k app-one -r sjc] with the given entries. *)
Definition options_with_envs (envs : list string) : deploy_options :=
  {| opt_key := Some "app-one"; opt_app_name := "app"; opt_regions := ["sjc"];
     opt_envs := envs; opt_cpus := None; opt_memory_mb := None;
     opt_auto_start := Some true; opt_auto_stop := Some true;
     opt_frontend_hostname := None; opt_interactive := false; opt_loglevel := "info" |}.

(** The upload request of [deploy --no-interactive -k app-one -r sjc]
    without entries, for the control plane of the examples. *)
Definition example_request (w : world) : upload_request :=
  upload_request_of w (options_with_envs [])
    {| n_key := Some "app-one"; n_regions := ["sjc"]; n_envs := [];
       n_app_prefix := "prefix"; n_api_url := "https://api.example";
       n_deploy_url := "https://app.example"; n_overwrite_existing := false |}
    None.


(** [deploy --no-interactive] without a key. *)
Definition options_no_key : deploy_options :=
  {| opt_key := None; opt_app_name := "app"; opt_regions := ["sjc"];
     opt_envs := []; opt_cpus := None; opt_memory_mb := None;
     opt_auto_start := Some true; opt_auto_stop := Some true;
     opt_frontend_hostname := None; opt_interactive := false; opt_loglevel := "info" |}.

(** Plain [deploy], interactive, without options. *)
Definition options_interactive : deploy_options :=
  {| opt_key := None; opt_app_name := "app"; opt_regions := [];
     opt_envs := []; opt_cpus := None; opt_memory_mb := None;
     opt_auto_start := Some true; opt_auto_stop := Some true;
     opt_frontend_hostname := None; opt_interactive := true; opt_loglevel := "info" |}.

(** [run] with the ports of the configuration. *)
Definition example_run_options : run_options :=
  {| run_env := DEV; run_frontend_only := false; run_backend_only := false;
     run_frontend_port := "3000"; run_backend_port := "8000";
     run_backend_host := "0.0.0.0"; run_loglevel := "info" |}.

(** The name [A] followed by a newline. *)
Definition name_with_newline : string := String "A" (String newline EmptyString).

(** * Vocabulary of the further properties *)

(** ** Worlds that differ in one answer *)

(** The world [w] with another answer of [hosting.check_requirements_txt_exist]. *)
Definition with_requirements_check (w : world) (answer : result unit) : world :=
  {| w_feature_enabled := w_feature_enabled w; w_check_requirements_txt_exist := answer;
     w_check_initialized := w_check_initialized w; w_prepare_deploy := w_prepare_deploy w;
     w_get_app := w_get_app w; w_deploy := w_deploy w; w_poll_backend := w_poll_backend w;
     w_poll_frontend := w_poll_frontend w; w_clean_up := w_clean_up w;
     w_get_existing_access_token := w_get_existing_access_token w;
     w_uuid4_hex := w_uuid4_hex w; w_webbrowser_open := w_webbrowser_open w;
     w_fetch_token := w_fetch_token w; w_validate_token := w_validate_token w;
     w_is_process_on_port := w_is_process_on_port w;
     w_change_or_terminate_port := w_change_or_terminate_port w;
     WEB_AUTH_TIMEOUT := WEB_AUTH_TIMEOUT w; BACKEND_POLL_TIMEOUT := BACKEND_POLL_TIMEOUT w;
     FRONTEND_POLL_TIMEOUT := FRONTEND_POLL_TIMEOUT w; FRONTEND_ZIP := FRONTEND_ZIP w;
     BACKEND_ZIP := BACKEND_ZIP w; REQUIREMENTS_TXT_FILE := REQUIREMENTS_TXT_FILE w |}.

(** The world [w] with other answers of [hosting.prepare_deploy]. *)
Definition with_prepare_deploy (w : world)
    (answer : nat -> string -> option string -> option string -> result prepare_response)
    : world :=
  {| w_feature_enabled := w_feature_enabled w;
     w_check_requirements_txt_exist := w_check_requirements_txt_exist w;
     w_check_initialized := w_check_initialized w; w_prepare_deploy := answer;
     w_get_app := w_get_app w; w_deploy := w_deploy w; w_poll_backend := w_poll_backend w;
     w_poll_frontend := w_poll_frontend w; w_clean_up := w_clean_up w;
     w_get_existing_access_token := w_get_existing_access_token w;
     w_uuid4_hex := w_uuid4_hex w; w_webbrowser_open := w_webbrowser_open w;
     w_fetch_token := w_fetch_token w; w_validate_token := w_validate_token w;
     w_is_process_on_port := w_is_process_on_port w;
     w_change_or_terminate_port := w_change_or_terminate_port w;
     WEB_AUTH_TIMEOUT := WEB_AUTH_TIMEOUT w; BACKEND_POLL_TIMEOUT := BACKEND_POLL_TIMEOUT w;
     FRONTEND_POLL_TIMEOUT := FRONTEND_POLL_TIMEOUT w; FRONTEND_ZIP := FRONTEND_ZIP w;
     BACKEND_ZIP := BACKEND_ZIP w; REQUIREMENTS_TXT_FILE := REQUIREMENTS_TXT_FILE w |}.

(** The world [w] with another answer of [prerequisites.get_app]. *)
Definition with_get_app (w : world) (answer : result unit) : world :=
  {| w_feature_enabled := w_feature_enabled w;
     w_check_requirements_txt_exist := w_check_requirements_txt_exist w;
     w_check_initialized := w_check_initialized w; w_prepare_deploy := w_prepare_deploy w;
     w_get_app := answer; w_deploy := w_deploy w; w_poll_backend := w_poll_backend w;
     w_poll_frontend := w_poll_frontend w; w_clean_up := w_clean_up w;
     w_get_existing_access_token := w_get_existing_access_token w;
     w_uuid4_hex := w_uuid4_hex w; w_webbrowser_open := w_webbrowser_open w;
     w_fetch_token := w_fetch_token w; w_validate_token := w_validate_token w;
     w_is_process_on_port := w_is_process_on_port w;
     w_change_or_terminate_port := w_change_or_terminate_port w;
     WEB_AUTH_TIMEOUT := WEB_AUTH_TIMEOUT w; BACKEND_POLL_TIMEOUT := BACKEND_POLL_TIMEOUT w;
     FRONTEND_POLL_TIMEOUT := FRONTEND_POLL_TIMEOUT w; FRONTEND_ZIP := FRONTEND_ZIP w;
     BACKEND_ZIP := BACKEND_ZIP w; REQUIREMENTS_TXT_FILE := REQUIREMENTS_TXT_FILE w |}.

(** The world [w] with other answers of [hosting.deploy]. *)
Definition with_deploy (w : world) (answer : upload_request -> result deploy_response) : world :=
  {| w_feature_enabled := w_feature_enabled w;
     w_check_requirements_txt_exist := w_check_requirements_txt_exist w;
     w_check_initialized := w_check_initialized w; w_prepare_deploy := w_prepare_deploy w;
     w_get_app := w_get_app w; w_deploy := answer; w_poll_backend := w_poll_backend w;
     w_poll_frontend := w_poll_frontend w; w_clean_up := w_clean_up w;
     w_get_existing_access_token := w_get_existing_access_token w;
     w_uuid4_hex := w_uuid4_hex w; w_webbrowser_open := w_webbrowser_open w;
     w_fetch_token := w_fetch_token w; w_validate_token := w_validate_token w;
     w_is_process_on_port := w_is_process_on_port w;
     w_change_or_terminate_port := w_change_or_terminate_port w;
     WEB_AUTH_TIMEOUT := WEB_AUTH_TIMEOUT w; BACKEND_POLL_TIMEOUT := BACKEND_POLL_TIMEOUT w;
     FRONTEND_POLL_TIMEOUT := FRONTEND_POLL_TIMEOUT w; FRONTEND_ZIP := FRONTEND_ZIP w;
     BACKEND_ZIP := BACKEND_ZIP w; REQUIREMENTS_TXT_FILE := REQUIREMENTS_TXT_FILE w |}.

(** The world [w] with another answer of [hosting.get_existing_access_token]. *)
Definition with_existing_access_token (w : world) (answer : result (string * string)) : world :=
  {| w_feature_enabled := w_feature_enabled w;
     w_check_requirements_txt_exist := w_check_requirements_txt_exist w;
     w_check_initialized := w_check_initialized w; w_prepare_deploy := w_prepare_deploy w;
     w_get_app := w_get_app w; w_deploy := w_deploy w; w_poll_backend := w_poll_backend w;
     w_poll_frontend := w_poll_frontend w; w_clean_up := w_clean_up w;
     w_get_existing_access_token := answer; w_uuid4_hex := w_uuid4_hex w;
     w_webbrowser_open := w_webbrowser_open w; w_fetch_token := w_fetch_token w;
     w_validate_token := w_validate_token w; w_is_process_on_port := w_is_process_on_port w;
     w_change_or_terminate_port := w_change_or_terminate_port w;
     WEB_AUTH_TIMEOUT := WEB_AUTH_TIMEOUT w; BACKEND_POLL_TIMEOUT := BACKEND_POLL_TIMEOUT w;
     FRONTEND_POLL_TIMEOUT := FRONTEND_POLL_TIMEOUT w; FRONTEND_ZIP := FRONTEND_ZIP w;
     BACKEND_ZIP := BACKEND_ZIP w; REQUIREMENTS_TXT_FILE := REQUIREMENTS_TXT_FILE w |}.

(** The world [w] with other answers of [webbrowser.open]. *)
Definition with_webbrowser_open (w : world) (answer : list piece -> bool) : world :=
  {| w_feature_enabled := w_feature_enabled w;
     w_check_requirements_txt_exist := w_check_requirements_txt_exist w;
     w_check_initialized := w_check_initialized w; w_prepare_deploy := w_prepare_deploy w;
     w_get_app := w_get_app w; w_deploy := w_deploy w; w_poll_backend := w_poll_backend w;
     w_poll_frontend := w_poll_frontend w; w_clean_up := w_clean_up w;
     w_get_existing_access_token := w_get_existing_access_token w;
     w_uuid4_hex := w_uuid4_hex w; w_webbrowser_open := answer;
     w_fetch_token := w_fetch_token w; w_validate_token := w_validate_token w;
     w_is_process_on_port := w_is_process_on_port w;
     w_change_or_terminate_port := w_change_or_terminate_port w;
     WEB_AUTH_TIMEOUT := WEB_AUTH_TIMEOUT w; BACKEND_POLL_TIMEOUT := BACKEND_POLL_TIMEOUT w;
     FRONTEND_POLL_TIMEOUT := FRONTEND_POLL_TIMEOUT w; FRONTEND_ZIP := FRONTEND_ZIP w;
     BACKEND_ZIP := BACKEND_ZIP w; REQUIREMENTS_TXT_FILE := REQUIREMENTS_TXT_FILE w |}.

(** The world [w] with other answers of [hosting.fetch_token]. *)
Definition with_fetch_token (w : world) (answer : nat -> string -> result (string * string)) : world :=
  {| w_feature_enabled := w_feature_enabled w;
     w_check_requirements_txt_exist := w_check_requirements_txt_exist w;
     w_check_initialized := w_check_initialized w; w_prepare_deploy := w_prepare_deploy w;
     w_get_app := w_get_app w; w_deploy := w_deploy w; w_poll_backend := w_poll_backend w;
     w_poll_frontend := w_poll_frontend w; w_clean_up := w_clean_up w;
     w_get_existing_access_token := w_get_existing_access_token w;
     w_uuid4_hex := w_uuid4_hex w; w_webbrowser_open := w_webbrowser_open w;
     w_fetch_token := answer; w_validate_token := w_validate_token w;
     w_is_process_on_port := w_is_process_on_port w;
     w_change_or_terminate_port := w_change_or_terminate_port w;
     WEB_AUTH_TIMEOUT := WEB_AUTH_TIMEOUT w; BACKEND_POLL_TIMEOUT := BACKEND_POLL_TIMEOUT w;
     FRONTEND_POLL_TIMEOUT := FRONTEND_POLL_TIMEOUT w; FRONTEND_ZIP := FRONTEND_ZIP w;
     BACKEND_ZIP := BACKEND_ZIP w; REQUIREMENTS_TXT_FILE := REQUIREMENTS_TXT_FILE w |}.

(** The world [w] with other answers of [hosting.validate_token]. *)
Definition with_validate_token (w : world) (answer : nat -> string -> result unit) : world :=
  {| w_feature_enabled := w_feature_enabled w;
     w_check_requirements_txt_exist := w_check_requirements_txt_exist w;
     w_check_initialized := w_check_initialized w; w_prepare_deploy := w_prepare_deploy w;
     w_get_app := w_get_app w; w_deploy := w_deploy w; w_poll_backend := w_poll_backend w;
     w_poll_frontend := w_poll_frontend w; w_clean_up := w_clean_up w;
     w_get_existing_access_token := w_get_existing_access_token w;
     w_uuid4_hex := w_uuid4_hex w; w_webbrowser_open := w_webbrowser_open w;
     w_fetch_token := w_fetch_token w; w_validate_token := answer;
     w_is_process_on_port := w_is_process_on_port w;
     w_change_or_terminate_port := w_change_or_terminate_port w;
     WEB_AUTH_TIMEOUT := WEB_AUTH_TIMEOUT w; BACKEND_POLL_TIMEOUT := BACKEND_POLL_TIMEOUT w;
     FRONTEND_POLL_TIMEOUT := FRONTEND_POLL_TIMEOUT w; FRONTEND_ZIP := FRONTEND_ZIP w;
     BACKEND_ZIP := BACKEND_ZIP w; REQUIREMENTS_TXT_FILE := REQUIREMENTS_TXT_FILE w |}.

(** The world [w] with other answers of [processes.is_process_on_port]. *)
Definition with_process_on_port (w : world) (answer : string -> bool) : world :=
  {| w_feature_enabled := w_feature_enabled w;
     w_check_requirements_txt_exist := w_check_requirements_txt_exist w;
     w_check_initialized := w_check_initialized w; w_prepare_deploy := w_prepare_deploy w;
     w_get_app := w_get_app w; w_deploy := w_deploy w; w_poll_backend := w_poll_backend w;
     w_poll_frontend := w_poll_frontend w; w_clean_up := w_clean_up w;
     w_get_existing_access_token := w_get_existing_access_token w;
     w_uuid4_hex := w_uuid4_hex w; w_webbrowser_open := w_webbrowser_open w;
     w_fetch_token := w_fetch_token w; w_validate_token := w_validate_token w;
     w_is_process_on_port := answer;
     w_change_or_terminate_port := w_change_or_terminate_port w;
     WEB_AUTH_TIMEOUT := WEB_AUTH_TIMEOUT w; BACKEND_POLL_TIMEOUT := BACKEND_POLL_TIMEOUT w;
     FRONTEND_POLL_TIMEOUT := FRONTEND_POLL_TIMEOUT w; FRONTEND_ZIP := FRONTEND_ZIP w;
     BACKEND_ZIP := BACKEND_ZIP w; REQUIREMENTS_TXT_FILE := REQUIREMENTS_TXT_FILE w |}.

(** The world [w] with other answers of [processes.change_or_terminate_port]. *)
Definition with_change_or_terminate_port (w : world) (answer : string -> string -> string) : world :=
  {| w_feature_enabled := w_feature_enabled w;
     w_check_requirements_txt_exist := w_check_requirements_txt_exist w;
     w_check_initialized := w_check_initialized w; w_prepare_deploy := w_prepare_deploy w;
     w_get_app := w_get_app w; w_deploy := w_deploy w; w_poll_backend := w_poll_backend w;
     w_poll_frontend := w_poll_frontend w; w_clean_up := w_clean_up w;
     w_get_existing_access_token := w_get_existing_access_token w;
     w_uuid4_hex := w_uuid4_hex w; w_webbrowser_open := w_webbrowser_open w;
     w_fetch_token := w_fetch_token w; w_validate_token := w_validate_token w;
     w_is_process_on_port := w_is_process_on_port w; w_change_or_terminate_port := answer;
     WEB_AUTH_TIMEOUT := WEB_AUTH_TIMEOUT w; BACKEND_POLL_TIMEOUT := BACKEND_POLL_TIMEOUT w;
     FRONTEND_POLL_TIMEOUT := FRONTEND_POLL_TIMEOUT w; FRONTEND_ZIP := FRONTEND_ZIP w;
     BACKEND_ZIP := BACKEND_ZIP w; REQUIREMENTS_TXT_FILE := REQUIREMENTS_TXT_FILE w |}.

(** The world [w] with other answers of [prerequisites.check_initialized]. *)
Definition with_check_initialized (w : world) (answer : bool -> result unit) : world :=
  {| w_feature_enabled := w_feature_enabled w;
     w_check_requirements_txt_exist := w_check_requirements_txt_exist w;
     w_check_initialized := answer; w_prepare_deploy := w_prepare_deploy w;
     w_get_app := w_get_app w; w_deploy := w_deploy w; w_poll_backend := w_poll_backend w;
     w_poll_frontend := w_poll_frontend w; w_clean_up := w_clean_up w;
     w_get_existing_access_token := w_get_existing_access_token w;
     w_uuid4_hex := w_uuid4_hex w; w_webbrowser_open := w_webbrowser_open w;
     w_fetch_token := w_fetch_token w; w_validate_token := w_validate_token w;
     w_is_process_on_port := w_is_process_on_port w;
     w_change_or_terminate_port := w_change_or_terminate_port w;
     WEB_AUTH_TIMEOUT := WEB_AUTH_TIMEOUT w; BACKEND_POLL_TIMEOUT := BACKEND_POLL_TIMEOUT w;
     FRONTEND_POLL_TIMEOUT := FRONTEND_POLL_TIMEOUT w; FRONTEND_ZIP := FRONTEND_ZIP w;
     BACKEND_ZIP := BACKEND_ZIP w; REQUIREMENTS_TXT_FILE := REQUIREMENTS_TXT_FILE w |}.

(** ** The export *)

(** The events of [export] when nothing raises. *)
Definition export_events (zipping frontend backend : bool) (loglevel deploy_url : string)
    : list event :=
  [ConsoleSetLogLevel loglevel; OutputSystemInfo; CheckInitialized frontend;
   ConsoleRule [Lit "[bold]Compiling production app and preparing for export."]] ++
  (if frontend then [GetApp; BuildSetup setup_frontend] else []) ++
  [BuildExport backend frontend zipping deploy_url; TelemetrySend "export"].

Definition is_export (e : event) : bool :=
  match e with BuildExport _ _ _ _ => true | _ => false end.

(** ** Examples *)

(** A control plane whose answer to a call without a key is an existing
    deployment [old-app], and otherwise as in the examples. *)
Definition prepare_existing (call : nat) (app_name : string) (key : option string)
    (frontend_hostname : option string) : result prepare_response :=
  match key with
  | Some _ => example_prepare "https://api.example" key
  | None =>
      Ok {| app_prefix := "prefix"; reply := None;
            existing := Some [{| pi_key := "old-app"; pi_api_url := "https://api.example";
                                 pi_deploy_url := "https://old.example" |}];
            suggestion := Some {| pi_key := "app-one"; pi_api_url := "https://api.example";
                                  pi_deploy_url := "https://app.example" |} |}
  end.

(** A control plane that has no answer at all. *)
Definition prepare_unreachable (call : nat) (app_name : string) (key : option string)
    (frontend_hostname : option string) : result prepare_response :=
  Raise (OtherError "connection refused").

(** A control plane that has no reply for the key it is given, only a
    suggestion. *)
Definition prepare_no_reply (call : nat) (app_name : string) (key : option string)
    (frontend_hostname : option string) : result prepare_response :=
  Ok {| app_prefix := "prefix"; reply := None; existing := None;
        suggestion := Some {| pi_key := "app-two"; pi_api_url := "https://api.example";
                              pi_deploy_url := "https://app.example" |} |}.

(** The variables of line 577 in the examples without the operator. *)
Definition example_negotiated (envs : list string) : negotiated :=
  {| n_key := Some "app-one"; n_regions := ["sjc"]; n_envs := envs;
     n_app_prefix := "prefix"; n_api_url := "https://api.example";
     n_deploy_url := "https://app.example"; n_overwrite_existing := false |}.

(** ** The environment entries *)

(** The message for an entry that is not accepted: the one of line 590
    when it has no [=], else the one of line 593. *)
Definition entry_error (env : string) : list piece :=
  if occurs "=" env
  then [Lit "Invalid env name: should start with a letter or underscore, followed by letters, digits, or underscores."]
  else [Lit "Invalid env format: should be <key>=<value>."].

(** A text that the operator types and that the prompt hands on as it
    is: not empty, and made of visible ASCII characters only, so without
    a blank or a control character at either end or anywhere else. *)
Definition is_visible (c : ascii) : bool := in_range "!" "~" c.

Fixpoint all_visible (s : string) : bool :=
  match s with
  | EmptyString => true
  | String c rest => is_visible c && all_visible rest
  end.

Definition typed_text (s : string) : bool := truthy_str s && all_visible s.

(** The entry made of a name and a value typed at the prompt, line 575. *)
Definition typed_entry (pair : string * string) : string :=
  fst pair +:+ "=" +:+ snd pair.

(** The lines that the operator types for a list of names and values:
    each name, then its value. *)
Definition typed_lines (pairs : list (string * string)) : list string :=
  flat_map (fun pair => [fst pair; snd pair]) pairs.

(** The questions for the names and values: the first name is asked for
    with [prompt], the later ones with the prompt of line 565. *)
Fixpoint typed_questions (prompt : string) (pairs : list (string * string)) : list event :=
  match pairs with
  | [] => []
  | _ :: rest =>
      [ConsoleAsk prompt None; ConsoleAsk "  env value" None] ++
      typed_questions "  env name (enter to finish)" rest
  end.

(** The prompt for the name after [pairs] have been typed. *)
Definition next_prompt (prompt : string) (pairs : list (string * string)) : string :=
  match pairs with
  | [] => prompt
  | _ :: _ => "  env name (enter to finish)"
  end.

(** ** The suggested key *)

(** The reply with which the control plane confirms [key_input] at the
    call [call], if it does: lines 528 to 535. *)
Definition confirmation (w : world) (o : deploy_options) (call : nat) (key_input : string)
    : option prep_info :=
  match w_prepare_deploy w call (opt_app_name o) (Some key_input) (opt_frontend_hostname o)
  with
  | Ok response =>
      match reply response with
      | Some r => if String.eqb key_input (pi_key r) then Some r else None
      | None => None
      end
  | Raise _ => None
  end.

(** The events of the answers [tried], none of which was confirmed:
    the question, the call and the error, for each. *)
Definition rejected_answers (o : deploy_options) (key_candidate : string)
    (tried : list string) : list event :=
  flat_map (fun line =>
    [ConsoleAsk "Name of deployment" (Some key_candidate);
     PrepareDeploy (opt_app_name o) (Some (ask_answer (Some key_candidate) line))
       (opt_frontend_hostname o);
     ConsoleError [Lit "Cannot deploy at this name, try picking a different name"]]) tried.

(** No answer of [tried] is confirmed, the first being call [call]. *)
Fixpoint all_rejected (w : world) (o : deploy_options) (call : nat) (key_candidate : string)
    (tried : list string) : Prop :=
  match tried with
  | [] => True
  | line :: rest =>
      confirmation w o call (ask_answer (Some key_candidate) line) = None /\
      all_rejected w o (S call) key_candidate rest
  end.

(** A control plane that takes no name but [app-one]: it raises for any
    other key, confirms [app-one], and suggests it when no key is
    given. *)
Definition prepare_only_app_one (call : nat) (app_name : string) (key : option string)
    (frontend_hostname : option string) : result prepare_response :=
  match key with
  | Some k =>
      if String.eqb k "app-one" then example_prepare "https://api.example" key
      else Raise (OtherError "name taken")
  | None => example_prepare "https://api.example" None
  end.

(** [deploy -k app-one --env A=1], with the operator. *)
Definition options_interactive_with_key : deploy_options :=
  {| opt_key := Some "app-one"; opt_app_name := "app"; opt_regions := [];
     opt_envs := ["A=1"]; opt_cpus := None; opt_memory_mb := None;
     opt_auto_start := Some true; opt_auto_stop := Some true;
     opt_frontend_hostname := None; opt_interactive := true; opt_loglevel := "info" |}.

(** ** [login] *)

(** The URL that [login] opens in the browser, line 289. *)
Definition login_url (w : world) (c : config) : list piece :=
  [Str (cfg_cp_web_url c); Lit "?request-id="; Str (w_uuid4_hex w); Lit "&code=";
   Str EmptyString].

(** The events of [login] up to the opening of the browser, when there
    is no token yet. *)
Definition login_opening (w : world) (loglevel : string) (c : config) : list event :=
  [ConsoleSetLogLevel loglevel; FeatureEnabled; GetExistingAccessToken;
   ConsolePrint [Lit "Opening "; Str (cfg_cp_web_url c); Lit " ..."];
   WebbrowserOpen (login_url w c)].

(** [k] requests for the token that failed, each followed by five
    seconds of sleep. *)
Definition failed_fetches (request_id : string) (k : nat) : list event :=
  concat (repeat [FetchToken request_id; Sleep 5] k).

Definition is_raise {A : Type} (r : result A) : bool :=
  match r with Ok _ => false | Raise _ => true end.

Definition is_save (e : event) : bool :=
  match e with SaveTokenToConfig _ _ => true | _ => false end.

Definition is_validate (e : event) : bool :=
  match e with ValidateToken _ => true | _ => false end.

Definition is_fetch (e : event) : bool :=
  match e with FetchToken _ => true | _ => false end.

(** A world without a stored token, where the first two requests for
    the token fail and every validation succeeds. *)
Definition world_new_login : world :=
  with_validate_token
    (with_fetch_token
       (with_existing_access_token example_world (Raise (OtherError "no token")))
       (fun call _ => if Nat.ltb call 2 then Raise (OtherError "pending")
                      else Ok ("token", "code")))
    (fun _ _ => Ok tt).

(** A world without a stored token where no request for the token ever
    succeeds. *)
Definition world_no_token : world :=
  with_fetch_token
    (with_existing_access_token example_world (Raise (OtherError "no token")))
    (fun _ _ => Raise (OtherError "pending")).

(** A world without a stored token and without a browser. *)
Definition world_no_browser : world :=
  with_webbrowser_open
    (with_existing_access_token example_world (Raise (OtherError "no token")))
    (fun _ => false).

(** A world with a stored token that is found valid at the third
    validation. *)
Definition world_logged_in : world :=
  with_validate_token example_world
    (fun call _ => if Nat.ltb call 2 then Raise (OtherError "timeout") else Ok tt).

(** ** [run] *)

(** The sides that [run] starts, lines 146 to 148: both unless exactly
    one of [--frontend-only] and [--backend-only] is given. *)
Definition frontend_on (o : run_options) : bool :=
  if negb (run_frontend_only o) && negb (run_backend_only o) then true
  else run_frontend_only o.

Definition backend_on (o : run_options) : bool :=
  if negb (run_frontend_only o) && negb (run_backend_only o) then true
  else run_backend_only o.

(** The port that lines 157 to 161 settle on. *)
Definition resolved_port (w : world) (enabled : bool) (port role : string) : string :=
  if enabled && w_is_process_on_port w port then w_change_or_terminate_port w port role
  else port.

Definition frontend_port_of (w : world) (o : run_options) : string :=
  resolved_port w (frontend_on o) (run_frontend_port o) "frontend".

Definition backend_port_of (w : world) (o : run_options) : string :=
  resolved_port w (backend_on o) (run_backend_port o) "backend".

(** The commands of the two environments. *)
Definition frontend_command (e : Env) : command :=
  match e with DEV => run_frontend | PROD => run_frontend_prod end.

Definition backend_command (e : Env) : command :=
  match e with DEV => run_backend | PROD => run_backend_prod end.

(** What [run] starts on separate threads: the frontend if it is on,
    and in production the backend if it is on. *)
Definition concurrent_commands (w : world) (o : run_options)
    : list (command * string * string) :=
  (if frontend_on o then [(frontend_command (run_env o), "cwd", frontend_port_of w o)]
   else []) ++
  (match run_env o with
   | PROD => if backend_on o
             then [(backend_command PROD, run_backend_host o, backend_port_of w o)]
             else []
   | DEV => []
   end).




(** The configuration with the two ports of the run. *)
Definition with_ports (c : config) (frontend_port backend_port : string) : config :=
  {| cfg_frontend_port := frontend_port; cfg_backend_port := backend_port;
     cfg_api_url := cfg_api_url c; cfg_deploy_url := cfg_deploy_url c;
     cfg_cp_web_url := cfg_cp_web_url c |}.

Definition is_main_thread (e : event) : bool :=
  match e with RunOnMainThread _ _ _ => true | _ => false end.

Definition is_concurrent (e : event) : bool :=
  match e with RunConcurrently _ => true | _ => false end.

Definition is_frontend_work (e : event) : bool :=
  match e with GetApp | BuildSetup _ => true | _ => false end.


Definition run_prod_options : run_options :=
  {| run_env := PROD; run_frontend_only := false; run_backend_only := false;
     run_frontend_port := "3000"; run_backend_port := "8000";
     run_backend_host := "0.0.0.0"; run_loglevel := "info" |}.

(** A world in which port 3000 is taken and the operator moves to 3001. *)
Definition world_port_taken : world :=
  with_change_or_terminate_port
    (with_process_on_port example_world (fun port => String.eqb port "3000"))
    (fun _ _ => "3001").

Definition is_persist (e : event) : bool :=
  match e with
  | SetPersistentFrontendPort _ | SetPersistentBackendPort _ => true
  | _ => false
  end.

Definition is_port_question (e : event) : bool :=
  match e with IsProcessOnPort _ | ChangeOrTerminatePort _ _ => true | _ => false end.

Definition is_telemetry (e : event) : bool :=
  match e with TelemetrySend _ => true | _ => false end.

(** * The other commands: [init], [logout], [db] and [deployments]

    The same kind of embedding for the commands that have nothing in
    common with [deploy] but the console: their external calls are not
    those of [event], and alembic's [CommandError] and the [IndexError]
    of an empty list matter to them. *)

(** [logout], lines 337 to 348: after the feature check there is
    nothing but a [TODO]. *)
Definition logout (w : world) (loglevel : string) : M unit :=
  console_set_log_level loglevel ;;
  do enabled <- hosting_feature_enabled w;
  if negb enabled then ret tt
  else ret tt.

Module Subcommands.

(** Exceptions.  Every constructor is a subclass of [Exception];
    [Exit] is [typer.Exit]. *)
Inductive error : Type :=
| Exit (code : Z)
| CommandError (msg : string)
| IndexError
| OtherException (msg : string).

Inductive answer (A : Type) : Type :=
| Returns (a : A)
| Raises (e : error).

Arguments Returns {A} a.
Arguments Raises {A} e.

(** A deployment as the hosting service lists it: a dictionary, kept as
    the list of its keys and values in order.  The values are shown as
    text. *)
Definition deployment : Type := list (string * string).

(** The parts of a console message.  [Text] is a text that a library
    made ([json.dumps], [tabulate]); [ListText] is [str(deployments)]. *)
Inductive part : Type :=
| Lit (s : string)
| Str (s : string)
| ErrorText (e : error)
| Text (s : string)
| ListText (deployments : list deployment).

(** The external calls. *)
Inductive call : Type :=
| SetLogLevel (level : string)
| Print (msg : list part)
| Error (msg : list part)
| Debug (msg : list part)
| Success (msg : list part)
| Rule (msg : list part)
| OutputSystemInfo
| FeatureEnabled
| ListDeployments
| JsonDumps (deployments : list deployment)
| Tabulate (table : list (list string)) (headers : list string)
| DeleteDeployment (key : string)
| GetLogs (key : string)
| SkipCompile
| GetApp
| AlembicInit
| Migrate (autogenerate : option bool)
| CheckDbInitialized
| CheckSchemaUpToDate
| EngineConnect
| AlembicAutogenerate (message : option string)
| GetDefaultAppName
| InitializeFrontendDependencies
| MigrateToReflex
| CreateConfig (app_name : string)
| InitializeAppDirectory (app_name template : string)
| TelemetrySend (what : string)
| InitializeGitignore
| InitializeRequirementsTxt.

(** What the commands ask for and do not compute: the answers of the
    hosting service, of the two libraries that format, of alembic and
    of the prerequisites, and what the commands read, each as it is at
    the time the command looks: [config.db_url], whether the alembic
    configuration exists (line 368), whether the configuration file of
    the project exists (line 99). *)
Record services : Type := mk_services {
  s_feature_enabled : bool;
  s_list_deployments : answer (list deployment);
  s_json_dumps : list deployment -> answer string;
  s_tabulate : list (list string) -> list string -> answer string;
  s_delete_deployment : string -> answer unit;
  s_get_logs : string -> answer unit;
  s_db_url : option string;
  s_alembic_config_exists : bool;
  s_get_app : answer unit;
  s_alembic_init : answer unit;
  s_migrate : option bool -> answer unit;
  s_check_db_initialized : answer bool;
  s_connect : answer unit;
  s_alembic_autogenerate : option string -> answer unit;
  s_get_default_app_name : answer string;
  s_initialize_frontend_dependencies : answer unit;
  s_migrate_to_reflex : answer unit;
  s_config_file_exists : bool;
  s_create_config : string -> answer unit;
  s_initialize_app_directory : string -> string -> answer unit;
  s_initialize_gitignore : answer unit;
  s_initialize_requirements_txt : answer unit
}.

(** The monad: the calls made so far are threaded, an exception stops
    the command. *)
Definition C (A : Type) : Type := list call -> answer A * list call.

Definition ret {A : Type} (a : A) : C A := fun t => (Returns a, t).

Definition bind {A B : Type} (m : C A) (k : A -> C B) : C B :=
  fun t =>
    match m t with
    | (Returns a, t') => k a t'
    | (Raises e, t') => (Raises e, t')
    end.

Definition raise {A : Type} (e : error) : C A := fun t => (Raises e, t).

Definition try_ {A : Type} (m : C A) : C (answer A) :=
  fun t => match m t with (r, t') => (Returns r, t') end.

Definition lift {A : Type} (r : answer A) : C A := fun t => (r, t).

Definition log (c : call) : C unit := fun t => (Returns tt, t ++ [c]).

Declare Scope sub_scope.
Delimit Scope sub_scope with sub.
Notation "'do' x <- m ; k" := (bind m (fun x => k))
  (at level 10, x name, m at level 100, k at level 200) : sub_scope.
Notation "m ;; k" := (bind m (fun _ => k))
  (at level 100, k at level 200, right associativity, only parsing) : sub_scope.
Local Open Scope sub_scope.

Definition outcome {A : Type} (m : C A) : answer A := fst (m []).
Definition calls {A : Type} (m : C A) : list call := snd (m []).

(** The exit code of a command that does not end in a traceback. *)
Definition exit_code {A : Type} (r : answer A) : option Z :=
  match r with
  | Returns _ => Some 0%Z
  | Raises (Exit code) => Some code
  | Raises _ => None
  end.

(** ** The [deployments] commands, lines 684 to 796 *)

(** Lines 688 to 716. *)
Definition list_deployments (sv : services) (loglevel : string) (as_json : bool) : C unit :=
  log (SetLogLevel loglevel) ;;
  log FeatureEnabled ;;
  if negb (s_feature_enabled sv) then ret tt
  else
    do listed <- try_ (log ListDeployments ;; lift (s_list_deployments sv));
    match listed with
    | Raises ex =>
        log (Error [Lit "Unable to list deployments due to: "; ErrorText ex]) ;;
        raise (Exit 1)
    | Returns deployments =>
        if as_json then
          do text <- (log (JsonDumps deployments) ;; lift (s_json_dumps sv deployments));
          log (Print [Text text])
        else
          do tabulated <- try_ (
            do first <- match deployments with
                        | [] => raise IndexError
                        | d :: _ => ret d
                        end;
            let headers := map fst first in
            let table := map (map snd) deployments in
            do text <- (log (Tabulate table headers) ;; lift (s_tabulate sv table headers));
            log (Print [Text text]));
          match tabulated with
          | Returns _ => ret tt
          | Raises ex =>
              log (Debug [Lit "Unable to tabulate the deployments due to: "; ErrorText ex]) ;;
              log (Print [ListText deployments])
          end
    end.

(** Lines 720 to 736. *)
Definition delete_deployment (sv : services) (key loglevel : string) : C unit :=
  log (SetLogLevel loglevel) ;;
  log FeatureEnabled ;;
  if negb (s_feature_enabled sv) then ret tt
  else
    do deleted <- try_ (log (DeleteDeployment key) ;; lift (s_delete_deployment sv key));
    match deleted with
    | Raises ex =>
        log (Error [Lit "Unable to delete deployment due to: "; ErrorText ex]) ;;
        raise (Exit 1)
    | Returns _ =>
        log (Print [Lit "Successfully deleted [ "; Str key; Lit " ]."])
    end.

(** Lines 779 to 796. *)
Definition get_deployment_logs (sv : services) (key loglevel : string) : C unit :=
  log (SetLogLevel loglevel) ;;
  log FeatureEnabled ;;
  if negb (s_feature_enabled sv) then ret tt
  else
    log (Print [Lit "Note: there is a few seconds delay for logs to be available."]) ;;
    do fetched <- try_ (log (GetLogs key) ;; lift (s_get_logs sv key));
    match fetched with
    | Raises ex =>
        log (Error [Lit "Unable to get deployment logs due to: "; ErrorText ex]) ;;
        raise (Exit 1)
    | Returns _ => ret tt
    end.

(** ** The [db] commands, lines 351 to 414 *)

(** Python's [needle in haystack] for strings. *)
Fixpoint starts_with (p s : string) : bool :=
  match p, s with
  | EmptyString, _ => true
  | String a p', String b s' => Ascii.eqb a b && starts_with p' s'
  | String _ _, EmptyString => false
  end.

Fixpoint is_substring (needle haystack : string) : bool :=
  starts_with needle haystack ||
  match haystack with
  | EmptyString => false
  | String _ rest => is_substring needle rest
  end.

Definition get_app (sv : services) : C unit := log GetApp ;; lift (s_get_app sv).

(** Lines 360 to 381. *)
Definition db_init (sv : services) : C unit :=
  match s_db_url sv with
  | None => log (Error [Lit "db_url is not configured, cannot initialize."])
  | Some _ =>
      if s_alembic_config_exists sv then
        log (Error [Lit "Database is already initialized. Use [bold]reflex db makemigrations[/bold] to create schema change scripts and [bold]reflex db migrate[/bold] to apply migrations to a new or existing database."])
      else
        log SkipCompile ;;
        get_app sv ;;
        (log AlembicInit ;; lift (s_alembic_init sv)) ;;
        (log (Migrate (Some true)) ;; lift (s_migrate sv (Some true)))
  end.

(** Lines 385 to 392. *)
Definition migrate (sv : services) : C unit :=
  log SkipCompile ;;
  get_app sv ;;
  do initialized <- (log CheckDbInitialized ;; lift (s_check_db_initialized sv));
  if negb initialized then ret tt
  else
    (log (Migrate None) ;; lift (s_migrate sv None)) ;;
    log CheckSchemaUpToDate.

(** Lines 396 to 414. *)
Definition makemigrations (sv : services) (message : option string) : C unit :=
  log SkipCompile ;;
  get_app sv ;;
  do initialized <- (log CheckDbInitialized ;; lift (s_check_db_initialized sv));
  if negb initialized then ret tt
  else
    (log EngineConnect ;; lift (s_connect sv)) ;;
    do generated <- try_ (log (AlembicAutogenerate message) ;;
                          lift (s_alembic_autogenerate sv message));
    match generated with
    | Raises (CommandError msg) =>
        if negb (is_substring "Target database is not up to date." msg)
        then raise (CommandError msg)
        else
          log (Error [ErrorText (CommandError msg);
                      Lit " Run [bold]reflex db migrate[/bold] to update database."])
    | Raises ex => raise ex
    | Returns _ => ret tt
    end.

(** ** [init], lines 68 to 113 *)

Definition init (sv : services) (name : option string) (template loglevel : string)
    : C unit :=
  log (SetLogLevel loglevel) ;;
  log OutputSystemInfo ;;
  do app_name <- match name with
                 | None => log GetDefaultAppName ;; lift (s_get_default_app_name sv)
                 | Some n => ret n
                 end;
  log (Rule [Lit "[bold]Initializing "; Str app_name]) ;;
  (log InitializeFrontendDependencies ;; lift (s_initialize_frontend_dependencies sv)) ;;
  (log MigrateToReflex ;; lift (s_migrate_to_reflex sv)) ;;
  (if negb (s_config_file_exists sv) then
     (log (CreateConfig app_name) ;; lift (s_create_config sv app_name)) ;;
     (log (InitializeAppDirectory app_name template) ;;
      lift (s_initialize_app_directory sv app_name template)) ;;
     log (TelemetrySend "init")
   else log (TelemetrySend "reinit")) ;;
  (log InitializeGitignore ;; lift (s_initialize_gitignore sv)) ;;
  (log InitializeRequirementsTxt ;; lift (s_initialize_requirements_txt sv)) ;;
  log (Success [Lit "Initialized "; Str app_name]).

(** ** Vocabulary and examples *)

Definition is_database_work (c : call) : bool :=
  match c with
  | AlembicInit | Migrate _ | EngineConnect | AlembicAutogenerate _ => true
  | _ => false
  end.

Definition is_creation (c : call) : bool :=
  match c with
  | CreateConfig _ | InitializeAppDirectory _ _ => true
  | _ => false
  end.

Definition returns {A : Type} (r : answer A) : bool :=
  match r with Returns _ => true | Raises _ => false end.

(** Services for which everything works: no deployment yet, a database
    that is configured and initialized, a project that has its
    configuration file. *)
Definition example_services : services :=
  {| s_feature_enabled := true;
     s_list_deployments := Returns [];
     s_json_dumps := fun _ => Returns "[]";
     s_tabulate := fun _ _ => Returns "table";
     s_delete_deployment := fun _ => Returns tt;
     s_get_logs := fun _ => Returns tt;
     s_db_url := Some "sqlite:///reflex.db";
     s_alembic_config_exists := true;
     s_get_app := Returns tt;
     s_alembic_init := Returns tt;
     s_migrate := fun _ => Returns tt;
     s_check_db_initialized := Returns true;
     s_connect := Returns tt;
     s_alembic_autogenerate := fun _ =>
       Raises (CommandError "Target database is not up to date.");
     s_get_default_app_name := Returns "app";
     s_initialize_frontend_dependencies := Returns tt;
     s_migrate_to_reflex := Returns tt;
     s_config_file_exists := true;
     s_create_config := fun _ => Returns tt;
     s_initialize_app_directory := fun _ _ => Returns tt;
     s_initialize_gitignore := Returns tt;
     s_initialize_requirements_txt := Returns tt |}.

(** Services for which nothing works: the hosting service refuses every
    call, and the database is not initialized. *)
Definition failing_services : services :=
  {| s_feature_enabled := true;
     s_list_deployments := Raises (OtherException "401 Unauthorized");
     s_json_dumps := fun _ => Returns "[]";
     s_tabulate := fun _ _ => Returns "table";
     s_delete_deployment := fun _ => Raises (OtherException "401 Unauthorized");
     s_get_logs := fun _ => Raises (OtherException "401 Unauthorized");
     s_db_url := None;
     s_alembic_config_exists := false;
     s_get_app := Returns tt;
     s_alembic_init := Returns tt;
     s_migrate := fun _ => Returns tt;
     s_check_db_initialized := Returns false;
     s_connect := Returns tt;
     s_alembic_autogenerate := fun _ => Returns tt;
     s_get_default_app_name := Returns "app";
     s_initialize_frontend_dependencies := Returns tt;
     s_migrate_to_reflex := Returns tt;
     s_config_file_exists := false;
     s_create_config := fun _ => Returns tt;
     s_initialize_app_directory := fun _ _ => Returns tt;
     s_initialize_gitignore := Returns tt;
     s_initialize_requirements_txt := Returns tt |}.

End Subcommands.

(** * Lemmas *)

(** ** States and traces *)

Lemma extend_nil s : extend s [] = s.
Proof. destruct s; unfold extend; simpl. by rewrite app_nil_r. Qed.

Lemma extend_extend s t u : extend (extend s t) u = extend s (t ++ u).
Proof. unfold extend; simpl. by rewrite app_assoc. Qed.

Ltac state_eq :=
  unfold extend; simpl; rewrite <- ?app_assoc; simpl; reflexivity.

Lemma bind_runs {A B : Type} (m : M A) (k : A -> M B) s a t :
  m s = (Ok a, extend s t) -> bind m k s = k a (extend s t).
Proof. intros H. unfold bind. by rewrite H. Qed.

Lemma log_runs e s : log e s = (Ok tt, extend s [e]).
Proof. done. Qed.

Section Yields.
Context {A B : Type} (P : event -> Prop).

Lemma yields_ret (Q : A -> Prop) (a : A) : Q a -> yields P Q (ret a).
Proof. intros Ha s. exists []. by rewrite extend_nil. Qed.

Lemma yields_ret_any (a : A) : emits P (ret a).
Proof. by apply yields_ret. Qed.

Lemma yields_raise (Q : A -> Prop) (e : exn) : yields P Q (raise e).
Proof. intros s. exists []. by rewrite extend_nil. Qed.

Lemma yields_lift (r : result A) : emits P (lift r).
Proof. intros s. exists []. rewrite extend_nil. simpl. by destruct r. Qed.

Lemma yields_get_cfg : emits P get_cfg.
Proof. intros s. exists []. by rewrite extend_nil. Qed.

Lemma yields_log (e : event) : P e -> emits P (log e).
Proof. intros He s. exists [e]. repeat split; [by constructor]. Qed.

Lemma yields_bind (Q : A -> Prop) (R : B -> Prop) (m : M A) (k : A -> M B) :
  yields P Q m -> (forall a, Q a -> yields P R (k a)) -> yields P R (bind m k).
Proof.
  intros Hm Hk s. unfold bind.
  destruct (Hm s) as (t & Hs & Ht & Hq).
  destruct (m s) as [[a | e] s1]; simpl in Hs, Hq; subst s1.
  - destruct (Hk a Hq (extend s t)) as (u & Hs' & Hu & Hr).
    exists (t ++ u). rewrite Hs', extend_extend.
    repeat split; [by apply Forall_app | done].
  - by exists t.
Qed.

Lemma yields_try (Q : A -> Prop) (m : M A) :
  yields P Q m ->
  yields P (fun r => match r with Ok a => Q a | Raise _ => True end) (try_ m).
Proof.
  intros Hm s. unfold try_. destruct (Hm s) as (t & Hs & Ht & Hq).
  destruct (m s) as [r s1]. by exists t.
Qed.

Lemma yields_events (P' : event -> Prop) (Q : A -> Prop) (m : M A) :
  (forall e, P' e -> P e) -> yields P' Q m -> yields P Q m.
Proof.
  intros HP Hm s. destruct (Hm s) as (t & Hs & Ht & Hq).
  exists t. repeat split; [done | by eapply Forall_impl | done].
Qed.

Lemma yields_weaken (P' : event -> Prop) (Q Q' : A -> Prop) (m : M A) :
  (forall e, P' e -> P e) -> (forall a, Q' a -> Q a) ->
  yields P' Q' m -> yields P Q m.
Proof.
  intros HP HQ Hm s. destruct (Hm s) as (t & Hs & Ht & Hq).
  exists t. repeat split; [done | by eapply Forall_impl |].
  destruct (fst (m s)); auto.
Qed.

End Yields.

Lemma local_no_upload e : local e -> no_upload e.
Proof. by intros [? ?]. Qed.

Lemma local_no_prepare e : local e -> no_prepare e.
Proof. by intros [? ?]. Qed.

Create HintDb cli_calls.
Create HintDb cli_yields.
#[export] Hint Unfold console_set_log_level console_print console_error console_warn
  console_debug console_rule console_status time_sleep exec_output_system_info
  telemetry_send hosting_feature_enabled hosting_check_requirements_txt_exist
  prerequisites_check_initialized prerequisites_get_app hosting_prepare_deploy
  hosting_deploy hosting_poll_backend hosting_poll_frontend hosting_clean_up
  console_ask set_config_urls : cli_calls.

(** One step of the proof that a command emits only events of a kind. *)
Ltac yields_step :=
  match goal with
  | |- yields _ _ (bind _ _) => eapply yields_bind; [ | intros ? ? ]
  | |- yields _ _ (ret _) => first [ apply yields_ret_any | apply yields_ret ]
  | |- yields _ _ (raise _) => apply yields_raise
  | |- yields _ _ (lift _) => apply yields_lift
  | |- yields _ _ get_cfg => apply yields_get_cfg
  | |- yields _ _ (try_ _) => eapply yields_try
  | |- yields _ _ (log _) => apply yields_log; first [ reflexivity | split; reflexivity ]
  | |- yields _ _ (match ?x with _ => _ end) => destruct x
  | H : _ |- yields _ _ _ => apply H
  | |- yields _ _ _ =>
      first [ solve [ eauto 1 with cli_yields nocore ]
            | eapply yields_events;
              [ first [ exact local_no_upload | exact local_no_prepare ]
              | solve [ eauto 1 with cli_yields nocore ] ] ]
  end.

Ltac yields_auto := autounfold with cli_calls; repeat yields_step; auto.

(** ** Strings *)

(** [partition_at] splits at the first separator and nowhere else. *)
Lemma partition_at_Some sep s before after :
  partition_at sep s = Some (before, after) <->
  s = before +:+ String sep after /\ occurs sep before = false.
Proof.
  revert before. induction s as [| a s IH]; intros before; simpl.
  - split; [done |]. intros [H _]. destruct before; discriminate.
  - destruct (Ascii.eqb_spec a sep) as [-> | Hne].
    + split.
      * by intros [= <- <-].
      * intros [H Hocc]. destruct before as [| b before]; simpl in *.
        -- by injection H as ->.
        -- injection H as <- _. by rewrite Ascii.eqb_refl in Hocc.
    + split.
      * destruct (partition_at sep s) as [[h t] |] eqn:E; [| done].
        intros [= <- <-]. destruct (proj1 (IH h) eq_refl) as [-> Hocc].
        simpl. split; [done |].
        rewrite Hocc. by destruct (Ascii.eqb_spec a sep).
      * intros [H Hocc]. destruct before as [| b before]; simpl in *.
        -- by injection H as -> _.
        -- injection H as <- H. apply orb_false_iff in Hocc as [_ Hocc].
           by rewrite (proj2 (IH before) (conj H Hocc)).
Qed.

Lemma partition_at_None sep s :
  partition_at sep s = None <-> occurs sep s = false.
Proof.
  induction s as [| a s IH]; simpl; [done |].
  destruct (Ascii.eqb a sep); simpl; [done |].
  destruct (partition_at sep s) as [[h t] |]; [| done].
  split; [done |]. intros H. by apply IH in H.
Qed.

Lemma is_name_char_not_newline c : is_name_char c = true -> Ascii.eqb c newline = false.
Proof.
  destruct (Ascii.eqb_spec c newline) as [-> | ]; [| done]. by vm_compute.
Qed.

Lemma is_name_start_not_newline c : is_name_start c = true -> Ascii.eqb c newline = false.
Proof.
  destruct (Ascii.eqb_spec c newline) as [-> | ]; [| done]. by vm_compute.
Qed.

Lemma match_name_tail_chomp s :
  match_name_tail s = forallb is_name_char (list_ascii_of_string (chomp s)).
Proof.
  induction s as [| c s IH]; simpl; [done |].
  destruct (is_name_char c) eqn:Hc.
  - rewrite (is_name_char_not_newline _ Hc). simpl. by rewrite Hc, IH.
  - destruct (Ascii.eqb c newline && negb (truthy_str s)) eqn:E; simpl; [done |].
    by rewrite Hc.
Qed.

(** The check of the code accepts a name exactly when the name without
    its final newline is in the language of the pattern. *)
Lemma re_match_env_name_chomp s : re_match_env_name s = valid_env_name (chomp s).
Proof.
  destruct s as [| c s]; simpl; [done |].
  destruct (is_name_start c) eqn:Hc; simpl.
  - rewrite (is_name_start_not_newline _ Hc). simpl. rewrite Hc. simpl.
    apply match_name_tail_chomp.
  - destruct (Ascii.eqb c newline && negb (truthy_str s)); simpl; [done |].
    by rewrite Hc.
Qed.

(** ** The parts of [deploy] before the upload *)

Lemma ask_envs_local_bounded n :
  forall lines, length lines <= n ->
  forall prompt envs,
    yields local (fun envs' => exists extra, envs' = envs ++ extra)
      (ask_envs prompt envs lines).
Proof.
  induction n as [| n IH]; intros lines Hlen prompt envs;
    destruct lines as [| line [| line' rest]]; simpl in *; yields_auto; try lia.
  all: try by (exists []; rewrite app_nil_r).
  eapply yields_weaken; [| | apply IH; lia]; [done |].
  intros envs' [extra ->]. rewrite <- app_assoc. by eexists.
Qed.

Lemma ask_envs_local lines prompt envs :
  yields local (fun envs' => exists extra, envs' = envs ++ extra)
    (ask_envs prompt envs lines).
Proof. by apply (ask_envs_local_bounded (length lines)). Qed.

#[export] Hint Resolve ask_envs_local : cli_yields.

Lemma confirm_suggestion_no_upload w o lines :
  forall call kc au du, emits no_upload (confirm_suggestion w o call kc au du lines).
Proof.
  induction lines as [| line rest IH]; intros; simpl; yields_auto.
Qed.

Lemma export_local w z f b l : emits local (export w z f b l).
Proof. unfold export. yields_auto. Qed.

#[export] Hint Resolve confirm_suggestion_no_upload export_local : cli_yields.

Lemma ask_params_local o pre kc au du ov lines :
  yields local (fun n => exists extra, n_envs n = opt_envs o ++ extra)
    (ask_params o pre kc au du ov lines).
Proof. unfold ask_params. yields_auto. Qed.

#[export] Hint Resolve ask_params_local : cli_yields.

(** The negotiation makes no upload, and the entries it hands on begin
    with the entries of the command line. *)
Lemma negotiate_no_upload_extra w o lines :
  yields no_upload (fun n => exists extra, n_envs n = opt_envs o ++ extra)
    (negotiate w o lines).
Proof.
  unfold negotiate, negotiate_non_interactive, negotiate_interactive, pick_key.
  yields_auto.
  all: try (simpl; by (exists []; rewrite app_nil_r)).
Qed.

(** Without the operator, the entries are those of the command line. *)
Lemma negotiate_non_interactive_envs w o lines s n :
  opt_interactive o = false ->
  fst (negotiate w o lines s) = Ok n -> n_envs n = opt_envs o.
Proof.
  intros Hint. unfold negotiate, hosting_prepare_deploy.
  cbv beta iota delta [bind try_ lift log]. rewrite Hint. cbn [negb].
  destruct (w_prepare_deploy w 0 (opt_app_name o) (opt_key o) (opt_frontend_hostname o))
    as [pre | ex]; cbv beta iota; [| done].
  unfold negotiate_non_interactive.
  destruct (reply pre) as [r |]; [| done].
  unfold ret. cbn [fst]. by intros [= <-].
Qed.

Lemma negotiate_no_upload w o lines :
  yields no_upload (fun n => entries_of o (n_envs n)) (negotiate w o lines).
Proof.
  intros s. destruct (negotiate_no_upload_extra w o lines s) as (t & Hs & Ht & Hq).
  exists t. split; [done |]. split; [done |].
  destruct (fst (negotiate w o lines s)) as [n | ex] eqn:E; [| done].
  split; [exact Hq |]. intros Hint.
  by apply (negotiate_non_interactive_envs w o lines s).
Qed.

(** ** The environment entries *)

Lemma process_envs_accepted envs :
  forall d s, forallb accepted envs = true ->
  exists d', process_envs envs d s = (Ok d', s) /\
    forall name, d' !! name =
      match last_value name envs with Some value => Some value | None => d !! name end.
Proof.
  induction envs as [| env rest IH]; intros d s Hall; simpl in *.
  - by exists d.
  - apply andb_true_iff in Hall as [Henv Hrest].
    unfold accepted in Henv. unfold split_maxsplit1.
    destruct (partition_at "=" env) as [[name value] |]; [| done].
    rewrite Henv. simpl.
    destruct (IH (<[name := value]> d) s Hrest) as (d' & Hrun & Hd').
    exists d'. split; [done |]. intros k. rewrite Hd'.
    destruct (last_value k rest); [done |].
    destruct (String.eqb_spec name k) as [-> | Hne].
    + by rewrite lookup_insert_eq.
    + by rewrite lookup_insert_ne.
Qed.

Lemma process_envs_rejected envs :
  forall d s, forallb accepted envs = false ->
  exists msg, process_envs envs d s = (Raise (TyperExit 1), extend s [ConsoleError msg]) /\
    env_error msg.
Proof.
  induction envs as [| env rest IH]; intros d s Hall; simpl in *; [done |].
  unfold accepted in Hall at 1. unfold split_maxsplit1.
  destruct (partition_at "=" env) as [[name value] |]; simpl in *.
  - destruct (re_match_env_name name); simpl in *.
    + by apply IH.
    + eexists. split; [reflexivity | by right].
  - eexists. split; [reflexivity | by left].
Qed.

(** ** The run of [deploy] from line 577 *)

Lemma required_ok_test o n :
  negb (truthy_opt (n_key n)) || negb (truthy_list (n_regions n))
  || negb (truthy_str (opt_app_name o)) || negb (truthy_str (n_app_prefix n))
  || negb (truthy_str (n_api_url n)) = negb (required_ok o n).
Proof.
  unfold required_ok.
  by destruct (truthy_opt _), (truthy_list _), (truthy_str (opt_app_name o)),
    (truthy_str (n_app_prefix n)), (truthy_str (n_api_url n)).
Qed.

Lemma forallb_false_truthy {A : Type} (f : A -> bool) (l : list A) :
  forallb f l = false -> truthy_list l = true.
Proof. by destruct l. Qed.

Lemma check_and_deploy_missing w o n s :
  required_ok o n = false ->
  check_and_deploy w o n s =
    (Raise (TyperExit 1),
     extend s [params_debug o n;
               ConsoleError [Lit "Please provide all the required parameters."]]).
Proof.
  intros H. unfold check_and_deploy, bind. simpl.
  rewrite required_ok_test, H. simpl. f_equal. state_eq.
Qed.

Lemma check_and_deploy_rejected w o n s :
  required_ok o n = true -> forallb accepted (n_envs n) = false ->
  exists msg, env_error msg /\
    check_and_deploy w o n s =
      (Raise (TyperExit 1), extend s [params_debug o n; ConsoleError msg]).
Proof.
  intros Hreq Hrej. unfold check_and_deploy, bind at 1. simpl.
  rewrite required_ok_test, Hreq, (forallb_false_truthy _ _ Hrej). simpl.
  unfold bind.
  match goal with
  | |- context [process_envs ?l ?d ?st] =>
      destruct (process_envs_rejected l d st Hrej) as (msg & -> & Hmsg)
  end.
  exists msg. split; [done |]. f_equal. state_eq.
Qed.

Lemma truthy_list_false {A : Type} (l : list A) : truthy_list l = false -> l = [].
Proof. by destruct l. Qed.

Lemma truthy_list_true {A : Type} (l : list A) : truthy_list l = true -> l <> [].
Proof. by destruct l. Qed.

(** With the parameters present and every entry accepted, the run goes on
    to the export, and to the upload unless the export raises. *)
Lemma check_and_deploy_accepted w o n s :
  required_ok o n = true -> forallb accepted (n_envs n) = true ->
  exists d t (exported : result unit), processed (n_envs n) d /\ Forall local t /\
    let s1 := {| trace := trace s ++ params_debug o n :: t; cfg := with_urls (cfg s) n |} in
    check_and_deploy w o n s =
      match exported with
      | Ok _ => upload_and_await w o n d s1
      | Raise (ImportError msg) =>
          (Raise (TyperExit 1),
           extend s1 [ConsoleError
                        [Lit "Encountered ImportError, did you install all the dependencies? ";
                         ExnText (ImportError msg)]])
      | Raise ex => (Raise ex, s1)
      end.
Proof.
  intros Hreq Hacc.
  assert (exists d, processed (n_envs n) d /\
    forall st, (if truthy_list (n_envs n)
                then do d <- process_envs (n_envs n) ∅; ret (Some d)
                else ret None) st = (Ok d, st)) as (d & Hd & Hrun).
  { destruct (truthy_list (n_envs n)) eqn:E.
    - destruct (process_envs_accepted (n_envs n) ∅ s Hacc) as (d' & _ & Hlook).
      exists (Some d'). split.
      + split; [by apply truthy_list_true |]. intros name. rewrite Hlook.
        destruct (last_value name (n_envs n)); [done | apply lookup_empty].
      + intros st. unfold bind.
        destruct (process_envs_accepted (n_envs n) ∅ st Hacc) as (d'' & -> & Hlook').
        assert (d'' = d') as ->; [| done].
        apply map_eq. intros name. by rewrite Hlook, Hlook'.
    - exists None. split; [by apply truthy_list_false | done]. }
  set (s2 := {| trace := trace s ++ [params_debug o n]; cfg := with_urls (cfg s) n |}).
  destruct (export_local w true true true (opt_loglevel o) s2) as (t & Hs & Ht & _).
  destruct (export w true true true (opt_loglevel o) s2) as [exported s3] eqn:Hexp.
  simpl in Hs. subst s3. exists d, t, exported. repeat split; [done | done |].
  unfold check_and_deploy, bind at 1. simpl.
  rewrite required_ok_test, Hreq. simpl.
  unfold bind at 1. rewrite Hrun. unfold set_config_urls, bind at 1. simpl.
  unfold bind at 1, try_.
  match goal with
  | |- context [export w true true true _ ?st] => change st with s2
  end.
  rewrite Hexp.
  assert (extend s2 t =
    {| trace := trace s ++ params_debug o n :: t; cfg := with_urls (cfg s) n |}) as ->
    by (unfold s2; state_eq).
  destruct exported as [[] | e]; [done |]. by destruct e.
Qed.

Lemma upload_and_await_run w o n d s :
  let request := upload_request_of w o n d in
  upload_and_await w o n d s =
    match w_deploy w request with
    | Ok deploy_response =>
        await_deployment w n deploy_response
          (extend s [ConsolePrint [Lit "Uploading code ..."]; HostingDeploy request])
    | Raise ex =>
        match w_clean_up w with
        | _ =>
          (Raise (TyperExit 1),
           extend s [ConsolePrint [Lit "Uploading code ..."]; HostingDeploy request;
                     ConsoleError [Lit "Unable to deploy due to: "; ExnText ex]; CleanUp])
        end
    end.
Proof.
  simpl. unfold upload_and_await, bind, try_, hosting_deploy, hosting_clean_up, lift. simpl.
  destruct (w_deploy w (upload_request_of w o n d)) as [r | ex]; simpl.
  - f_equal. state_eq.
  - destruct (w_clean_up w); f_equal; state_eq.
Qed.

(** ** The polls and the end of [deploy] *)

Lemma first_success_Some answer n : forall call k,
  first_success answer n call = Some k <->
  call <= k < call + n /\ answer k = true /\ forall i, call <= i < k -> answer i = false.
Proof.
  induction n as [| n IH]; intros call k; simpl.
  - split; [done | lia].
  - destruct (answer call) eqn:E.
    + split.
      * intros [= <-]. repeat split; [lia | lia | done | lia].
      * intros ([Hlo Hhi] & Hk & Hbefore).
        destruct (decide (call = k)) as [-> | Hne]; [done |].
        rewrite Hbefore in E; [done | lia].
    + rewrite IH. split.
      * intros ([Hlo Hhi] & Hk & Hbefore). repeat split; [lia | lia | done |].
        intros i Hi. destruct (decide (i = call)) as [-> | Hne]; [done |].
        apply Hbefore. lia.
      * intros ([Hlo Hhi] & Hk & Hbefore).
        assert (call <> k) by (intros ->; congruence).
        repeat split; [lia | lia | done |]. intros i Hi. apply Hbefore. lia.
Qed.


Lemma poll_events_step poll answer n call :
  poll_events poll answer (S n) call =
    if answer call then [poll] else poll :: Sleep 1 :: poll_events poll answer n (S call).
Proof.
  unfold poll_events. simpl. destruct (answer call) eqn:E.
  - by rewrite Nat.sub_diag.
  - destruct (first_success answer n (S call)) as [k |] eqn:F; [| done].
    apply first_success_Some in F as ([Hlo _] & _ & _).
    replace (k - call) with (S (k - S call)) by lia. done.
Qed.

Lemma poll_backend_loop_run w url n : forall call s,
  let answer := fun i => w_poll_backend w i url in
  poll_backend_loop w url n call s =
    (Ok (match first_success answer n call with Some _ => true | None => false end),
     extend s (poll_events (PollBackend url) answer n call)).
Proof.
  induction n as [| n IH]; intros call s answer.
  - simpl. unfold ret, poll_events. simpl. by rewrite extend_nil.
  - unfold answer. rewrite poll_events_step. simpl. unfold bind. simpl.
    destruct (w_poll_backend w call url); simpl; [done |].
    rewrite IH. f_equal. state_eq.
Qed.

Lemma poll_frontend_loop_run w url n : forall call s,
  let answer := fun i => w_poll_frontend w i url in
  poll_frontend_loop w url n call s =
    (Ok (match first_success answer n call with Some _ => true | None => false end),
     extend s (poll_events (PollFrontend url) answer n call)).
Proof.
  induction n as [| n IH]; intros call s answer.
  - simpl. unfold ret, poll_events. simpl. by rewrite extend_nil.
  - unfold answer. rewrite poll_events_step. simpl. unfold bind. simpl.
    destruct (w_poll_frontend w call url); simpl; [done |].
    rewrite IH. f_equal. state_eq.
Qed.

Lemma wait_seconds_run k : forall s,
  wait_seconds k s = (Ok tt, extend s (repeat (Sleep 1) k)).
Proof.
  induction k as [| k IH]; intros s; simpl.
  - unfold ret. by rewrite extend_nil.
  - unfold bind. simpl. rewrite IH. f_equal. state_eq.
Qed.



Lemma old_deployment_wait_run n s :
  (if n_overwrite_existing n
   then console_print [Lit "Waiting for the old deployment to come down"] ;;
        console_status "this is a TODO" ;; wait_seconds 60
   else ret tt) s = (Ok tt, extend s (old_deployment_wait n)).
Proof.
  unfold old_deployment_wait. destruct (n_overwrite_existing n).
  - unfold console_print, console_status.
    rewrite (bind_runs _ _ _ _ _ (log_runs _ _)).
    rewrite (bind_runs _ _ _ _ _ (log_runs _ _)).
    rewrite wait_seconds_run. by rewrite !extend_extend.
  - unfold ret. by rewrite extend_nil.
Qed.

Lemma print_status_run (b : bool) (yes no : string) s :
  (if negb b then console_print [Lit no] else console_print [Lit yes]) s =
  (Ok tt, extend s [ConsolePrint [Lit (if b then yes else no)]]).
Proof. by destruct b. Qed.

Lemma await_deployment_run w n r s :
  await_deployment w n r s =
    match w_clean_up w with
    | Ok _ => (Ok tt, extend s (await_events w n r ++ [final_report w n r]))
    | Raise e => (Raise e, extend s (await_events w n r))
    end.
Proof.
  unfold await_deployment, await_events, final_report,
    backend_events, frontend_events, backend_up, frontend_up, came_up.
  unfold console_debug at 1. rewrite (bind_runs _ _ _ _ _ (log_runs _ _)).
  unfold console_print at 1. rewrite (bind_runs _ _ _ _ _ (log_runs _ _)).
  rewrite (bind_runs _ _ _ _ _ (old_deployment_wait_run _ _)).
  unfold console_print at 1. rewrite (bind_runs _ _ _ _ _ (log_runs _ _)).
  unfold console_status at 1. rewrite (bind_runs _ _ _ _ _ (log_runs _ _)).
  rewrite (bind_runs _ _ _ _ _ (poll_backend_loop_run _ _ _ _ _)).
  fold (backend_answer w r).
  rewrite (bind_runs _ _ _ _ _ (print_status_run _ _ _ _)).
  unfold console_status at 1. rewrite (bind_runs _ _ _ _ _ (log_runs _ _)).
  rewrite (bind_runs _ _ _ _ _ (poll_frontend_loop_run _ _ _ _ _)).
  fold (frontend_answer w r).
  rewrite (bind_runs _ _ _ _ _ (print_status_run _ _ _ _)).
  unfold hosting_clean_up. unfold bind at 1.
  rewrite (bind_runs _ _ _ _ _ (log_runs _ _)).
  rewrite !extend_extend. unfold lift.
  destruct (w_clean_up w) as [[] | e].
  - match goal with
    | |- (if ?b then _ else _) _ = _ => destruct b
    end; unfold console_print, console_warn; rewrite log_runs, extend_extend;
      rewrite <- ?app_assoc; reflexivity.
  - rewrite <- ?app_assoc. reflexivity.
Qed.

(** ** The run of [deploy] up to line 577 *)

Lemma feature_enabled_runs w s :
  hosting_feature_enabled w s = (Ok (w_feature_enabled w), extend s [FeatureEnabled]).
Proof. done. Qed.

Lemma check_requirements_runs w s :
  try_ (hosting_check_requirements_txt_exist w) s =
    (Ok (w_check_requirements_txt_exist w), extend s [CheckRequirementsTxtExist]).
Proof. done. Qed.

Lemma check_initialized_runs w frontend s :
  prerequisites_check_initialized w frontend s =
    (w_check_initialized w frontend, extend s [CheckInitialized frontend]).
Proof.
  unfold prerequisites_check_initialized, bind, lift. simpl.
  by destruct (w_check_initialized w frontend).
Qed.

(** Lines 465 to 482, case by case. *)
Lemma deploy_prefix w o lines s :
  deploy w o lines s =
    let t0 := [ConsoleSetLogLevel (opt_loglevel o); FeatureEnabled] in
    if negb (w_feature_enabled w) then (Ok tt, extend s t0)
    else if negb (opt_interactive o) && negb (truthy_opt (opt_key o)) then
      (Raise (TyperExit 1),
       extend s (t0 ++ [ConsoleError
         [Lit "Please provide a deployment key when not in interactive mode."]]))
    else
      match w_check_requirements_txt_exist w with
      | Raise ex =>
          (Raise (TyperExit 1),
           extend s (t0 ++ [CheckRequirementsTxtExist;
                            ConsoleError [Str (REQUIREMENTS_TXT_FILE w);
                                          Lit " required for deployment"]]))
      | Ok _ =>
          match w_check_initialized w true with
          | Raise ex =>
              (Raise ex, extend s (t0 ++ [CheckRequirementsTxtExist; CheckInitialized true]))
          | Ok _ =>
              bind (negotiate w o lines) (check_and_deploy w o)
                (extend s (t0 ++ [CheckRequirementsTxtExist; CheckInitialized true]))
          end
      end.
Proof.
  unfold deploy. unfold console_set_log_level.
  rewrite (bind_runs _ _ _ _ _ (log_runs _ _)).
  rewrite (bind_runs _ _ _ _ _ (feature_enabled_runs _ _)).
  rewrite extend_extend. cbv zeta.
  destruct (w_feature_enabled w); cbn [negb]; cbv iota; [| done].
  destruct (negb (opt_interactive o) && negb (truthy_opt (opt_key o))); cbv iota.
  { unfold console_error. rewrite (bind_runs _ _ _ _ _ (log_runs _ _)).
    by rewrite extend_extend. }
  rewrite (bind_runs _ _ _ _ _ (check_requirements_runs _ _)).
  rewrite extend_extend.
  destruct (w_check_requirements_txt_exist w) as [[] | ex]; cbv iota.
  2:{ unfold console_error. rewrite (bind_runs _ _ _ _ _ (log_runs _ _)).
      rewrite extend_extend. unfold raise. do 2 f_equal. }
  unfold bind at 1. rewrite check_initialized_runs, extend_extend.
  by destruct (w_check_initialized w true) as [[] | ex].
Qed.

(** Either [deploy] ends before line 577, without an upload, or it goes
    through lines 577 to 681 with the variables [n] of some negotiation,
    without an upload before. *)
Lemma deploy_reaches_check w o lines s :
  (exists t, snd (deploy w o lines s) = extend s t /\ Forall no_upload t) \/
  (exists n t, Forall no_upload t /\ entries_of o (n_envs n) /\
     w_feature_enabled w = true /\
     deploy w o lines s = check_and_deploy w o n (extend s t)).
Proof.
  rewrite deploy_prefix. cbv zeta.
  destruct (w_feature_enabled w); cbn [negb]; cbv iota.
  2:{ left. eexists. split; [reflexivity |]. repeat constructor. }
  destruct (negb (opt_interactive o) && negb (truthy_opt (opt_key o))); cbv iota.
  { left. eexists. split; [reflexivity |]. repeat constructor. }
  destruct (w_check_requirements_txt_exist w) as [[] | ex]; cbv iota.
  2:{ left. eexists. split; [reflexivity |]. repeat constructor. }
  destruct (w_check_initialized w true) as [[] | ex]; cbv iota.
  2:{ left. eexists. split; [reflexivity |]. repeat constructor. }
  unfold bind.
  match goal with
  | |- context [negotiate w o lines ?st] =>
      destruct (negotiate_no_upload w o lines st) as (t & Hs & Ht & Hq);
      destruct (negotiate w o lines st) as [[n | ex] s1]
  end; simpl in Hs, Hq; subst s1; rewrite extend_extend.
  - right. exists n. eexists.
    split; [| split; [exact Hq | split; reflexivity]].
    apply Forall_app. split; [repeat constructor | done].
  - left. eexists. split; [reflexivity |].
    apply Forall_app. split; [repeat constructor | done].
Qed.

(** ** What follows the upload emits no upload and no prepare-deploy call *)

Lemma wait_seconds_local k : emits local (wait_seconds k).
Proof. induction k as [| k IH]; simpl; yields_auto. Qed.

Lemma poll_backend_loop_local w url n :
  forall call, emits local (poll_backend_loop w url n call).
Proof. induction n as [| n IH]; intros call; simpl; yields_auto. Qed.

Lemma poll_frontend_loop_local w url n :
  forall call, emits local (poll_frontend_loop w url n call).
Proof. induction n as [| n IH]; intros call; simpl; yields_auto. Qed.

#[export] Hint Resolve wait_seconds_local poll_backend_loop_local
  poll_frontend_loop_local : cli_yields.

Lemma await_deployment_local w n r : emits local (await_deployment w n r).
Proof. unfold await_deployment. yields_auto. Qed.

#[export] Hint Resolve await_deployment_local : cli_yields.

Lemma upload_and_await_no_prepare w o n d : emits no_prepare (upload_and_await w o n d).
Proof. unfold upload_and_await. yields_auto. Qed.

Lemma check_and_deploy_no_prepare w o n s :
  exists t, trace (snd (check_and_deploy w o n s)) = trace s ++ t /\ Forall no_prepare t.
Proof.
  destruct (required_ok o n) eqn:Hreq.
  2:{ rewrite (check_and_deploy_missing w o n s Hreq). eexists.
      split; [reflexivity | repeat constructor]. }
  destruct (forallb accepted (n_envs n)) eqn:Hacc.
  2:{ destruct (check_and_deploy_rejected w o n s Hreq Hacc) as (msg & _ & ->).
      eexists. split; [reflexivity | repeat constructor]. }
  destruct (check_and_deploy_accepted w o n s Hreq Hacc)
    as (d & t & exported & _ & Ht & ->).
  assert (Forall no_prepare (params_debug o n :: t)) as Ht'.
  { constructor; [done |]. eapply Forall_impl; [exact Ht | apply local_no_prepare]. }
  destruct exported as [[] | ex].
  - match goal with
    | |- context [upload_and_await w o n d ?st] =>
        destruct (upload_and_await_no_prepare w o n d st) as (u & -> & Hu & _)
    end.
    exists ((params_debug o n :: t) ++ u). split; [simpl; by rewrite <- app_assoc |].
    by apply Forall_app.
  - destruct ex; simpl; eexists;
      (split;
       [ rewrite <- ?app_assoc; reflexivity
       | first [ exact Ht' | apply Forall_app; split; [exact Ht' | repeat constructor] ] ]).
Qed.

(** ** The one upload of a run *)

Lemma no_upload_not_In t req : Forall no_upload t -> ~ In (HostingDeploy req) t.
Proof.
  intros Ht Hin. rewrite Forall_forall in Ht.
  apply list_elem_of_In in Hin. by specialize (Ht _ Hin).
Qed.

Lemma upload_In_unique t1 t2 req req0 :
  Forall no_upload t1 -> Forall no_upload t2 ->
  In (HostingDeploy req) (t1 ++ HostingDeploy req0 :: t2) -> req = req0.
Proof.
  intros H1 H2 Hin. apply in_app_or in Hin as [Hin | [Hin | Hin]].
  - by apply no_upload_not_In in Hin.
  - by injection Hin.
  - by apply no_upload_not_In in Hin.
Qed.

Lemma upload_In_unique_after t1 t2 e req req0 :
  Forall no_upload t1 -> no_upload e -> Forall no_upload t2 ->
  In (HostingDeploy req) (t1 ++ e :: HostingDeploy req0 :: t2) -> req = req0.
Proof.
  intros H1 He H2 Hin. apply (upload_In_unique (t1 ++ [e]) t2).
  - apply Forall_app. split; [done | by constructor].
  - done.
  - by rewrite <- app_assoc.
Qed.

Lemma local_Forall_no_upload t : Forall local t -> Forall no_upload t.
Proof. intros H. eapply Forall_impl; [exact H | apply local_no_upload]. Qed.

(** A run of [deploy] in which an upload is made: the parameters were
    present, every entry was accepted, the request is the one built from
    them, no other upload came before, and the run ends the way the
    answer to the upload decides. *)
Lemma deploy_uploads w o lines c req :
  In (HostingDeploy req) (events (deploy w o lines) c) ->
  exists n d t,
    entries_of o (n_envs n) /\
    w_feature_enabled w = true /\
    required_ok o n = true /\
    forallb accepted (n_envs n) = true /\
    processed (n_envs n) d /\
    req = upload_request_of w o n d /\
    Forall no_upload t /\
    let s1 := {| trace := t ++ [HostingDeploy req]; cfg := with_urls c n |} in
    deploy w o lines (initial_state c) =
      match w_deploy w req with
      | Ok r => await_deployment w n r s1
      | Raise ex =>
          (Raise (TyperExit 1),
           extend s1 [ConsoleError [Lit "Unable to deploy due to: "; ExnText ex]; CleanUp])
      end.
Proof.
  unfold events. intros Hin.
  destruct (deploy_reaches_check w o lines (initial_state c))
    as [(t & Hs & Ht) | (n & t & Ht & Hextra & Hfeat & Hrun)].
  { rewrite Hs in Hin. simpl in Hin. by apply no_upload_not_In in Hin. }
  rewrite Hrun in Hin |- *. clear Hrun.
  destruct (required_ok o n) eqn:Hreq.
  2:{ rewrite (check_and_deploy_missing w o n _ Hreq) in Hin. simpl in Hin.
      apply no_upload_not_In in Hin; [done |].
      apply Forall_app. split; [done | repeat constructor]. }
  destruct (forallb accepted (n_envs n)) eqn:Hacc.
  2:{ destruct (check_and_deploy_rejected w o n (extend (initial_state c) t) Hreq Hacc)
        as (msg & _ & Hrun).
      rewrite Hrun in Hin. simpl in Hin.
      apply no_upload_not_In in Hin; [done |].
      apply Forall_app. split; [done | repeat constructor]. }
  destruct (check_and_deploy_accepted w o n (extend (initial_state c) t) Hreq Hacc)
    as (d & t' & exported & Hd & Ht' & Hrun).
  simpl in Hrun. rewrite Hrun in Hin |- *. clear Hrun.
  apply local_Forall_no_upload in Ht'.
  assert (Forall no_upload (t ++ params_debug o n :: t')) as Hpre.
  { apply Forall_app. split; [done |]. by constructor. }
  destruct exported as [[] | ex].
  2:{ exfalso. destruct ex; simpl in Hin;
        (apply no_upload_not_In in Hin; [done |]);
        first [ exact Hpre | apply Forall_app; split; [exact Hpre | repeat constructor] ]. }
  rewrite upload_and_await_run in Hin |- *. cbv zeta in Hin |- *.
  set (req0 := upload_request_of w o n d) in *.
  assert (req = req0) as ->.
  { destruct (w_deploy w req0) as [r | ex].
    - match type of Hin with
      | context [await_deployment w n r ?st] =>
          destruct (await_deployment_local w n r st) as (u & Hs & Hu & _)
      end.
      rewrite Hs in Hin. simpl in Hin. apply local_Forall_no_upload in Hu.
      rewrite <- (app_assoc _ [_; _] u) in Hin. simpl in Hin.
      by apply upload_In_unique_after in Hin.
    - simpl in Hin.
      apply upload_In_unique_after in Hin; [done | done | done | repeat constructor]. }
  exists n, d, ((t ++ params_debug o n :: t') ++ [ConsolePrint [Lit "Uploading code ..."]]).
  split; [exact Hextra |]. repeat split; try done.
  { apply Forall_app. split; [exact Hpre | repeat constructor]. }
  destruct (w_deploy w req0) as [r | ex].
  - f_equal. unfold extend. simpl. f_equal. by rewrite <- !app_assoc.
  - f_equal. unfold extend. simpl. f_equal. by rewrite <- !app_assoc.
Qed.

(** ** Reaching line 577 *)

Lemma reaches_check_deploy w o lines c n s :
  reaches_check w o lines c = Some (n, s) ->
  deploy w o lines (initial_state c) = check_and_deploy w o n s /\
  Forall no_upload (trace s) /\ cfg s = c /\
  entries_of o (n_envs n).
Proof.
  unfold reaches_check. rewrite deploy_prefix. cbv zeta.
  destruct (negb (w_feature_enabled w)); [done |].
  destruct (negb (opt_interactive o) && negb (truthy_opt (opt_key o))); [done |].
  destruct (w_check_requirements_txt_exist w) as [[] | ex]; [| done].
  destruct (w_check_initialized w true) as [[] | ex]; [| done].
  unfold bind.
  change ([ConsoleSetLogLevel (opt_loglevel o); FeatureEnabled] ++
          [CheckRequirementsTxtExist; CheckInitialized true]) with (deploy_preamble o).
  destruct (negotiate_no_upload w o lines (extend (initial_state c) (deploy_preamble o)))
    as (t & Hs & Ht & Hq).
  destruct (negotiate w o lines (extend (initial_state c) (deploy_preamble o)))
    as [[n' | ex] s']; [| done].
  intros [= -> ->]. simpl in Hs, Hq. subst s.
  split; [done |]. split; [| by split].
  simpl. by repeat constructor.
Qed.

(** ** Entries *)

Lemma accepted_false env : accepted env = false <-> bad_entry env.
Proof.
  unfold accepted, bad_entry. split.
  - destruct (partition_at "=" env) as [[name value] |] eqn:E.
    + intros H. right. exists name, value.
      apply partition_at_Some in E as [-> Hocc].
      by rewrite <- re_match_env_name_chomp.
    + intros _. left. by apply partition_at_None.
  - intros [Hocc | (name & value & -> & Hocc & Hname)].
    + apply partition_at_None in Hocc. by rewrite Hocc.
    + rewrite (proj2 (partition_at_Some "=" _ name value) (conj eq_refl Hocc)).
      by rewrite re_match_env_name_chomp.
Qed.

Lemma forallb_accepted_false envs :
  forallb accepted envs = false <-> exists env, In env envs /\ bad_entry env.
Proof.
  split.
  - induction envs as [| env rest IH]; simpl; [done |].
    destruct (accepted env) eqn:E; simpl.
    + intros H. destruct (IH H) as (env' & Hin & Hbad).
      exists env'. split; [by right | done].
    + intros _. exists env. split; [by left | by apply accepted_false].
  - intros (env & Hin & Hbad). apply accepted_false in Hbad.
    destruct (forallb accepted envs) eqn:E; [| done].
    rewrite forallb_forall in E. by rewrite (E _ Hin) in Hbad.
Qed.

Lemma last_value_None name envs :
  (forall env value, In env envs -> env <> name +:+ String "=" value) ->
  last_value name envs = None.
Proof.
  induction envs as [| env rest IH]; intros H; simpl; [done |].
  rewrite IH; [| intros env' value Hin; apply H; by right].
  destruct (partition_at "=" env) as [[name' value] |] eqn:E; [| done].
  destruct (String.eqb_spec name' name) as [-> | Hne]; [| done].
  apply partition_at_Some in E as [-> _]. by destruct (H _ value (or_introl eq_refl)).
Qed.

(** The dictionary keeps, for a name, the value of the last entry that
    has this name. *)
Lemma last_value_last name value before after :
  occurs "=" name = false ->
  (forall env value', In env after -> env <> name +:+ String "=" value') ->
  last_value name (before ++ (name +:+ String "=" value) :: after) = Some value.
Proof.
  intros Hocc Hafter. induction before as [| env rest IH]; simpl.
  - rewrite (last_value_None _ _ Hafter).
    rewrite (proj2 (partition_at_Some "=" _ name value) (conj eq_refl Hocc)).
    by rewrite String.eqb_refl.
  - by rewrite IH.
Qed.

Lemma last_value_Some_In name value envs :
  last_value name envs = Some value ->
  In (name +:+ String "=" value) envs /\ occurs "=" name = false.
Proof.
  induction envs as [| env rest IH]; simpl; [done |].
  destruct (last_value name rest) as [v |].
  - intros [= ->]. destruct (IH eq_refl). split; [by right | done].
  - destruct (partition_at "=" env) as [[name' value'] |] eqn:E; [| done].
    destruct (String.eqb_spec name' name) as [-> | Hne]; [| done].
    intros [= ->]. apply partition_at_Some in E as [-> Hocc].
    split; [by left | done].
Qed.

Lemma accepted_entry env :
  accepted env = true ->
  exists name value,
    env = name +:+ String "=" value /\ occurs "=" name = false /\
    valid_env_name (chomp name) = true.
Proof.
  unfold accepted. destruct (partition_at "=" env) as [[name value] |] eqn:E; [| done].
  intros H. exists name, value. apply partition_at_Some in E as [-> Hocc].
  by rewrite <- re_match_env_name_chomp.
Qed.

Lemma append_eq_inv name name' value value' :
  occurs "=" name = false -> occurs "=" name' = false ->
  name +:+ String "=" value = name' +:+ String "=" value' ->
  name = name' /\ value = value'.
Proof.
  intros H H' Heq.
  pose proof (proj2 (partition_at_Some "=" _ name value) (conj eq_refl H)) as E.
  rewrite Heq in E.
  rewrite (proj2 (partition_at_Some "=" _ name' value') (conj eq_refl H')) in E.
  by injection E as -> ->.
Qed.

(** ** The validation loop *)

Lemma validate_token_loop_retries w token k : forall n call s,
  (forall i, call <= i < call + k -> transient (w_validate_token w i token)) ->
  validate_token_loop w token (k + n) call s =
    validate_token_loop w token n (call + k) (extend s (retries w token call k)).
Proof.
  induction k as [| k IH]; intros n call s Htr.
  - unfold retries. simpl. by rewrite Nat.add_0_r, extend_nil.
  - change (S k + n) with (S (k + n)). simpl validate_token_loop.
    unfold bind at 1, try_, hosting_validate_token. unfold bind at 1, lift. simpl.
    assert (transient (w_validate_token w call token)) as Hc by (apply Htr; lia).
    unfold retries. simpl seq. simpl flat_map. fold (retries w token (S call) k).
    destruct (w_validate_token w call token) as [[] | ex] eqn:E; [done |].
    destruct ex; try done;
      (unfold console_debug, time_sleep;
       rewrite (bind_runs _ _ _ _ _ (log_runs _ _));
       rewrite (bind_runs _ _ _ _ _ (log_runs _ _));
       rewrite IH by (intros i Hi; apply Htr; lia);
       rewrite !extend_extend; replace (call + S k) with (S call + k) by lia;
       f_equal; unfold extend; simpl; f_equal; by rewrite <- !app_assoc).
Qed.


(** ** Ports *)

Lemma resolve_port_free w enabled port role s :
  w_is_process_on_port w port = false ->
  resolve_port w enabled port role s =
    (Ok port, extend s (if enabled then [IsProcessOnPort port] else [])).
Proof.
  intros H. unfold resolve_port. destruct enabled.
  - unfold processes_is_process_on_port, bind, ret. simpl. by rewrite H.
  - unfold ret. by rewrite extend_nil.
Qed.

(** ** The suggestion *)

Lemma pick_key_suggestion w o first sg lines :
  reply first = None ->
  existing first = None \/ existing first = Some [] ->
  suggestion first = Some sg ->
  pick_key w o first lines =
    (do '(key_candidate, api_url, deploy_url, rest) <-
       confirm_suggestion w o 1 (pi_key sg) (pi_api_url sg) (pi_deploy_url sg) lines;
     ret (key_candidate, api_url, deploy_url, false, rest)).
Proof.
  intros Hreply Hexisting Hsg. unfold pick_key. rewrite Hreply, Hsg.
  by destruct Hexisting as [-> | ->].
Qed.

Lemma negotiate_suggestion_run w o line rest first second sg r s :
  opt_interactive o = true ->
  w_prepare_deploy w 0 (opt_app_name o) (opt_key o) (opt_frontend_hostname o) = Ok first ->
  reply first = None ->
  existing first = None \/ existing first = Some [] ->
  suggestion first = Some sg ->
  truthy_str (pi_key sg) = true ->
  ask_answer (Some (pi_key sg)) line = pi_key sg ->
  w_prepare_deploy w 1 (opt_app_name o) (Some (pi_key sg)) (opt_frontend_hostname o)
    = Ok second ->
  reply second = Some r ->
  pi_key r = pi_key sg ->
  negotiate w o (line :: rest) s =
    ask_params o first (pi_key r) (pi_api_url r) (pi_deploy_url r) false rest
      (extend s
         [PrepareDeploy (opt_app_name o) (opt_key o) (opt_frontend_hostname o);
          ConsoleAsk "Name of deployment" (Some (pi_key sg));
          PrepareDeploy (opt_app_name o) (Some (pi_key sg)) (opt_frontend_hostname o)]).
Proof.
  intros Hint Hfirst Hreply Hexisting Hsg Hkey Hanswer Hsecond Hconfirm Hsame.
  unfold negotiate, bind at 1, try_, hosting_prepare_deploy.
  unfold bind at 1, lift, log. rewrite Hfirst, Hint. cbn [negb]. cbv iota beta.
  unfold negotiate_interactive.
  rewrite (pick_key_suggestion w o first sg (line :: rest) Hreply Hexisting Hsg).
  cbn [confirm_suggestion]. rewrite Hanswer, Hkey.
  cbv beta iota delta [bind try_ hosting_prepare_deploy lift log ret].
  rewrite Hsecond. cbv beta iota. rewrite Hconfirm. cbv beta iota.
  assert ((pi_key sg =? pi_key r)%string = true) as ->
    by (rewrite Hsame; apply String.eqb_refl).
  cbv beta iota. f_equal. state_eq.
Qed.

(** ** After the upload *)

(** The cleanup call of line 673 is the last event before the report. *)
Lemma await_events_cleanup w n r :
  exists u, await_events w n r = u ++ [CleanUp] /\ Forall no_upload u.
Proof.
  unfold await_events.
  exists ([ConsoleDebug [Lit "deploy_response: "; DeployResponseText r];
           ConsolePrint [Lit "Deployment will start shortly."]] ++
          old_deployment_wait n ++
          [ConsolePrint [Lit "Waiting for the new deployment to come up"];
           ConsoleStatus "Checking backend ..."] ++
          backend_events w r ++
          [ConsolePrint [Lit (if backend_up w r then "Backend is up" else "Backend unreachable")];
           ConsoleStatus "Checking frontend ..."] ++
          frontend_events w r ++
          [ConsolePrint [Lit (if frontend_up w r then "frontend is up"
                              else "frontend is unreachable")]]).
  split.
  - rewrite <- !app_assoc. reflexivity.
  - destruct (await_deployment_local w n r (initial_state example_config)) as (u & Hs & Hu & _).
    rewrite await_deployment_run in Hs.
    apply local_Forall_no_upload in Hu.
    assert (exists v, u = await_events w n r ++ v) as [v ->].
    { destruct (w_clean_up w); apply (f_equal trace) in Hs; simpl in Hs; subst u;
        [by eexists | exists []; by rewrite app_nil_r]. }
    apply Forall_app in Hu as [Hu _]. unfold await_events in Hu.
    rewrite !Forall_app in Hu |- *.
    destruct Hu as (H1 & H2 & H3 & H4 & H5 & H6 & H7).
    repeat split; try done.
    apply Forall_cons in H7 as [H7 _]. by constructor.
Qed.

(** ** Counting the polls *)









(** ** Commands that change the configuration *)

Section Adds.
Context {A B : Type} (P : event -> Prop).

Lemma adds_ret (a : A) : adds P (ret a).
Proof. intros s. exists []. by rewrite app_nil_r. Qed.

Lemma adds_raise (e : exn) : adds P (@raise A e).
Proof. intros s. exists []. by rewrite app_nil_r. Qed.

Lemma adds_lift (r : result A) : adds P (lift r).
Proof. intros s. exists []. rewrite app_nil_r. by destruct r. Qed.

Lemma adds_get_cfg : adds P get_cfg.
Proof. intros s. exists []. by rewrite app_nil_r. Qed.

Lemma adds_put_cfg (c : config) : adds P (put_cfg c).
Proof. intros s. exists []. by rewrite app_nil_r. Qed.

Lemma adds_log (e : event) : P e -> adds P (log e).
Proof. intros He s. exists [e]. split; [done | by constructor]. Qed.

Lemma adds_bind (m : M A) (k : A -> M B) :
  adds P m -> (forall a, adds P (k a)) -> adds P (bind m k).
Proof.
  intros Hm Hk s. unfold bind. destruct (Hm s) as (t & Hs & Ht).
  destruct (m s) as [[a | e] s1]; simpl in Hs.
  - destruct (Hk a s1) as (u & Hs' & Hu). exists (t ++ u).
    rewrite Hs', Hs, app_assoc. split; [done |]. apply Forall_app. by split.
  - by exists t.
Qed.

End Adds.

Ltac adds_step :=
  match goal with
  | |- adds _ (bind _ _) => apply adds_bind; [ | intros ? ]
  | |- adds _ (ret _) => apply adds_ret
  | |- adds _ (raise _) => apply adds_raise
  | |- adds _ (lift _) => apply adds_lift
  | |- adds _ get_cfg => apply adds_get_cfg
  | |- adds _ (put_cfg _) => apply adds_put_cfg
  | |- adds _ (log _) => apply adds_log; exact I
  | |- adds _ (match ?x with _ => _ end) => destruct x
  end.

Lemma resolve_port_adds w enabled port role :
  adds (port_negotiated_if_taken w) (resolve_port w enabled port role).
Proof.
  intros s. unfold resolve_port. destruct enabled; [| apply adds_ret].
  unfold processes_is_process_on_port, processes_change_or_terminate_port.
  cbv beta iota delta [bind log ret]. cbn [snd trace].
  destruct (w_is_process_on_port w port) eqn:E; cbn [snd trace].
  - exists [IsProcessOnPort port; ChangeOrTerminatePort port role].
    split; [by rewrite <- app_assoc |]. by repeat constructor.
  - exists [IsProcessOnPort port]. split; [done |]. by repeat constructor.
Qed.

Lemma run_adds w o : adds (port_negotiated_if_taken w) (run w o).
Proof.
  unfold run. cbv zeta.
  unfold set_persistent_frontend_port, set_persistent_backend_port.
  autounfold with cli_calls.
  repeat first [ apply resolve_port_adds | adds_step ].
Qed.

(** * More of the commands *)

(** ** Runs of [deploy] and the variables of line 577 *)

Lemma filter_no_upload t : Forall no_upload t -> List.filter is_upload t = [].
Proof.
  induction 1 as [| e t He _ IH]; [done |]. simpl.
  unfold no_upload in He. by rewrite He.
Qed.

Lemma reaches_check_None w o lines c :
  reaches_check w o lines c = None ->
  Forall no_upload (events (deploy w o lines) c).
Proof.
  unfold reaches_check, events. rewrite deploy_prefix. cbv zeta.
  destruct (w_feature_enabled w); cbn [negb]; cbv iota; [| by repeat constructor].
  destruct (negb (opt_interactive o) && negb (truthy_opt (opt_key o))); cbv iota.
  { intros _. by repeat constructor. }
  destruct (w_check_requirements_txt_exist w) as [[] | ex]; [| by repeat constructor].
  destruct (w_check_initialized w true) as [[] | ex]; [| by repeat constructor].
  unfold bind.
  change ([ConsoleSetLogLevel (opt_loglevel o); FeatureEnabled] ++
          [CheckRequirementsTxtExist; CheckInitialized true]) with (deploy_preamble o).
  destruct (negotiate_no_upload w o lines (extend (initial_state c) (deploy_preamble o)))
    as (t & Hs & Ht & _).
  destruct (negotiate w o lines (extend (initial_state c) (deploy_preamble o)))
    as [[n | ex] s']; [done |].
  intros _. simpl in Hs. subst s'. simpl.
  by repeat constructor.
Qed.

(** The upload of a run from line 577 is built from the variables the
    run has there. *)
Lemma check_and_deploy_upload w o n s req :
  Forall no_upload (trace s) ->
  In (HostingDeploy req) (trace (snd (check_and_deploy w o n s))) ->
  exists d,
    required_ok o n = true /\ forallb accepted (n_envs n) = true /\
    processed (n_envs n) d /\ req = upload_request_of w o n d.
Proof.
  intros Hs Hin.
  destruct (required_ok o n) eqn:Hreq.
  2:{ rewrite (check_and_deploy_missing w o n _ Hreq) in Hin. simpl in Hin.
      apply no_upload_not_In in Hin; [done |].
      apply Forall_app. split; [done | repeat constructor]. }
  destruct (forallb accepted (n_envs n)) eqn:Hacc.
  2:{ destruct (check_and_deploy_rejected w o n s Hreq Hacc) as (msg & _ & Hrun).
      rewrite Hrun in Hin. simpl in Hin.
      apply no_upload_not_In in Hin; [done |].
      apply Forall_app. split; [done | repeat constructor]. }
  destruct (check_and_deploy_accepted w o n s Hreq Hacc)
    as (d & t' & exported & Hd & Ht' & Hrun).
  simpl in Hrun. rewrite Hrun in Hin. clear Hrun.
  apply local_Forall_no_upload in Ht'.
  assert (Forall no_upload (trace s ++ params_debug o n :: t')) as Hpre.
  { apply Forall_app. split; [done |]. by constructor. }
  destruct exported as [[] | ex].
  2:{ exfalso. destruct ex; simpl in Hin;
        (apply no_upload_not_In in Hin; [done |]);
        first [ exact Hpre | apply Forall_app; split; [exact Hpre | repeat constructor] ]. }
  rewrite upload_and_await_run in Hin. cbv zeta in Hin.
  exists d. repeat split; try done.
  set (req0 := upload_request_of w o n d) in *.
  destruct (w_deploy w req0) as [r | ex].
  - match type of Hin with
    | context [await_deployment w n r ?st] =>
        destruct (await_deployment_local w n r st) as (u & Hu & Hlocal & _)
    end.
    rewrite Hu in Hin. simpl in Hin. apply local_Forall_no_upload in Hlocal.
    rewrite <- (app_assoc _ [_; _] u) in Hin. simpl in Hin.
    by apply upload_In_unique_after in Hin.
  - simpl in Hin.
    apply upload_In_unique_after in Hin; [done | done | done | repeat constructor].
Qed.

Lemma upload_reaches_check w o lines c req :
  In (HostingDeploy req) (events (deploy w o lines) c) ->
  exists n s d,
    reaches_check w o lines c = Some (n, s) /\
    required_ok o n = true /\ forallb accepted (n_envs n) = true /\
    processed (n_envs n) d /\ req = upload_request_of w o n d.
Proof.
  intros Hin. destruct (reaches_check w o lines c) as [[n s] |] eqn:E.
  - destruct (reaches_check_deploy w o lines c n s E) as (Hrun & Hs & _ & _).
    unfold events in Hin. rewrite Hrun in Hin.
    destruct (check_and_deploy_upload w o n s req Hs Hin) as (d & H).
    by exists n, s, d.
  - apply reaches_check_None in E. by apply no_upload_not_In in Hin.
Qed.

(** What [reaches_check] says of the world. *)
Lemma reaches_check_Some w o lines c n s :
  reaches_check w o lines c = Some (n, s) ->
  w_feature_enabled w = true /\
  (opt_interactive o = true \/ truthy_opt (opt_key o) = true) /\
  w_check_requirements_txt_exist w = Ok tt /\ w_check_initialized w true = Ok tt /\
  negotiate w o lines (extend (initial_state c) (deploy_preamble o)) = (Ok n, s).
Proof.
  unfold reaches_check.
  destruct (w_feature_enabled w); [| done]. cbn [negb]. cbv iota.
  destruct (opt_interactive o), (truthy_opt (opt_key o)); cbn [negb andb]; cbv iota;
    try done.
  all: destruct (w_check_requirements_txt_exist w) as [[] | ex]; [| done].
  all: destruct (w_check_initialized w true) as [[] | ex]; [| done].
  all: destruct (negotiate w o lines _) as [[n' | ex] s']; [| done].
  all: intros [= -> ->]; repeat split; auto.
Qed.

(** A run that makes the upload, with the variables it had at line 577. *)
Lemma deploy_uploads_with w o lines c req :
  In (HostingDeploy req) (events (deploy w o lines) c) ->
  exists n s, reaches_check w o lines c = Some (n, s) /\
    Forall no_upload (trace s) /\ cfg s = c /\
    In (HostingDeploy req) (trace (snd (check_and_deploy w o n s))) /\
    deploy w o lines (initial_state c) = check_and_deploy w o n s.
Proof.
  intros Hin. destruct (reaches_check w o lines c) as [[n s] |] eqn:E.
  - destruct (reaches_check_deploy w o lines c n s E) as (Hrun & Hs & Hcfg & _).
    exists n, s. unfold events in Hin. rewrite Hrun in Hin. by repeat split.
  - apply reaches_check_None in E. by apply no_upload_not_In in Hin.
Qed.

(** ** What the negotiation hands on *)

Lemma ask_params_result o pre kc au du ov lines s n :
  fst (ask_params o pre kc au du ov lines s) = Ok n ->
  n_key n = Some kc /\ n_api_url n = au /\ n_deploy_url n = du /\
  n_app_prefix n = app_prefix pre /\ n_overwrite_existing n = ov /\
  truthy_str kc = true /\ truthy_str au = true /\ truthy_str du = true /\
  (truthy_list (opt_regions o) = true -> n_regions n = opt_regions o) /\
  (truthy_list (opt_regions o) = false -> exists region, n_regions n = [region]).
Proof.
  unfold ask_params.
  destruct (truthy_str kc), (truthy_str au), (truthy_str du); cbn [negb orb]; cbv iota;
    try done.
  unfold console_ask, console_print. cbv beta iota delta [bind log].
  destruct lines as [| line rest]; [done |].
  cbv beta iota delta [ret].
  match goal with
  | |- context [ask_envs ?p ?e ?l ?st] => destruct (ask_envs p e l st) as [[envs | ex] s1]
  end; [| done].
  cbn [fst]. intros [= <-]. cbn.
  repeat split; try done.
  - by intros ->.
  - intros ->. by eexists.
Qed.

Lemma negotiate_result w o lines s n :
  fst (negotiate w o lines s) = Ok n ->
  exists first,
    w_prepare_deploy w 0 (opt_app_name o) (opt_key o) (opt_frontend_hostname o) = Ok first /\
    n_app_prefix n = app_prefix first /\
    (truthy_list (opt_regions o) = true -> n_regions n = opt_regions o) /\
    (opt_interactive o = false ->
     n_key n = opt_key o /\ n_regions n = opt_regions o /\ n_overwrite_existing n = false /\
     exists r, reply first = Some r /\
       n_api_url n = pi_api_url r /\ n_deploy_url n = pi_deploy_url r) /\
    (opt_interactive o = true ->
     truthy_opt (n_key n) = true /\
     truthy_str (n_api_url n) = true /\ truthy_str (n_deploy_url n) = true /\
     (truthy_list (opt_regions o) = false -> exists region, n_regions n = [region])).
Proof.
  unfold negotiate, hosting_prepare_deploy.
  cbv beta iota delta [bind try_ lift log].
  destruct (w_prepare_deploy w 0 (opt_app_name o) (opt_key o) (opt_frontend_hostname o))
    as [first | ex]; cbv beta iota; [| done].
  intros Hn. exists first. split; [done |].
  destruct (opt_interactive o); cbn [negb] in Hn; cbv iota in Hn.
  - unfold negotiate_interactive in Hn. cbv beta iota delta [bind] in Hn.
    match type of Hn with
    | context [pick_key w o first lines ?st] =>
        destruct (pick_key w o first lines st) as [[[[[[kc au] du] ov] rest] | ex] s1]
    end; [| done].
    apply ask_params_result in Hn
      as (Hkey & Hau & Hdu & Hprefix & _ & Hkc & Hau' & Hdu' & Hgiven & Hasked).
    subst au du. rewrite Hkey. repeat split; try done.
  - unfold negotiate_non_interactive in Hn.
    destruct (reply first) as [r |] eqn:Hr; [| done].
    cbv beta iota delta [ret] in Hn. cbn [fst] in Hn. injection Hn as <-. cbn.
    repeat split; try done. by exists r.
Qed.

(** ** The export *)

Lemma export_run w z f b l s :
  export w z f b l s =
    let pre := [ConsoleSetLogLevel l; OutputSystemInfo; CheckInitialized f] in
    let rule := ConsoleRule [Lit "[bold]Compiling production app and preparing for export."] in
    match w_check_initialized w f with
    | Raise ex => (Raise ex, extend s pre)
    | Ok _ =>
        if f then
          match w_get_app w with
          | Raise ex => (Raise ex, extend s (pre ++ [rule; GetApp]))
          | Ok _ => (Ok tt, extend s (export_events z f b l (cfg_deploy_url (cfg s))))
          end
        else (Ok tt, extend s (export_events z f b l (cfg_deploy_url (cfg s))))
    end.
Proof.
  unfold export, console_set_log_level, exec_output_system_info,
    prerequisites_check_initialized, console_rule, prerequisites_get_app, telemetry_send,
    export_events.
  cbv beta iota zeta delta [bind log lift get_cfg ret extend]. cbn [trace cfg].
  destruct (w_check_initialized w f) as [[] | ex]; cbv beta iota.
  2:{ f_equal. f_equal. by rewrite <- !app_assoc. }
  destruct f; cbv beta iota; cbn [trace cfg].
  - destruct (w_get_app w) as [[] | ex]; cbv beta iota; cbn [trace cfg];
      f_equal; f_equal; by rewrite <- !app_assoc.
  - f_equal. f_equal. by rewrite <- !app_assoc.
Qed.

(** ** The run of [deploy] from line 577, with its export *)

Lemma check_and_deploy_exported w o n s :
  required_ok o n = true -> forallb accepted (n_envs n) = true ->
  exists d, processed (n_envs n) d /\
    let s2 := {| trace := trace s ++ [params_debug o n]; cfg := with_urls (cfg s) n |} in
    check_and_deploy w o n s =
      match export w true true true (opt_loglevel o) s2 with
      | (Ok _, s3) => upload_and_await w o n d s3
      | (Raise (ImportError msg), s3) =>
          (Raise (TyperExit 1),
           extend s3 [ConsoleError
                        [Lit "Encountered ImportError, did you install all the dependencies? ";
                         ExnText (ImportError msg)]])
      | (Raise ex, s3) => (Raise ex, s3)
      end.
Proof.
  intros Hreq Hacc.
  assert (exists d, processed (n_envs n) d /\
    forall st, (if truthy_list (n_envs n)
                then do d <- process_envs (n_envs n) ∅; ret (Some d)
                else ret None) st = (Ok d, st)) as (d & Hd & Hrun).
  { destruct (truthy_list (n_envs n)) eqn:E.
    - destruct (process_envs_accepted (n_envs n) ∅ s Hacc) as (d' & _ & Hlook).
      exists (Some d'). split.
      + split; [by apply truthy_list_true |]. intros name. rewrite Hlook.
        destruct (last_value name (n_envs n)); [done | apply lookup_empty].
      + intros st. unfold bind.
        destruct (process_envs_accepted (n_envs n) ∅ st Hacc) as (d'' & -> & Hlook').
        assert (d'' = d') as ->; [| done].
        apply map_eq. intros name. by rewrite Hlook, Hlook'.
    - exists None. split; [by apply truthy_list_false | done]. }
  exists d. split; [done |]. cbv zeta.
  set (s2 := {| trace := trace s ++ [params_debug o n]; cfg := with_urls (cfg s) n |}).
  unfold check_and_deploy, bind at 1. simpl.
  rewrite required_ok_test, Hreq. simpl.
  unfold bind at 1. rewrite Hrun. unfold set_config_urls, bind at 1. simpl.
  unfold bind at 1, try_.
  match goal with
  | |- context [export w true true true _ ?st] => change st with s2
  end.
  destruct (export w true true true (opt_loglevel o) s2) as [[[] | e] s3]; [done |].
  by destruct e.
Qed.

(** A run from line 577 that makes the upload: the export came before,
    and the run ends the way the answer to the upload decides. *)
Lemma check_and_deploy_uploads w o n s req :
  Forall no_upload (trace s) ->
  In (HostingDeploy req) (trace (snd (check_and_deploy w o n s))) ->
  exists d,
    required_ok o n = true /\ forallb accepted (n_envs n) = true /\
    processed (n_envs n) d /\ req = upload_request_of w o n d /\
    w_check_initialized w true = Ok tt /\ w_get_app w = Ok tt /\
    let s1 := {| trace := trace s ++ params_debug o n ::
                   export_events true true true (opt_loglevel o) (n_deploy_url n) ++
                   [ConsolePrint [Lit "Uploading code ..."]; HostingDeploy req];
                 cfg := with_urls (cfg s) n |} in
    check_and_deploy w o n s =
      match w_deploy w req with
      | Ok r => await_deployment w n r s1
      | Raise ex =>
          (Raise (TyperExit 1),
           extend s1 [ConsoleError [Lit "Unable to deploy due to: "; ExnText ex]; CleanUp])
      end.
Proof.
  intros Hs Hin.
  destruct (check_and_deploy_upload w o n s req Hs Hin) as (d0 & Hreq & Hacc & _ & _).
  destruct (check_and_deploy_exported w o n s Hreq Hacc) as (d & Hd & Hrun).
  cbv zeta in Hrun. rewrite export_run in Hrun. cbv zeta in Hrun. cbn [cfg] in Hrun.
  assert (Forall no_upload (trace s ++ [params_debug o n])) as Hpre.
  { apply Forall_app. split; [done | by repeat constructor]. }
  destruct (w_check_initialized w true) as [[] | ex].
  2:{ exfalso. rewrite Hrun in Hin.
      destruct ex; simpl in Hin; apply no_upload_not_In in Hin; try done;
        rewrite ?app_assoc; repeat (apply Forall_app; split); try done;
        by repeat constructor. }
  destruct (w_get_app w) as [[] | ex].
  2:{ exfalso. rewrite Hrun in Hin.
      destruct ex; simpl in Hin; apply no_upload_not_In in Hin; try done;
        rewrite ?app_assoc; repeat (apply Forall_app; split); try done;
        by repeat constructor. }
  rewrite upload_and_await_run in Hrun. cbv zeta in Hrun.
  set (req0 := upload_request_of w o n d) in *.
  assert (req = req0) as ->.
  { rewrite Hrun in Hin.
    assert (Forall no_upload
      ((trace s ++ [params_debug o n]) ++
       export_events true true true (opt_loglevel o) (cfg_deploy_url (with_urls (cfg s) n))))
      as Hexp.
    { apply Forall_app. split; [done | by repeat constructor]. }
    destruct (w_deploy w req0) as [r | ex].
    - match type of Hin with
      | context [await_deployment w n r ?st] =>
          destruct (await_deployment_local w n r st) as (u & Hu & Hlocal & _)
      end.
      rewrite Hu in Hin. apply local_Forall_no_upload in Hlocal.
      cbn [trace extend snd] in Hin.
      rewrite <- (app_assoc _ [_; _] u) in Hin.
      change ([ConsolePrint [Lit "Uploading code ..."]; HostingDeploy req0] ++ u)
        with (ConsolePrint [Lit "Uploading code ..."] :: HostingDeploy req0 :: u) in Hin.
      by apply upload_In_unique_after in Hin.
    - cbn [trace extend snd] in Hin.
      change ([ConsolePrint [Lit "Uploading code ..."]; HostingDeploy req0;
               ConsoleError [Lit "Unable to deploy due to: "; ExnText ex]; CleanUp])
        with (ConsolePrint [Lit "Uploading code ..."] :: HostingDeploy req0 ::
              [ConsoleError [Lit "Unable to deploy due to: "; ExnText ex]; CleanUp]) in Hin.
      apply upload_In_unique_after in Hin; [done | done | done | by repeat constructor]. }
  exists d. repeat split; try done.
  rewrite Hrun. cbn [with_urls cfg_deploy_url].
  destruct (w_deploy w req0) as [r | ex].
  - f_equal. unfold extend. cbn [trace cfg]. f_equal.
    rewrite <- !app_assoc. reflexivity.
  - f_equal. unfold extend. cbn [trace cfg]. f_equal.
    rewrite <- !app_assoc. reflexivity.
Qed.

(** ** The negotiation over an existing deployment *)

Lemma negotiate_existing_run w o lines first e others s :
  opt_interactive o = true ->
  w_prepare_deploy w 0 (opt_app_name o) (opt_key o) (opt_frontend_hostname o) = Ok first ->
  reply first = None ->
  existing first = Some (e :: others) ->
  negotiate w o lines s =
    ask_params o first (pi_key e) (pi_api_url e) (pi_deploy_url e) true lines
      (extend s
         [PrepareDeploy (opt_app_name o) (opt_key o) (opt_frontend_hostname o);
          ConsolePrint [Lit "Overwrite deployment [ "; Str (pi_key e); Lit " ] ..."]]).
Proof.
  intros Hint Hfirst Hreply Hexisting.
  unfold negotiate, hosting_prepare_deploy.
  cbv beta iota delta [bind try_ lift log]. rewrite Hfirst, Hint. cbn [negb]. cbv beta iota.
  unfold negotiate_interactive, pick_key. rewrite Hreply, Hexisting.
  unfold console_print. cbv beta iota delta [bind log ret].
  f_equal. state_eq.
Qed.

(** ** The first entry that is not accepted *)

Lemma process_envs_first_bad good bad rest :
  forall d s,
    forallb accepted good = true -> accepted bad = false ->
    process_envs (good ++ bad :: rest) d s =
      (Raise (TyperExit 1), extend s [ConsoleError (entry_error bad)]).
Proof.
  induction good as [| env good IH]; intros d s Hgood Hbad; simpl.
  - unfold accepted in Hbad. unfold split_maxsplit1, entry_error.
    destruct (partition_at "=" bad) as [[name value] |] eqn:E.
    + rewrite Hbad. apply partition_at_Some in E as [-> Hocc].
      assert (occurs "=" (name +:+ String "=" value) = true) as ->; [| done].
      clear. induction name as [| a name IH]; simpl.
      * done.
      * rewrite IH. apply orb_true_r.
    + apply partition_at_None in E. by rewrite E.
  - simpl in Hgood. apply andb_true_iff in Hgood as [Henv Hgood].
    unfold accepted in Henv. unfold split_maxsplit1.
    destruct (partition_at "=" env) as [[name value] |]; [| done].
    rewrite Henv. simpl. by apply IH.
Qed.

(** ** The entries typed at the prompt *)

Lemma ask_envs_typed pairs : forall prompt envs rest s,
  Forall (fun pair => truthy_str (fst pair) = true) pairs ->
  ask_envs prompt envs (typed_lines pairs ++ EmptyString :: rest) s =
    (Ok (envs ++ map typed_entry pairs),
     extend s (typed_questions prompt pairs ++
               [ConsoleAsk (next_prompt prompt pairs) None;
                ConsolePrint [Lit (if truthy_list (envs ++ map typed_entry pairs)
                                   then "Finished adding envs."
                                   else "No envs added. Continuing ...")]])).
Proof.
  induction pairs as [| [k v] pairs IH]; intros prompt envs rest s Hkeys.
  - simpl. rewrite app_nil_r. unfold console_print.
    cbv beta iota delta [bind log ret]. cbn [ask_answer truthy_str negb].
    destruct (truthy_list envs); cbv beta iota; f_equal; state_eq.
  - apply Forall_cons in Hkeys as [Hk Hkeys]. simpl in Hk.
    cbn [typed_lines flat_map fst snd app ask_envs].
    assert (ask_answer None k = k) as -> by (unfold ask_answer; by rewrite Hk).
    assert (ask_answer None v = v) as -> by (unfold ask_answer; by destruct v).
    rewrite Hk. cbn [negb]. cbv beta iota delta [bind log].
    fold (typed_lines pairs). rewrite IH by done.
    f_equal.
    + f_equal. rewrite <- app_assoc. reflexivity.
    + rewrite <- (app_assoc envs). cbn [map app typed_entry fst snd next_prompt].
      unfold extend. cbn [trace cfg typed_questions]. f_equal.
      rewrite <- !app_assoc. cbn [app].
      destruct pairs; reflexivity.
Qed.

(** ** The answers that are not confirmed *)

Lemma confirm_suggestion_rejected w o kc au du tried : forall call rest s,
  truthy_str kc = true ->
  all_rejected w o call kc tried ->
  confirm_suggestion w o call kc au du (tried ++ rest) s =
    confirm_suggestion w o (call + length tried) kc au du rest
      (extend s (rejected_answers o kc tried)).
Proof.
  induction tried as [| line tried IH]; intros call rest s Hkc Hrej.
  - simpl. by rewrite Nat.add_0_r, extend_nil.
  - destruct Hrej as [Hline Hrej].
    cbn [app confirm_suggestion].
    assert (truthy_str (ask_answer (Some kc) line) = true) as ->
      by (unfold ask_answer; destruct (truthy_str line) eqn:E; done).
    unfold confirmation in Hline. unfold hosting_prepare_deploy, console_error.
    cbv beta iota delta [bind try_ lift log raise ret].
    destruct (w_prepare_deploy w call (opt_app_name o)
                (Some (ask_answer (Some kc) line)) (opt_frontend_hostname o))
      as [response | ex]; cbv beta iota.
    + destruct (reply response) as [r |]; cbv beta iota.
      * destruct (String.eqb (ask_answer (Some kc) line) (pi_key r)); [done |].
        cbv beta iota. rewrite IH by done.
        replace (call + length (line :: tried)) with (S call + length tried)
          by (simpl; lia).
        f_equal. unfold extend, rejected_answers. cbn [trace cfg flat_map]. f_equal.
        rewrite <- !app_assoc. reflexivity.
      * rewrite IH by done.
        replace (call + length (line :: tried)) with (S call + length tried)
          by (simpl; lia).
        f_equal. unfold extend, rejected_answers. cbn [trace cfg flat_map]. f_equal.
        rewrite <- !app_assoc. reflexivity.
    + rewrite IH by done.
      replace (call + length (line :: tried)) with (S call + length tried)
        by (simpl; lia).
      f_equal. unfold extend, rejected_answers. cbn [trace cfg flat_map]. f_equal.
      rewrite <- !app_assoc. reflexivity.
Qed.

Lemma confirm_suggestion_confirmed w o kc au du line rest call s r :
  truthy_str kc = true ->
  confirmation w o call (ask_answer (Some kc) line) = Some r ->
  confirm_suggestion w o call kc au du (line :: rest) s =
    (Ok (pi_key r, pi_api_url r, pi_deploy_url r, rest),
     extend s [ConsoleAsk "Name of deployment" (Some kc);
               PrepareDeploy (opt_app_name o) (Some (ask_answer (Some kc) line))
                 (opt_frontend_hostname o)]).
Proof.
  intros Hkc Hconf. cbn [confirm_suggestion].
  assert (truthy_str (ask_answer (Some kc) line) = true) as ->
    by (unfold ask_answer; destruct (truthy_str line) eqn:E; done).
  unfold confirmation in Hconf. unfold hosting_prepare_deploy.
  cbv beta iota delta [bind try_ lift log raise ret].
  destruct (w_prepare_deploy w call (opt_app_name o)
              (Some (ask_answer (Some kc) line)) (opt_frontend_hostname o))
    as [response | ex]; [| done].
  cbv beta iota. destruct (reply response) as [r' |]; [| done].
  destruct (String.eqb (ask_answer (Some kc) line) (pi_key r')); [| done].
  injection Hconf as ->. cbv beta iota. f_equal. state_eq.
Qed.

(** ** The negotiation with retries, and with typed entries *)

Lemma negotiate_suggestion_retries w o tried line rest first sg r s :
  opt_interactive o = true ->
  w_prepare_deploy w 0 (opt_app_name o) (opt_key o) (opt_frontend_hostname o) = Ok first ->
  reply first = None ->
  existing first = None \/ existing first = Some [] ->
  suggestion first = Some sg ->
  truthy_str (pi_key sg) = true ->
  all_rejected w o 1 (pi_key sg) tried ->
  confirmation w o (1 + length tried) (ask_answer (Some (pi_key sg)) line) = Some r ->
  negotiate w o (tried ++ line :: rest) s =
    ask_params o first (pi_key r) (pi_api_url r) (pi_deploy_url r) false rest
      (extend s
         ([PrepareDeploy (opt_app_name o) (opt_key o) (opt_frontend_hostname o)] ++
          rejected_answers o (pi_key sg) tried ++
          [ConsoleAsk "Name of deployment" (Some (pi_key sg));
           PrepareDeploy (opt_app_name o) (Some (ask_answer (Some (pi_key sg)) line))
             (opt_frontend_hostname o)])).
Proof.
  intros Hint Hfirst Hreply Hexisting Hsg Hkey Hrej Hconf.
  unfold negotiate, bind at 1, try_, hosting_prepare_deploy.
  unfold bind at 1, lift, log. rewrite Hfirst, Hint. cbn [negb]. cbv iota beta.
  unfold negotiate_interactive.
  rewrite (pick_key_suggestion w o first sg _ Hreply Hexisting Hsg).
  unfold bind at 1. unfold bind at 1.
  rewrite (confirm_suggestion_rejected w o _ _ _ tried 1 (line :: rest) _ Hkey Hrej).
  rewrite (confirm_suggestion_confirmed w o _ _ _ line rest _ _ r Hkey Hconf).
  cbv beta iota delta [ret]. f_equal.
  rewrite !extend_extend. unfold extend. cbn [trace cfg]. f_equal.
  rewrite <- !app_assoc. reflexivity.
Qed.

Lemma negotiate_reply_typed w o region pairs rest first r s :
  opt_interactive o = true ->
  w_prepare_deploy w 0 (opt_app_name o) (opt_key o) (opt_frontend_hostname o) = Ok first ->
  reply first = Some r ->
  truthy_str (pi_key r) = true -> truthy_str (pi_api_url r) = true ->
  truthy_str (pi_deploy_url r) = true ->
  Forall (fun pair => truthy_str (fst pair) = true) pairs ->
  let default := match opt_regions o with region0 :: _ => region0 | [] => "sjc" end in
  negotiate w o (region :: typed_lines pairs ++ EmptyString :: rest) s =
    (Ok {| n_key := Some (pi_key r);
           n_regions := if truthy_list (opt_regions o) then opt_regions o
                        else [ask_answer (Some default) region];
           n_envs := opt_envs o ++ map typed_entry pairs;
           n_app_prefix := app_prefix first;
           n_api_url := pi_api_url r; n_deploy_url := pi_deploy_url r;
           n_overwrite_existing := false |},
     extend s
       ([PrepareDeploy (opt_app_name o) (opt_key o) (opt_frontend_hostname o);
         ConsoleAsk "Region to deploy to" (Some default);
         ConsolePrint [Lit "Environment variables ..."]] ++
        typed_questions "  Env name (enter to skip)" pairs ++
        [ConsoleAsk (next_prompt "  Env name (enter to skip)" pairs) None;
         ConsolePrint [Lit (if truthy_list (opt_envs o ++ map typed_entry pairs)
                            then "Finished adding envs."
                            else "No envs added. Continuing ...")]])).
Proof.
  intros Hint Hfirst Hreply Hkey Hapi Hurl Hkeys default.
  unfold negotiate, bind at 1, try_, hosting_prepare_deploy.
  unfold bind at 1, lift, log. rewrite Hfirst, Hint. cbn [negb]. cbv iota beta.
  unfold negotiate_interactive, pick_key. rewrite Hreply.
  unfold bind at 1, ret at 1. cbv beta iota.
  unfold ask_params. rewrite Hkey, Hapi, Hurl. cbn [negb orb]. cbv iota.
  unfold console_ask, console_print.
  cbv beta iota delta [bind log ret].
  rewrite ask_envs_typed by done. cbv beta iota.
  f_equal. unfold extend. cbn [trace cfg]. f_equal.
  rewrite <- !app_assoc. reflexivity.
Qed.

(** ** [login] *)

Lemma fetch_token_loop_fails w rid k : forall n call s,
  (forall i, call <= i < call + k -> is_raise (w_fetch_token w i rid) = true) ->
  fetch_token_loop w rid (k + n) call s =
    fetch_token_loop w rid n (call + k) (extend s (failed_fetches rid k)).
Proof.
  induction k as [| k IH]; intros n call s Hfail.
  - unfold failed_fetches. simpl. by rewrite Nat.add_0_r, extend_nil.
  - change (S k + n) with (S (k + n)). cbn [fetch_token_loop].
    unfold hosting_fetch_token, time_sleep.
    cbv beta iota delta [bind try_ lift log].
    assert (is_raise (w_fetch_token w call rid) = true) as Hc by (apply Hfail; lia).
    destruct (w_fetch_token w call rid) as [tc | ex]; [done |].
    cbv beta iota. rewrite IH by (intros i Hi; apply Hfail; lia).
    replace (call + S k) with (S call + k) by lia.
    f_equal. unfold extend, failed_fetches. cbn [trace cfg repeat concat]. f_equal.
    rewrite <- !app_assoc. reflexivity.
Qed.

Lemma fetch_token_loop_exhausted w rid n s :
  (forall i, i < n -> is_raise (w_fetch_token w i rid) = true) ->
  fetch_token_loop w rid n 0 s = (Ok None, extend s (failed_fetches rid n)).
Proof.
  intros Hfail.
  rewrite <- (Nat.add_0_r n) at 1.
  rewrite (fetch_token_loop_fails w rid n 0 0 s) by (intros i Hi; apply Hfail; lia).
  reflexivity.
Qed.

Lemma fetch_token_loop_found w rid n call s tc :
  w_fetch_token w call rid = Ok tc ->
  fetch_token_loop w rid (S n) call s = (Ok (Some tc), extend s [FetchToken rid]).
Proof.
  intros H. cbn [fetch_token_loop]. unfold hosting_fetch_token.
  cbv beta iota delta [bind try_ lift log ret]. by rewrite H.
Qed.

Lemma validate_token_loop_ok w token n call s :
  w_validate_token w call token = Ok tt ->
  validate_token_loop w token (S n) call s = (Ok true, extend s [ValidateToken token]).
Proof.
  intros H. cbn [validate_token_loop]. unfold hosting_validate_token.
  cbv beta iota delta [bind try_ lift log ret]. by rewrite H.
Qed.

(** What the two loops can answer, and that they save nothing. *)
Lemma fetch_token_loop_inv w rid n : forall call s,
  exists t,
    snd (fetch_token_loop w rid n call s) = extend s t /\
    Forall (fun e => is_save e = false) t /\
    match fst (fetch_token_loop w rid n call s) with
    | Ok (Some tc) => exists i, call <= i < call + n /\ w_fetch_token w i rid = Ok tc
    | Ok None => True
    | Raise _ => False
    end.
Proof.
  induction n as [| n IH]; intros call s.
  - exists []. by rewrite extend_nil.
  - cbn [fetch_token_loop]. unfold hosting_fetch_token, time_sleep.
    cbv beta iota delta [bind try_ lift log ret].
    destruct (w_fetch_token w call rid) as [tc | ex] eqn:E; cbv beta iota.
    + exists [FetchToken rid]. cbn [fst snd]. split; [done |].
      split; [by repeat constructor |]. exists call. split; [lia | done].
    + match goal with
      | |- context [fetch_token_loop w rid n (S call) ?st] =>
          destruct (IH (S call) st) as (t & Hs & Ht & Hq);
          destruct (fetch_token_loop w rid n (S call) st) as [[[tc |] | e] s1]
      end; cbn [fst snd] in *; subst s1;
        (exists ([FetchToken rid; Sleep 5] ++ t));
        (split; [unfold extend; cbn [trace cfg]; f_equal; by rewrite <- !app_assoc |]);
        (split; [apply Forall_app; split; [by repeat constructor | done] |]);
        try done.
      destruct Hq as (i & Hi & Hfetch). exists i. split; [lia | done].
Qed.

Lemma validate_token_loop_inv w token n : forall call s,
  exists t,
    snd (validate_token_loop w token n call s) = extend s t /\
    Forall (fun e => is_save e = false) t /\
    match fst (validate_token_loop w token n call s) with
    | Ok true => exists j, call <= j < call + n /\ w_validate_token w j token = Ok tt
    | _ => True
    end.
Proof.
  induction n as [| n IH]; intros call s.
  - exists []. by rewrite extend_nil.
  - cbn [validate_token_loop].
    unfold hosting_validate_token, time_sleep, console_error, console_debug,
      hosting_delete_token_from_config.
    cbv beta iota delta [bind try_ lift log ret raise].
    destruct (w_validate_token w call token) as [[] | ex] eqn:E; cbv beta iota.
    + exists [ValidateToken token]. cbn [fst snd]. split; [done |].
      split; [by repeat constructor |]. exists call. split; [lia | done].
    + assert (forall ex',
        exists t,
          snd (validate_token_loop w token n (S call)
                 {| trace := ((trace s ++ [ValidateToken token]) ++
                              [ConsoleDebug [Lit "Unable to validate token due to: ";
                                             ExnText ex']]) ++ [Sleep 5];
                    cfg := cfg s |}) = extend s t /\
          Forall (fun e => is_save e = false) t /\
          match fst (validate_token_loop w token n (S call)
                 {| trace := ((trace s ++ [ValidateToken token]) ++
                              [ConsoleDebug [Lit "Unable to validate token due to: ";
                                             ExnText ex']]) ++ [Sleep 5];
                    cfg := cfg s |}) with
          | Ok true => exists j, call <= j < call + S n /\ w_validate_token w j token = Ok tt
          | _ => True
          end) as Hstep.
      { intros ex'.
        match goal with
        | |- context [validate_token_loop w token n (S call) ?st] =>
            destruct (IH (S call) st) as (t & Hs & Ht & Hq);
            destruct (validate_token_loop w token n (S call) st) as [[[] | e] s1]
        end; cbn [fst snd] in *; subst s1;
          (exists ([ValidateToken token;
                    ConsoleDebug [Lit "Unable to validate token due to: "; ExnText ex'];
                    Sleep 5] ++ t));
          (split; [unfold extend; cbn [trace cfg]; f_equal; by rewrite <- !app_assoc |]);
          (split; [apply Forall_app; split; [by repeat constructor | done] |]);
          try done.
        destruct Hq as (j & Hj & Hvalid). exists j. split; [lia | done]. }
      destruct ex; cbv beta iota; cbn [fst snd trace cfg]; try apply Hstep.
      exists [ValidateToken token; ConsoleError [Lit "Access denied"]; DeleteTokenFromConfig].
      split; [unfold extend; cbn [trace cfg]; f_equal; by rewrite <- !app_assoc |].
      split; [by repeat constructor | done].
Qed.

(** [validate_and_report] after its loop. *)
Lemma validate_and_report_run w token code had_token s :
  validate_and_report w token code had_token s =
    match validate_token_loop w token (WEB_AUTH_TIMEOUT w) 0
            (extend s [ConsoleStatus "Validating access token ..."]) with
    | (Ok true, s1) =>
        (Ok tt,
         extend s1 (if had_token then [ConsolePrint [Lit "You already logged in."]]
                    else [SaveTokenToConfig token code;
                          ConsolePrint [Lit "Successfully logged in."]]))
    | (Ok false, s1) =>
        (Raise (TyperExit 1),
         extend s1 [ConsoleError
                      [Lit "Unable to validate token. Please try again or contact support."]])
    | (Raise e, s1) => (Raise e, s1)
    end.
Proof.
  unfold validate_and_report, console_status.
  rewrite (bind_runs _ _ _ _ _ (log_runs _ _)). unfold bind at 1.
  destruct (validate_token_loop w token (WEB_AUTH_TIMEOUT w) 0 _) as [[[] | e] s1];
    [| | done].
  - cbn [negb]. cbv iota. destruct had_token; cbn [negb]; cbv iota.
    + done.
    + unfold hosting_save_token_to_config, console_print.
      cbv beta iota delta [bind log]. f_equal. state_eq.
  - cbn [negb]. cbv iota. unfold console_error.
    cbv beta iota delta [bind log raise]. done.
Qed.

(** [login] up to its loops. *)
Lemma login_run w loglevel s :
  login w loglevel s =
    if negb (w_feature_enabled w)
    then (Ok tt, extend s [ConsoleSetLogLevel loglevel; FeatureEnabled])
    else
      match w_get_existing_access_token w with
      | Ok (token, code) =>
          validate_and_report w token code true
            (extend s [ConsoleSetLogLevel loglevel; FeatureEnabled; GetExistingAccessToken])
      | Raise _ =>
          if negb (w_webbrowser_open w (login_url w (cfg s)))
          then
            (Raise (TyperExit 1),
             extend s (login_opening w loglevel (cfg s) ++
                       [ConsoleError [Lit "Unable to open the browser to authenticate. Please contact support."]]))
          else
            match fetch_token_loop w (w_uuid4_hex w) (WEB_AUTH_TIMEOUT w) 0
                    (extend s (login_opening w loglevel (cfg s) ++
                               [ConsoleStatus "Waiting for access token ..."])) with
            | (Ok (Some (token, code)), s1) =>
                if truthy_str token then validate_and_report w token code false s1
                else
                  (Raise (TyperExit 1),
                   extend s1 [ConsoleError [Lit "Unable to fetch access token. Please try again or contact support."]])
            | (Ok None, s1) =>
                (Raise (TyperExit 1),
                 extend s1 [ConsoleError [Lit "Unable to fetch access token. Please try again or contact support."]])
            | (Raise e, s1) => (Raise e, s1)
            end
      end.
Proof.
  unfold login, console_set_log_level.
  rewrite (bind_runs _ _ _ _ _ (log_runs _ _)).
  rewrite (bind_runs _ _ _ _ _ (feature_enabled_runs _ _)).
  rewrite extend_extend.
  destruct (w_feature_enabled w); cbn [negb]; cbv iota; [| done].
  unfold hosting_get_existing_access_token, webbrowser_open, console_print, console_status,
    console_error, login_opening, login_url.
  cbv beta iota delta [bind try_ lift log get_cfg ret raise].
  destruct (w_get_existing_access_token w) as [[token code] | ex]; cbv beta iota.
  - f_equal. state_eq.
  - cbn [trace cfg extend].
    destruct (w_webbrowser_open w _); cbn [negb]; cbv beta iota.
    + match goal with
      | |- context [fetch_token_loop w ?rid ?n 0 ?st] =>
          set (fetched := fetch_token_loop w rid n 0 st)
      end.
      match goal with
      | |- context [fetch_token_loop w ?rid ?n 0 ?st] =>
          assert (fetch_token_loop w rid n 0 st = fetched) as ->
            by (unfold fetched, extend; cbn [trace cfg]; do 2 f_equal;
                rewrite <- ?app_assoc; reflexivity)
      end.
      destruct fetched as [[[[token code] |] | e] s1]; try done.
      by destruct (truthy_str token).
    + f_equal. unfold extend. cbn [trace cfg]. f_equal.
      rewrite <- ?app_assoc. reflexivity.
Qed.

(** A trace made of parts that save nothing saves nothing. *)
Ltac no_save :=
  cbn [snd trace extend initial_state];
  repeat (apply Forall_app; split); try assumption; by repeat constructor.

(** ** [run] *)

Lemma resolve_port_run w enabled port role s :
  resolve_port w enabled port role s =
    (Ok (resolved_port w enabled port role),
     extend s (if enabled
               then IsProcessOnPort port ::
                    (if w_is_process_on_port w port
                     then [ChangeOrTerminatePort port role] else [])
               else [])).
Proof.
  unfold resolve_port, resolved_port, processes_is_process_on_port,
    processes_change_or_terminate_port.
  destruct enabled; cbn [andb].
  - cbv beta iota delta [bind log ret].
    destruct (w_is_process_on_port w port); cbv beta iota; f_equal; state_eq.
  - unfold ret. by rewrite extend_nil.
Qed.

Lemma with_ports_same c : with_ports c (cfg_frontend_port c) (cfg_backend_port c) = c.
Proof. by destruct c. Qed.

(** Lines 164 to 167: afterwards the configuration has the two ports. *)
Lemma persist_ports_run fp bp (k : M unit) s :
  (do c <- get_cfg;
   (if negb (String.eqb fp (cfg_frontend_port c))
    then set_persistent_frontend_port fp else ret tt) ;;
   do c <- get_cfg;
   (if negb (String.eqb bp (cfg_backend_port c))
    then set_persistent_backend_port bp else ret tt) ;;
   k) s =
  k {| trace := trace s ++
         (if String.eqb fp (cfg_frontend_port (cfg s)) then []
          else [SetPersistentFrontendPort fp]) ++
         (if String.eqb bp (cfg_backend_port (cfg s)) then []
          else [SetPersistentBackendPort bp]);
       cfg := with_ports (cfg s) fp bp |}.
Proof.
  unfold set_persistent_frontend_port, set_persistent_backend_port.
  cbv beta iota delta [bind get_cfg put_cfg log ret].
  destruct s as [tr [f b a d u]]. cbn [trace cfg cfg_frontend_port cfg_backend_port].
  destruct (String.eqb_spec fp f) as [-> | Hf]; cbn [negb]; cbv beta iota;
    cbn [trace cfg cfg_frontend_port cfg_backend_port cfg_api_url cfg_deploy_url
         cfg_cp_web_url];
    destruct (String.eqb_spec bp b) as [-> | Hb]; cbn [negb]; cbv beta iota;
    cbn [trace cfg cfg_frontend_port cfg_backend_port cfg_api_url cfg_deploy_url
         cfg_cp_web_url];
    f_equal; unfold with_ports; cbn; f_equal; rewrite <- ?app_assoc, ?app_nil_r;
    reflexivity.
Qed.

(** The whole of [run]. *)
Lemma run_run w o s :
  run w o s =
    let before :=
      [ConsoleSetLogLevel (run_loglevel o); OutputSystemInfo] ++
      (if negb (frontend_on o) && backend_on o then [SkipCompile] else []) ++
      [CheckInitialized (frontend_on o)] in
    match w_check_initialized w (frontend_on o) with
    | Raise ex => (Raise ex, extend s before)
    | Ok _ =>
        let ports :=
          (if frontend_on o
           then IsProcessOnPort (run_frontend_port o) ::
                (if w_is_process_on_port w (run_frontend_port o)
                 then [ChangeOrTerminatePort (run_frontend_port o) "frontend"] else [])
           else []) ++
          (if backend_on o
           then IsProcessOnPort (run_backend_port o) ::
                (if w_is_process_on_port w (run_backend_port o)
                 then [ChangeOrTerminatePort (run_backend_port o) "backend"] else [])
           else []) ++
          (if String.eqb (frontend_port_of w o) (cfg_frontend_port (cfg s)) then []
           else [SetPersistentFrontendPort (frontend_port_of w o)]) ++
          (if String.eqb (backend_port_of w o) (cfg_backend_port (cfg s)) then []
           else [SetPersistentBackendPort (backend_port_of w o)]) ++
          [ConsoleRule [Lit "[bold]Starting Reflex App"]] in
        let c := with_ports (cfg s) (frontend_port_of w o) (backend_port_of w o) in
        let start :=
          [CheckSchemaUpToDate; TelemetrySend ("run-" +:+ env_value (run_env o));
           AtexitRegister] ++
          (if frontend_on o
           then [BuildSetup (match run_env o with
                             | DEV => setup_frontend | PROD => setup_frontend_prod
                             end)]
           else []) ++
          [RunConcurrently (concurrent_commands w o)] ++
          (match run_env o with
           | DEV => if backend_on o
                    then [RunOnMainThread run_backend (run_backend_host o)
                            (backend_port_of w o)]
                    else []
           | PROD => []
           end) in
        if frontend_on o then
          match w_get_app w with
          | Raise ex =>
              (Raise ex, {| trace := trace s ++ before ++ ports ++ [GetApp]; cfg := c |})
          | Ok _ =>
              (Ok tt, {| trace := trace s ++ before ++ ports ++ [GetApp] ++ start;
                         cfg := c |})
          end
        else (Ok tt, {| trace := trace s ++ before ++ ports ++ start; cfg := c |})
    end.
Proof.
  unfold run. cbv zeta.
  fold (frontend_on o). fold (backend_on o).
  unfold console_set_log_level, exec_output_system_info.
  rewrite (bind_runs _ _ _ _ _ (log_runs _ _)).
  rewrite (bind_runs _ _ _ _ _ (log_runs _ _)).
  unfold bind at 1.
  assert ((if negb (frontend_on o) && backend_on o then log SkipCompile else ret tt)
            (extend (extend s [ConsoleSetLogLevel (run_loglevel o)]) [OutputSystemInfo]) =
          (Ok tt, extend s ([ConsoleSetLogLevel (run_loglevel o); OutputSystemInfo] ++
                            (if negb (frontend_on o) && backend_on o then [SkipCompile]
                             else [])))) as ->.
  { destruct (negb (frontend_on o) && backend_on o); unfold log, ret; f_equal; state_eq. }
  unfold prerequisites_check_initialized.
  unfold bind at 1. unfold bind at 1. unfold log at 1, lift at 1.
  cbn [trace cfg extend].
  destruct (w_check_initialized w (frontend_on o)) as [[] | ex].
  2:{ f_equal. f_equal. by rewrite <- !app_assoc. }
  unfold bind at 1. rewrite resolve_port_run.
  unfold bind at 1. rewrite resolve_port_run.
  fold (frontend_port_of w o). fold (backend_port_of w o).
  rewrite persist_ports_run.
  unfold console_rule, prerequisites_get_app, telemetry_send, concurrent_commands.
  cbv beta iota delta [bind log lift ret extend]. cbn [trace cfg].
  destruct (frontend_on o), (backend_on o), (run_env o);
    cbv beta iota; cbn [trace cfg app];
    try (destruct (w_get_app w) as [[] | ex]; cbv beta iota; cbn [trace cfg app]);
    f_equal; f_equal; rewrite <- ?app_assoc; cbn [app]; rewrite <- ?app_assoc;
    reflexivity.
Qed.

(** * The claims *)

(** C1. [deploy] never calls [hosting.deploy] with an empty deployment
    key, an empty region list, an empty [app_name], an empty [app_prefix]
    or an empty [api_url].  Whenever a run arrives at line 577 with one
    of them empty, it reports the error of line 580 and raises
    [typer.Exit(1)], and its trace has no upload; and in any run at all,
    an upload that is made carries a non-empty key, region list, app name
    and app prefix, and the [api_url] put in the configuration for it is
    not empty. *)
Theorem deploy_requires_parameters (w : world) (o : deploy_options)
    (lines : list string) (c : config) :
  (forall n s,
     reaches_check w o lines c = Some (n, s) ->
     truthy_opt (n_key n) = false \/ truthy_list (n_regions n) = false \/
     truthy_str (opt_app_name o) = false \/ truthy_str (n_app_prefix n) = false \/
     truthy_str (n_api_url n) = false ->
     outcome (deploy w o lines) c = Raise (TyperExit 1) /\
     events (deploy w o lines) c =
       trace s ++ [params_debug o n;
                   ConsoleError [Lit "Please provide all the required parameters."]] /\
     Forall no_upload (events (deploy w o lines) c)) /\
  (forall req,
     In (HostingDeploy req) (events (deploy w o lines) c) ->
     truthy_opt (up_key req) = true /\ truthy_list (up_regions req) = true /\
     truthy_str (up_app_name req) = true /\ truthy_str (up_app_prefix req) = true /\
     truthy_str (cfg_api_url (final_cfg (deploy w o lines) c)) = true).
Proof.
  split.
  - intros n s Hreach Hempty.
    destruct (reaches_check_deploy w o lines c n s Hreach) as (Hrun & Hs & _ & _).
    assert (required_ok o n = false) as Hreq.
    { unfold required_ok.
      destruct Hempty as [-> | [-> | [-> | [-> | ->]]]];
        rewrite ?andb_false_r; reflexivity. }
    unfold outcome, events. rewrite Hrun, (check_and_deploy_missing w o n s Hreq).
    simpl. repeat split.
    apply Forall_app. split; [done | repeat constructor].
  - intros req Hin.
    destruct (deploy_uploads w o lines c req Hin)
      as (n & d & t & _ & _ & Hreq & _ & _ & -> & _ & Hrun).
    unfold required_ok in Hreq.
    apply andb_true_iff in Hreq as [Hreq Hapi].
    apply andb_true_iff in Hreq as [Hreq Hprefix].
    apply andb_true_iff in Hreq as [Hreq Happ].
    apply andb_true_iff in Hreq as [Hkey Hregions].
    repeat split; try done.
    unfold final_cfg. cbv zeta in Hrun. rewrite Hrun.
    destruct (w_deploy w (upload_request_of w o n d)) as [r | ex]; [| done].
    rewrite await_deployment_run. by destruct (w_clean_up w).
Qed.

(** Both parts at work: with a control plane that gives no API URL the
    run stops at line 580, and the upload of a run that goes well has
    all its parameters. *)
Lemma deploy_requires_parameters_witness :
  (outcome (deploy world_no_api_url (options_with_envs []) []) example_config
     = Raise (TyperExit 1) /\
   Forall no_upload
     (events (deploy world_no_api_url (options_with_envs []) []) example_config)) /\
  truthy_str (cfg_api_url
    (final_cfg (deploy example_world (options_with_envs []) []) example_config)) = true.
Proof.
  split.
  - refine (let H := proj1 (deploy_requires_parameters world_no_api_url
                              (options_with_envs []) [] example_config) _ _ _ _ in
            conj (proj1 H) (proj2 (proj2 H))).
    + vm_compute. reflexivity.
    + right. right. right. right. reflexivity.
  - refine (proj2 (proj2 (proj2 (proj2
      (proj2 (deploy_requires_parameters example_world (options_with_envs []) []
                example_config)
         (upload_request_of example_world (options_with_envs [])
            {| n_key := Some "app-one"; n_regions := ["sjc"]; n_envs := [];
               n_app_prefix := "prefix"; n_api_url := "https://api.example";
               n_deploy_url := "https://app.example"; n_overwrite_existing := false |}
            None) _))))).
    vm_compute. repeat (first [left; reflexivity | right]).
Defined.

(** C4, as the code has it.  With the hosting feature enabled,
    [deploy --no-interactive] without a key fails at once: after the log
    level and the feature check it reports the error of line 471 and
    raises [typer.Exit(1)], and nothing else happens, in particular no
    prepare-deploy call.  With the feature not enabled the command
    returns at line 468, without an error. *)
Theorem deploy_no_interactive_needs_key (w : world) (o : deploy_options)
    (lines : list string) (c : config) :
  opt_interactive o = false ->
  truthy_opt (opt_key o) = false ->
  (w_feature_enabled w = true ->
   exit_status_of (outcome (deploy w o lines) c) = ExitCode 1 /\
   events (deploy w o lines) c =
     [ConsoleSetLogLevel (opt_loglevel o); FeatureEnabled;
      ConsoleError [Lit "Please provide a deployment key when not in interactive mode."]]) /\
  (w_feature_enabled w = false ->
   exit_status_of (outcome (deploy w o lines) c) = ExitCode 0 /\
   events (deploy w o lines) c = [ConsoleSetLogLevel (opt_loglevel o); FeatureEnabled]).
Proof.
  intros Hinteractive Hkey. unfold outcome, events.
  rewrite deploy_prefix. cbv zeta. rewrite Hinteractive, Hkey.
  split; intros ->; done.
Qed.

Lemma deploy_no_interactive_needs_key_witness :
  exit_status_of (outcome (deploy example_world options_no_key []) example_config)
    = ExitCode 1 /\
  events (deploy example_world options_no_key []) example_config =
    [ConsoleSetLogLevel "info"; FeatureEnabled;
     ConsoleError [Lit "Please provide a deployment key when not in interactive mode."]].
Proof.
  exact (proj1 (deploy_no_interactive_needs_key example_world options_no_key []
                  example_config eq_refl eq_refl) eq_refl).
Defined.

(** The claim C4 as it is written fails where the hosting feature is not
    enabled: [deploy --no-interactive] without a key then ends with exit
    code 0 and reports no error. *)
Lemma deploy_no_interactive_feature_off :
  opt_interactive options_no_key = false /\
  truthy_opt (opt_key options_no_key) = false /\
  exit_status_of (outcome (deploy world_feature_off options_no_key []) example_config)
    = ExitCode 0 /\
  Forall (fun e => is_error e = false)
    (events (deploy world_feature_off options_no_key []) example_config).
Proof. repeat split. vm_compute. repeat constructor. Qed.

(** C2, as the code has it.  Whenever a run of [deploy] arrives at the
    environment entries (line 583, the required parameters present) and
    one of them, given on the command line or added at the prompt, has
    no [=] or a name that does not match [^[A-Za-z_][A-Za-z0-9_]*$] even
    with one final newline set aside, the command reports one of the two
    descriptive errors and raises [typer.Exit(1)] with no upload made.
    In any run at all, such an entry on the command line means that no
    upload is made, and an upload that is made receives only names and
    values of entries that passed the validation. *)
Theorem deploy_validates_entries (w : world) (o : deploy_options)
    (lines : list string) (c : config) :
  (forall n s,
     reaches_check w o lines c = Some (n, s) ->
     required_ok o n = true ->
     (exists env, In env (n_envs n) /\ bad_entry env) ->
     exists msg, env_error msg /\
       outcome (deploy w o lines) c = Raise (TyperExit 1) /\
       events (deploy w o lines) c = trace s ++ [params_debug o n; ConsoleError msg] /\
       Forall no_upload (events (deploy w o lines) c)) /\
  ((exists env, In env (opt_envs o) /\ bad_entry env) ->
   Forall no_upload (events (deploy w o lines) c)) /\
  (forall req,
     In (HostingDeploy req) (events (deploy w o lines) c) ->
     exists envs,
       (exists extra, envs = opt_envs o ++ extra) /\
       (forall env, In env envs -> ~ bad_entry env) /\
       match up_envs req with
       | None => envs = []
       | Some d =>
           forall name value, d !! name = Some value ->
             In (name +:+ String "=" value) envs /\ occurs "=" name = false /\
             valid_env_name (chomp name) = true
       end).
Proof.
  assert (forall req,
     In (HostingDeploy req) (events (deploy w o lines) c) ->
     exists envs,
       (exists extra, envs = opt_envs o ++ extra) /\
       forallb accepted envs = true /\ processed envs (up_envs req)) as Hupload.
  { intros req Hin.
    destruct (deploy_uploads w o lines c req Hin)
      as (n & d & t & [Hextra _] & _ & _ & Hacc & Hd & -> & _).
    exists (n_envs n). by repeat split. }
  split; [| split].
  - intros n s Hreach Hreq Hbad.
    destruct (reaches_check_deploy w o lines c n s Hreach) as (Hrun & Hs & _ & _).
    apply forallb_accepted_false in Hbad.
    destruct (check_and_deploy_rejected w o n s Hreq Hbad) as (msg & Hmsg & Hrej).
    exists msg. unfold outcome, events. rewrite Hrun, Hrej. simpl.
    repeat split; [done |].
    apply Forall_app. split; [done | repeat constructor].
  - intros (env & Hin & Hbad). apply Forall_forall. intros e He.
    destruct e; try reflexivity.
    apply list_elem_of_In in He.
    destruct (Hupload _ He) as (envs & (extra & ->) & Hacc & _).
    rewrite forallb_forall in Hacc.
    apply accepted_false in Hbad.
    rewrite Hacc in Hbad; [done |]. apply in_or_app. by left.
  - intros req Hin.
    destruct (Hupload req Hin) as (envs & Hextra & Hacc & Hd).
    exists envs. split; [done |]. split.
    + intros env Henv Hbad. apply accepted_false in Hbad.
      rewrite forallb_forall in Hacc. by rewrite (Hacc _ Henv) in Hbad.
    + unfold processed in Hd. destruct (up_envs req) as [d |]; [| done].
      destruct Hd as [_ Hd]. intros name value Hlook.
      rewrite Hd in Hlook. apply last_value_Some_In in Hlook as [Hin' Hocc].
      repeat split; [done | done |].
      rewrite forallb_forall in Hacc.
      destruct (accepted_entry _ (Hacc _ Hin')) as (name' & value' & Heq & Hocc' & Hvalid).
      by destruct (append_eq_inv _ _ _ _ Hocc Hocc' Heq) as [-> _].
Qed.

(** An entry without [=] stops the run at line 591. *)
Lemma deploy_validates_entries_witness :
  (exists env, In env (opt_envs (options_with_envs ["DEBUG"])) /\ bad_entry env) /\
  Forall no_upload
    (events (deploy example_world (options_with_envs ["DEBUG"]) []) example_config).
Proof.
  assert (exists env, In env (opt_envs (options_with_envs ["DEBUG"])) /\ bad_entry env) as H.
  { exists "DEBUG". split; [by left | by left]. }
  split; [exact H |].
  exact (proj1 (proj2 (deploy_validates_entries example_world (options_with_envs ["DEBUG"])
                         [] example_config)) H).
Defined.

(** The claim C2 as it is written fails where the hosting feature is not
    enabled: an entry without [=] is given, and the command ends with
    exit code 0 and no error reported. *)
Lemma deploy_bad_entry_feature_off :
  In "DEBUG" (opt_envs (options_with_envs ["DEBUG"])) /\
  occurs "=" "DEBUG" = false /\
  exit_status_of
    (outcome (deploy world_feature_off (options_with_envs ["DEBUG"]) []) example_config)
    = ExitCode 0 /\
  Forall (fun e => is_error e = false)
    (events (deploy world_feature_off (options_with_envs ["DEBUG"]) []) example_config).
Proof. repeat split; [by left |]. vm_compute. repeat constructor. Qed.

(** A name with a final newline passes the check of line 592, although it
    is not a letter or underscore followed by letters, digits or
    underscores. *)
Lemma name_with_newline_accepted :
  re_match_env_name name_with_newline = true /\ valid_env_name name_with_newline = false.
Proof. split; reflexivity. Qed.

(** C3.  In interactive mode, when the first prepare-deploy answer is a
    suggestion (no reply, no existing deployment) with a key, the
    operator takes the suggested key as it is, and the control plane
    answers the call for that key with a reply for it, [deploy] makes
    exactly two prepare-deploy calls: the first and the confirmation.
    The trace starts with the checks, the first call, the question and
    the second call, and nothing after them is a prepare-deploy call. *)
Theorem deploy_suggestion_two_calls (w : world) (o : deploy_options)
    (line : string) (rest : list string) (c : config)
    (first second : prepare_response) (sg r : prep_info) :
  w_feature_enabled w = true ->
  opt_interactive o = true ->
  w_check_requirements_txt_exist w = Ok tt ->
  w_check_initialized w true = Ok tt ->
  w_prepare_deploy w 0 (opt_app_name o) (opt_key o) (opt_frontend_hostname o) = Ok first ->
  reply first = None ->
  existing first = None \/ existing first = Some [] ->
  suggestion first = Some sg ->
  truthy_str (pi_key sg) = true ->
  ask_answer (Some (pi_key sg)) line = pi_key sg ->
  w_prepare_deploy w 1 (opt_app_name o) (Some (pi_key sg)) (opt_frontend_hostname o)
    = Ok second ->
  reply second = Some r ->
  pi_key r = pi_key sg ->
  (exists t,
     events (deploy w o (line :: rest)) c =
       deploy_preamble o ++
       [PrepareDeploy (opt_app_name o) (opt_key o) (opt_frontend_hostname o);
        ConsoleAsk "Name of deployment" (Some (pi_key sg));
        PrepareDeploy (opt_app_name o) (Some (pi_key sg)) (opt_frontend_hostname o)] ++ t /\
     Forall no_prepare t) /\
  List.filter is_prepare (events (deploy w o (line :: rest)) c) =
    [PrepareDeploy (opt_app_name o) (opt_key o) (opt_frontend_hostname o);
     PrepareDeploy (opt_app_name o) (Some (pi_key sg)) (opt_frontend_hostname o)].
Proof.
  intros Hfeat Hint Hreq Hinit Hfirst Hreply Hexisting Hsg Hkey Hanswer Hsecond Hconfirm Hsame.
  assert (exists t,
     events (deploy w o (line :: rest)) c =
       deploy_preamble o ++
       [PrepareDeploy (opt_app_name o) (opt_key o) (opt_frontend_hostname o);
        ConsoleAsk "Name of deployment" (Some (pi_key sg));
        PrepareDeploy (opt_app_name o) (Some (pi_key sg)) (opt_frontend_hostname o)] ++ t /\
     Forall no_prepare t) as (t & Ht & Hno).
  { unfold events. rewrite deploy_prefix. cbv zeta.
    rewrite Hfeat, Hint, Hreq, Hinit. cbn [negb andb]. cbv iota.
    unfold bind at 1.
    rewrite (negotiate_suggestion_run w o line rest first second sg r _
               Hint Hfirst Hreply Hexisting Hsg Hkey Hanswer Hsecond Hconfirm Hsame).
    rewrite extend_extend.
    match goal with
    | |- context [ask_params o first ?kc ?au ?du ?ov rest ?st] =>
        destruct (ask_params_local o first kc au du ov rest st) as (t1 & Hs1 & Ht1 & _);
        destruct (ask_params o first kc au du ov rest st) as [[n | ex] s1]
    end; simpl in Hs1; subst s1.
    - match goal with
      | |- context [check_and_deploy w o n ?st] =>
          destruct (check_and_deploy_no_prepare w o n st) as (t2 & Hs2 & Ht2)
      end.
      exists (t1 ++ t2). split.
      + etransitivity; [exact Hs2 |]. unfold deploy_preamble. simpl.
        by rewrite <- ?app_assoc.
      + apply Forall_app. split; [| done].
        eapply Forall_impl; [exact Ht1 | apply local_no_prepare].
    - exists t1. split; [unfold deploy_preamble; simpl; by rewrite <- ?app_assoc |].
      eapply Forall_impl; [exact Ht1 | apply local_no_prepare]. }
  split; [by exists t |].
  rewrite Ht. rewrite !List.filter_app. simpl.
  assert (List.filter is_prepare t = []) as ->; [| done].
  clear Ht. induction Hno as [| e t He _ IH]; [done |]. simpl.
  unfold no_prepare in He. by rewrite He.
Qed.

Lemma deploy_suggestion_two_calls_witness :
  List.filter is_prepare
    (events (deploy example_world options_interactive [EmptyString; EmptyString; EmptyString]) example_config) =
    [PrepareDeploy "app" None None; PrepareDeploy "app" (Some "app-one") None].
Proof.
  exact (proj2 (deploy_suggestion_two_calls example_world options_interactive
    EmptyString [EmptyString; EmptyString] example_config
    {| app_prefix := "prefix"; reply := None; existing := None;
       suggestion := Some {| pi_key := "app-one"; pi_api_url := "https://api.example";
                             pi_deploy_url := "https://app.example" |} |}
    {| app_prefix := "prefix";
       reply := Some {| pi_key := "app-one"; pi_api_url := "https://api.example";
                        pi_deploy_url := "https://app.example" |};
       existing := None; suggestion := None |}
    {| pi_key := "app-one"; pi_api_url := "https://api.example";
       pi_deploy_url := "https://app.example" |}
    {| pi_key := "app-one"; pi_api_url := "https://api.example";
       pi_deploy_url := "https://app.example" |}
    eq_refl eq_refl eq_refl eq_refl eq_refl eq_refl (or_introl eq_refl) eq_refl
    eq_refl eq_refl eq_refl eq_refl eq_refl)).
Defined.

(** C5.  What a run of [deploy] that makes the upload does about the
    cleanup.  The cleanup call follows the upload in every such run.
    When the upload fails, the command raises [typer.Exit(1)] whatever
    the cleanup call does: lines 632 and 633 suppress its exception.
    When the upload succeeds, the cleanup call of line 673 is not
    guarded: the run ends well if the call returns, and an exception of
    the call is the outcome of the command if it raises. *)
Theorem deploy_cleanup_after_upload (w : world) (o : deploy_options)
    (lines : list string) (c : config) (req : upload_request) :
  In (HostingDeploy req) (events (deploy w o lines) c) ->
  (exists t u v,
     events (deploy w o lines) c = t ++ HostingDeploy req :: u ++ CleanUp :: v /\
     Forall no_upload t /\ Forall no_upload u /\ length v <= 1) /\
  outcome (deploy w o lines) c =
    match w_deploy w req, w_clean_up w with
    | Raise _, _ => Raise (TyperExit 1)
    | Ok _, Ok _ => Ok tt
    | Ok _, Raise e => Raise e
    end.
Proof.
  intros Hin.
  destruct (deploy_uploads w o lines c req Hin)
    as (n & d & t & _ & _ & _ & _ & _ & _ & Ht & Hrun).
  cbv zeta in Hrun. unfold events, outcome. rewrite Hrun. clear Hrun.
  destruct (w_deploy w req) as [r | ex].
  - rewrite await_deployment_run.
    destruct (await_events_cleanup w n r) as (u & -> & Hu).
    destruct (w_clean_up w) as [[] | e]; (split; [| done]).
    + exists t, u, [final_report w n r]. simpl.
      rewrite <- !app_assoc. simpl. by repeat split.
    + exists t, u, []. simpl. rewrite <- !app_assoc. simpl. repeat split; try done. lia.
  - split; [| done].
    exists t, [ConsoleError [Lit "Unable to deploy due to: "; ExnText ex]], []. simpl.
    rewrite <- !app_assoc. simpl. repeat split; try done; [repeat constructor | lia].
Qed.

(** An upload that succeeds followed by a cleanup call that raises: the
    exception of the cleanup call is what comes out of [deploy], the
    last event is the cleanup call, and nothing is reported after it. *)
Lemma deploy_cleanup_after_upload_witness :
  outcome (deploy world_cleanup_fails (options_with_envs []) []) example_config
    = Raise (OtherError "PermissionError") /\
  exit_status_of (outcome (deploy world_cleanup_fails (options_with_envs []) []) example_config)
    = Traceback (OtherError "PermissionError") /\
  last (events (deploy world_cleanup_fails (options_with_envs []) []) example_config)
    = Some CleanUp.
Proof.
  assert (In (HostingDeploy (upload_request_of world_cleanup_fails (options_with_envs [])
            {| n_key := Some "app-one"; n_regions := ["sjc"]; n_envs := [];
               n_app_prefix := "prefix"; n_api_url := "https://api.example";
               n_deploy_url := "https://app.example"; n_overwrite_existing := false |}
            None))
          (events (deploy world_cleanup_fails (options_with_envs []) []) example_config))
    as Hin by (vm_compute; tauto).
  pose proof (proj2 (deploy_cleanup_after_upload _ _ _ _ _ Hin)) as Hout.
  split; [exact Hout |]. split; [by rewrite Hout |].
  vm_compute. reflexivity.
Defined.







(** C9.  Lines 157 to 161 of [run].  The resolution of a port that no
    process is on returns the port as it was asked, after at most the
    one question whether a process is on it; and no run of [run] calls
    [processes.change_or_terminate_port] for such a port. *)
Theorem run_free_port_unchanged (w : world) (o : run_options) (c : config)
    (enabled : bool) (port role : string) (s : state) :
  w_is_process_on_port w port = false ->
  resolve_port w enabled port role s =
    (Ok port, extend s (if enabled then [IsProcessOnPort port] else [])) /\
  forall role', ~ In (ChangeOrTerminatePort port role') (events (run w o) c).
Proof.
  intros Hfree. split; [by apply resolve_port_free |].
  intros role' Hin. unfold events in Hin.
  destruct (run_adds w o (initial_state c)) as (t & Hs & Ht).
  rewrite Hs in Hin. simpl in Hin.
  rewrite Forall_forall in Ht. apply list_elem_of_In in Hin.
  specialize (Ht _ Hin). simpl in Ht. congruence.
Qed.

(** No process is on port 3000: it is the frontend port of the run. *)
Lemma run_free_port_unchanged_witness :
  resolve_port example_world true "3000" "frontend" (initial_state example_config) =
    (Ok "3000", extend (initial_state example_config) [IsProcessOnPort "3000"]) /\
  ~ In (ChangeOrTerminatePort "3000" "frontend")
       (events (run example_world example_run_options) example_config).
Proof.
  destruct (run_free_port_unchanged example_world example_run_options example_config
              true "3000" "frontend" (initial_state example_config) eq_refl)
    as [Hport Hrun].
  split; [exact Hport | exact (Hrun "frontend")].
Defined.

(** C10.  The environment entries of an upload.  In a run of [deploy]
    that makes the upload, the entries (those of the command line
    followed by those added at the prompt) were each split by line 588
    into the text before the first [=], which has no [=] in it, and all
    the text after it, whatever it is; the dictionary sent with the
    upload gives every name the value of the last entry that has this
    name, and there is no dictionary when there is no entry. *)
Theorem deploy_splits_at_first_equals (w : world) (o : deploy_options)
    (lines : list string) (c : config) (req : upload_request) :
  In (HostingDeploy req) (events (deploy w o lines) c) ->
  exists envs,
    entries_of o envs /\
    (forall env, In env envs ->
       exists name value,
         split_maxsplit1 "=" env = [name; value] /\
         env = name +:+ String "=" value /\ occurs "=" name = false) /\
    match up_envs req with
    | None => envs = []
    | Some d =>
        envs <> [] /\
        (forall name, d !! name = last_value name envs) /\
        (forall before name value after,
           envs = before ++ (name +:+ String "=" value) :: after ->
           occurs "=" name = false ->
           (forall env value', In env after -> env <> name +:+ String "=" value') ->
           d !! name = Some value)
    end.
Proof.
  intros Hin.
  destruct (deploy_uploads w o lines c req Hin)
    as (n & d & t & Hextra & _ & _ & Hacc & Hd & -> & _).
  exists (n_envs n). split; [exact Hextra |]. split.
  - intros env Henv. rewrite forallb_forall in Hacc.
    destruct (accepted_entry env (Hacc _ Henv)) as (name & value & -> & Hocc & _).
    exists name, value. split; [| by split].
    unfold split_maxsplit1.
    by rewrite (proj2 (partition_at_Some "=" _ name value) (conj eq_refl Hocc)).
  - simpl. destruct d as [d |]; [| exact Hd].
    destruct Hd as [Hne Hd]. split; [exact Hne |]. split; [exact Hd |].
    intros before name value after Henvs Hocc Hafter.
    rewrite Hd, Henvs. by apply last_value_last.
Qed.

(** Three entries on the command line: the value of [B] keeps its [=],
    and of the two entries for [A] the last one, with the empty value,
    is the one that is sent. *)
Lemma deploy_splits_at_first_equals_witness :
  exists d,
    In (HostingDeploy
          (upload_request_of example_world (options_with_envs ["A=1"; "B=x=y"; "A="])
             {| n_key := Some "app-one"; n_regions := ["sjc"];
                n_envs := ["A=1"; "B=x=y"; "A="];
                n_app_prefix := "prefix"; n_api_url := "https://api.example";
                n_deploy_url := "https://app.example"; n_overwrite_existing := false |}
             (Some d)))
       (events (deploy example_world (options_with_envs ["A=1"; "B=x=y"; "A="]) [])
          example_config) /\
    d !! "A" = Some EmptyString /\ d !! "B" = Some "x=y".
Proof.
  exists (<["A" := EmptyString]> (<["B" := "x=y"]> (<["A" := "1"]> ∅))).
  assert (In (HostingDeploy
          (upload_request_of example_world (options_with_envs ["A=1"; "B=x=y"; "A="])
             {| n_key := Some "app-one"; n_regions := ["sjc"];
                n_envs := ["A=1"; "B=x=y"; "A="];
                n_app_prefix := "prefix"; n_api_url := "https://api.example";
                n_deploy_url := "https://app.example"; n_overwrite_existing := false |}
             (Some (<["A" := EmptyString]> (<["B" := "x=y"]> (<["A" := "1"]> ∅))))))
       (events (deploy example_world (options_with_envs ["A=1"; "B=x=y"; "A="]) [])
          example_config)) as Hin.
  { vm_compute. tauto. }
  split; [exact Hin |].
  destruct (deploy_splits_at_first_equals _ _ _ _ _ Hin)
    as (envs & [_ Henvs] & _ & _ & _ & Hlast).
  specialize (Henvs eq_refl). simpl in Henvs. subst envs. split.
  - apply (Hlast ["A=1"; "B=x=y"] "A" EmptyString []); [reflexivity | reflexivity |].
    intros env value' [].
  - apply (Hlast ["A=1"] "B" "x=y" ["A="]); [reflexivity | reflexivity |].
    intros env value' [<- | []]. discriminate.
Defined.

(** * Further properties of the commands *)

(** ** [deploy] *)

(** X1.  No run of [deploy] calls [hosting.deploy] more than once. *)
Theorem deploy_at_most_one_upload (w : world) (o : deploy_options)
    (lines : list string) (c : config) :
  length (List.filter is_upload (events (deploy w o lines) c)) <= 1.
Proof.
  destruct (List.filter is_upload (events (deploy w o lines) c)) as [| e l] eqn:E;
    [simpl; lia |].
  assert (In e (List.filter is_upload (events (deploy w o lines) c))) as Hin
    by (rewrite E; by left).
  apply filter_In in Hin as [Hin He]. destruct e; try discriminate.
  destruct (deploy_uploads w o lines c request Hin)
    as (n & d & t & _ & _ & _ & _ & _ & _ & Ht & Hrun).
  cbv zeta in Hrun. unfold events in E. rewrite Hrun in E.
  assert (List.filter is_upload (t ++ [HostingDeploy request]) = [HostingDeploy request])
    as Hone by (by rewrite List.filter_app, (filter_no_upload _ Ht)).
  destruct (w_deploy w request) as [r | ex].
  - rewrite await_deployment_run in E.
    destruct (await_events_cleanup w n r) as (u & Hu & Hno). rewrite Hu in E.
    assert (List.filter is_upload ((u ++ [CleanUp]) ++ [final_report w n r]) = []) as Hrest.
    { rewrite !List.filter_app, (filter_no_upload _ Hno). unfold final_report.
      by destruct (frontend_up w r && backend_up w r). }
    assert (List.filter is_upload (u ++ [CleanUp]) = []) as Hrest'
      by (by rewrite List.filter_app, (filter_no_upload _ Hno)).
    destruct (w_clean_up w); cbn [snd trace extend] in E;
      rewrite List.filter_app, Hone in E; rewrite ?Hrest, ?Hrest' in E;
      injection E as <-; simpl; lia.
  - cbn [snd trace extend] in E. rewrite List.filter_app, Hone in E.
    injection E as <-. simpl. lia.
Qed.

(** X2.  What an upload carries.  The upload of a run has the app
    prefix of the first prepare-deploy answer, also when a later answer
    confirmed the key; the app name, the sizes, the start and stop
    settings and the frontend host name of the command line, and the two
    archive names of the constants.  Regions given on the command line
    are the regions of the upload, whatever the operator answered;
    without the operator the key is the one of the command line; with
    the operator and no region on the command line there is exactly one
    region. *)
Theorem deploy_upload_parameters (w : world) (o : deploy_options)
    (lines : list string) (c : config) (req : upload_request) :
  In (HostingDeploy req) (events (deploy w o lines) c) ->
  exists first,
    w_prepare_deploy w 0 (opt_app_name o) (opt_key o) (opt_frontend_hostname o) = Ok first /\
    up_app_prefix req = app_prefix first /\
    up_app_name req = opt_app_name o /\
    up_cpus req = opt_cpus o /\ up_memory_mb req = opt_memory_mb o /\
    up_auto_start req = opt_auto_start o /\ up_auto_stop req = opt_auto_stop o /\
    up_frontend_hostname req = opt_frontend_hostname o /\
    up_frontend_file_name req = FRONTEND_ZIP w /\ up_backend_file_name req = BACKEND_ZIP w /\
    (truthy_list (opt_regions o) = true -> up_regions req = opt_regions o) /\
    (opt_interactive o = false -> up_key req = opt_key o /\ up_regions req = opt_regions o) /\
    (opt_interactive o = true -> truthy_list (opt_regions o) = false ->
     exists region, up_regions req = [region]).
Proof.
  intros Hin.
  destruct (upload_reaches_check w o lines c req Hin) as (n & s & d & Hreach & _ & _ & _ & ->).
  apply reaches_check_Some in Hreach as (_ & _ & _ & _ & Hneg).
  destruct (negotiate_result w o lines _ n (f_equal fst Hneg))
    as (first & Hfirst & Hprefix & Hgiven & Hbatch & Hasked).
  exists first. cbn. repeat split; try done.
  - by destruct (Hbatch H) as (? & _).
  - by destruct (Hbatch H) as (_ & ? & _).
  - intros Hint Hnone. by destruct (Hasked Hint) as (_ & _ & _ & Hone); apply Hone.
Qed.

(** With the operator and no region on the command line: the one region
    is the answer to the question, here the default. *)
Lemma deploy_upload_parameters_witness :
  exists req,
    In (HostingDeploy req)
       (events (deploy example_world options_interactive
                  [EmptyString; EmptyString; EmptyString]) example_config) /\
    up_app_prefix req = "prefix" /\ up_app_name req = "app" /\
    exists region, up_regions req = [region].
Proof.
  exists (upload_request_of example_world options_interactive (example_negotiated []) None).
  assert (In (HostingDeploy
                (upload_request_of example_world options_interactive
                   (example_negotiated []) None))
             (events (deploy example_world options_interactive
                        [EmptyString; EmptyString; EmptyString]) example_config)) as Hin
    by (vm_compute; tauto).
  split; [exact Hin |].
  destruct (deploy_upload_parameters _ _ _ _ _ Hin)
    as (first & Hfirst & Hprefix & Hname & _ & _ & _ & _ & _ & _ & _ & _ & _ & Hasked).
  injection Hfirst as <-.
  split; [exact Hprefix |]. split; [exact Hname |].
  exact (Hasked eq_refl eq_refl).
Defined.

(** X3.  The export comes before the upload.  In a run that makes the
    upload, the events of a full export (frontend and backend, zipped,
    with the log level of the command) come just before the upload
    message and the upload, and the export is made for the deploy URL
    that the configuration has when the run ends.  Without the operator
    this URL and the API URL of the configuration are those of the reply
    to the first prepare-deploy call. *)
Theorem deploy_exports_before_upload (w : world) (o : deploy_options)
    (lines : list string) (c : config) (req : upload_request) :
  In (HostingDeploy req) (events (deploy w o lines) c) ->
  exists t u url,
    events (deploy w o lines) c =
      t ++ export_events true true true (opt_loglevel o) url ++
      [ConsolePrint [Lit "Uploading code ..."]; HostingDeploy req] ++ u /\
    Forall no_upload t /\
    cfg_deploy_url (final_cfg (deploy w o lines) c) = url /\
    (opt_interactive o = false ->
     exists first r,
       w_prepare_deploy w 0 (opt_app_name o) (opt_key o) (opt_frontend_hostname o)
         = Ok first /\
       reply first = Some r /\ url = pi_deploy_url r /\
       cfg_api_url (final_cfg (deploy w o lines) c) = pi_api_url r).
Proof.
  intros Hin.
  destruct (deploy_uploads_with w o lines c req Hin)
    as (n & s & Hreach & Hs & Hcfg & Hin' & Hrun).
  apply reaches_check_Some in Hreach as (_ & _ & _ & _ & Hneg).
  destruct (negotiate_result w o lines _ n (f_equal fst Hneg))
    as (first & Hfirst & _ & _ & Hbatch & _).
  destruct (check_and_deploy_uploads w o n s req Hs Hin')
    as (d & _ & _ & _ & _ & _ & _ & Hrun').
  cbv zeta in Hrun'. unfold events, final_cfg. rewrite Hrun, Hrun'.
  assert (Forall no_upload (trace s ++ [params_debug o n])) as Hpre.
  { apply Forall_app. split; [done | by repeat constructor]. }
  assert (opt_interactive o = false ->
     exists first r,
       w_prepare_deploy w 0 (opt_app_name o) (opt_key o) (opt_frontend_hostname o)
         = Ok first /\
       reply first = Some r /\ n_deploy_url n = pi_deploy_url r /\
       n_api_url n = pi_api_url r) as Hurls.
  { intros Hint. destruct (Hbatch Hint) as (_ & _ & _ & r & Hr & Hapi & Hurl).
    by exists first, r. }
  destruct (w_deploy w req) as [r | ex].
  - rewrite await_deployment_run.
    exists (trace s ++ [params_debug o n]),
      (await_events w n r ++
       match w_clean_up w with Ok _ => [final_report w n r] | Raise _ => [] end),
      (n_deploy_url n).
    destruct (w_clean_up w); cbn [snd trace cfg extend with_urls cfg_deploy_url cfg_api_url];
      (split; [rewrite <- ?app_assoc; cbn [app]; rewrite ?app_nil_r; reflexivity |]);
      (split; [exact Hpre |]); (split; [reflexivity | exact Hurls]).
  - exists (trace s ++ [params_debug o n]),
      [ConsoleError [Lit "Unable to deploy due to: "; ExnText ex]; CleanUp],
      (n_deploy_url n).
    cbn [snd trace cfg extend with_urls cfg_deploy_url cfg_api_url].
    split; [rewrite <- ?app_assoc; cbn [app]; reflexivity |].
    split; [exact Hpre |]. split; [reflexivity | exact Hurls].
Qed.

(** Without the operator: the export is made for the URL of the reply. *)
Lemma deploy_exports_before_upload_witness :
  exists t u,
    events (deploy example_world (options_with_envs []) []) example_config =
      t ++ export_events true true true "info" "https://app.example" ++
      [ConsolePrint [Lit "Uploading code ..."];
       HostingDeploy (example_request example_world)] ++ u /\
    cfg_api_url (final_cfg (deploy example_world (options_with_envs []) []) example_config)
      = "https://api.example".
Proof.
  assert (In (HostingDeploy (example_request example_world))
             (events (deploy example_world (options_with_envs []) []) example_config))
    as Hin by (vm_compute; tauto).
  destruct (deploy_exports_before_upload _ _ _ _ _ Hin)
    as (t & u & url & Hev & _ & _ & Hbatch).
  destruct (Hbatch eq_refl) as (first & r & Hfirst & Hr & -> & Hapi).
  injection Hfirst as <-. injection Hr as <-.
  exists t, u. split; [exact Hev | exact Hapi].
Defined.

(** X4.  An export that fails.  When a run arrives at line 577 with the
    parameters present and every entry accepted, and importing the app
    raises during the export, no upload is made.  An [ImportError] is
    reported and turned into [typer.Exit(1)]; any other exception leaves
    [deploy] as it is.  In both cases the configuration already has the
    API URL and the deploy URL of the negotiation. *)
Theorem deploy_export_failure (w : world) (o : deploy_options) (lines : list string)
    (c : config) (n : negotiated) (s : state) (ex : exn) :
  reaches_check w o lines c = Some (n, s) ->
  required_ok o n = true ->
  forallb accepted (n_envs n) = true ->
  w_get_app w = Raise ex ->
  outcome (deploy w o lines) c =
    match ex with
    | ImportError _ => Raise (TyperExit 1)
    | _ => Raise ex
    end /\
  events (deploy w o lines) c =
    trace s ++
    [params_debug o n; ConsoleSetLogLevel (opt_loglevel o); OutputSystemInfo;
     CheckInitialized true;
     ConsoleRule [Lit "[bold]Compiling production app and preparing for export."];
     GetApp] ++
    match ex with
    | ImportError _ =>
        [ConsoleError [Lit "Encountered ImportError, did you install all the dependencies? ";
                       ExnText ex]]
    | _ => []
    end /\
  Forall no_upload (events (deploy w o lines) c) /\
  final_cfg (deploy w o lines) c = with_urls c n.
Proof.
  intros Hreach Hreq Hacc Happ.
  destruct (reaches_check_deploy w o lines c n s Hreach) as (Hrun & Hs & Hcfg & _).
  apply reaches_check_Some in Hreach as (_ & _ & _ & Hinit & _).
  destruct (check_and_deploy_exported w o n s Hreq Hacc) as (d & _ & Hrun').
  cbv zeta in Hrun'. rewrite export_run in Hrun'. cbv zeta in Hrun'.
  rewrite Hinit, Happ in Hrun'.
  assert (events (deploy w o lines) c =
    trace s ++
    [params_debug o n; ConsoleSetLogLevel (opt_loglevel o); OutputSystemInfo;
     CheckInitialized true;
     ConsoleRule [Lit "[bold]Compiling production app and preparing for export."];
     GetApp] ++
    match ex with
    | ImportError _ =>
        [ConsoleError [Lit "Encountered ImportError, did you install all the dependencies? ";
                       ExnText ex]]
    | _ => []
    end) as Hev.
  { unfold events. rewrite Hrun, Hrun'.
    destruct ex; cbn [snd trace extend app]; rewrite <- ?app_assoc; cbn [app];
      rewrite ?app_nil_r; reflexivity. }
  unfold outcome, final_cfg. rewrite Hev, Hrun, Hrun'.
  split; [by destruct ex |]. split; [done |]. split.
  - apply Forall_app. split; [done |]. destruct ex; by repeat constructor.
  - rewrite <- Hcfg. by destruct ex.
Qed.

(** An app that cannot be imported for lack of a module. *)
Lemma deploy_export_failure_witness :
  outcome (deploy (with_get_app example_world (Raise (ImportError "No module named app")))
             (options_with_envs []) []) example_config = Raise (TyperExit 1) /\
  Forall no_upload
    (events (deploy (with_get_app example_world (Raise (ImportError "No module named app")))
               (options_with_envs []) []) example_config).
Proof.
  destruct (deploy_export_failure
              (with_get_app example_world (Raise (ImportError "No module named app")))
              (options_with_envs []) [] example_config (example_negotiated [])
              (extend (initial_state example_config)
                 (deploy_preamble (options_with_envs []) ++
                  [PrepareDeploy "app" (Some "app-one") None]))
              (ImportError "No module named app")
              eq_refl eq_refl eq_refl eq_refl)
    as (Hout & _ & Hno & _).
  split; [exact Hout | exact Hno].
Defined.

(** X5.  A missing requirements file.  With the hosting feature on and
    a key or the operator at hand, a requirements check that raises
    makes [deploy] name the file in an error and raise [typer.Exit(1)],
    whatever the exception was; the app is not checked and the control
    plane is not called. *)
Theorem deploy_requirements_missing (w : world) (o : deploy_options)
    (lines : list string) (c : config) (ex : exn) :
  w_feature_enabled w = true ->
  opt_interactive o = true \/ truthy_opt (opt_key o) = true ->
  w_check_requirements_txt_exist w = Raise ex ->
  outcome (deploy w o lines) c = Raise (TyperExit 1) /\
  events (deploy w o lines) c =
    [ConsoleSetLogLevel (opt_loglevel o); FeatureEnabled; CheckRequirementsTxtExist;
     ConsoleError [Str (REQUIREMENTS_TXT_FILE w); Lit " required for deployment"]].
Proof.
  intros Hfeat Hkey Hreq. unfold outcome, events. rewrite deploy_prefix. cbv zeta.
  rewrite Hfeat, Hreq. cbn [negb]. cbv iota.
  assert (negb (opt_interactive o) && negb (truthy_opt (opt_key o)) = false) as ->
    by (destruct Hkey as [-> | ->]; [done | by rewrite andb_false_r]).
  done.
Qed.

Lemma deploy_requirements_missing_witness :
  outcome (deploy (with_requirements_check example_world
                     (Raise (OtherError "FileNotFoundError")))
             (options_with_envs []) []) example_config = Raise (TyperExit 1).
Proof.
  exact (proj1 (deploy_requirements_missing
                  (with_requirements_check example_world
                     (Raise (OtherError "FileNotFoundError")))
                  (options_with_envs []) [] example_config
                  (OtherError "FileNotFoundError") eq_refl (or_intror eq_refl) eq_refl)).
Defined.

(** X6.  A control plane that cannot prepare.  When the first
    prepare-deploy call raises, [deploy] reports the exception and
    raises [typer.Exit(1)]: the operator is asked nothing and nothing is
    exported or uploaded. *)
Theorem deploy_prepare_fails (w : world) (o : deploy_options)
    (lines : list string) (c : config) (ex : exn) :
  w_feature_enabled w = true ->
  opt_interactive o = true \/ truthy_opt (opt_key o) = true ->
  w_check_requirements_txt_exist w = Ok tt ->
  w_check_initialized w true = Ok tt ->
  w_prepare_deploy w 0 (opt_app_name o) (opt_key o) (opt_frontend_hostname o) = Raise ex ->
  outcome (deploy w o lines) c = Raise (TyperExit 1) /\
  events (deploy w o lines) c =
    deploy_preamble o ++
    [PrepareDeploy (opt_app_name o) (opt_key o) (opt_frontend_hostname o);
     ConsoleError [Lit "Unable to prepare deployment due to: "; ExnText ex]].
Proof.
  intros Hfeat Hkey Hreq Hinit Hprep. unfold outcome, events.
  rewrite deploy_prefix. cbv zeta.
  rewrite Hfeat, Hreq, Hinit. cbn [negb]. cbv iota.
  assert (negb (opt_interactive o) && negb (truthy_opt (opt_key o)) = false) as ->
    by (destruct Hkey as [-> | ->]; [done | by rewrite andb_false_r]).
  cbv iota. unfold negotiate, hosting_prepare_deploy, console_error.
  cbv beta iota delta [bind try_ lift log raise]. rewrite Hprep.
  cbv beta iota. cbn [fst snd trace extend initial_state app]. done.
Qed.

Lemma deploy_prepare_fails_witness :
  outcome (deploy (with_prepare_deploy example_world prepare_unreachable)
             (options_with_envs []) []) example_config = Raise (TyperExit 1).
Proof.
  exact (proj1 (deploy_prepare_fails
                  (with_prepare_deploy example_world prepare_unreachable)
                  (options_with_envs []) [] example_config
                  (OtherError "connection refused")
                  eq_refl (or_intror eq_refl) eq_refl eq_refl eq_refl)).
Defined.

(** X7.  Without the operator only a reply will do.  When the answer to
    the prepare-deploy call has no reply, [deploy --no-interactive]
    reports that it cannot deploy at the key and raises [typer.Exit(1)]
    after this one call: an existing deployment or a suggestion in the
    answer is not taken up. *)
Theorem deploy_no_interactive_needs_reply (w : world) (o : deploy_options)
    (lines : list string) (c : config) (first : prepare_response) :
  w_feature_enabled w = true ->
  opt_interactive o = false ->
  truthy_opt (opt_key o) = true ->
  w_check_requirements_txt_exist w = Ok tt ->
  w_check_initialized w true = Ok tt ->
  w_prepare_deploy w 0 (opt_app_name o) (opt_key o) (opt_frontend_hostname o) = Ok first ->
  reply first = None ->
  outcome (deploy w o lines) c = Raise (TyperExit 1) /\
  events (deploy w o lines) c =
    deploy_preamble o ++
    [PrepareDeploy (opt_app_name o) (opt_key o) (opt_frontend_hostname o);
     ConsoleError [Lit "Unable to deploy at this name "; OptStr (opt_key o); Lit "."]].
Proof.
  intros Hfeat Hint Hkey Hreq Hinit Hprep Hreply. unfold outcome, events.
  rewrite deploy_prefix. cbv zeta.
  rewrite Hfeat, Hreq, Hinit, Hint, Hkey. cbn [negb andb]. cbv iota.
  unfold negotiate, hosting_prepare_deploy, negotiate_non_interactive, console_error.
  cbv beta iota delta [bind try_ lift log raise]. rewrite Hprep, Hint.
  cbn [negb]. cbv beta iota. rewrite Hreply.
  cbv beta iota. cbn [fst snd trace extend initial_state app]. done.
Qed.

Lemma deploy_no_interactive_needs_reply_witness :
  events (deploy (with_prepare_deploy example_world prepare_no_reply)
            (options_with_envs []) []) example_config =
    deploy_preamble (options_with_envs []) ++
    [PrepareDeploy "app" (Some "app-one") None;
     ConsoleError [Lit "Unable to deploy at this name "; OptStr (Some "app-one"); Lit "."]].
Proof.
  exact (proj2 (deploy_no_interactive_needs_reply
                  (with_prepare_deploy example_world prepare_no_reply)
                  (options_with_envs []) [] example_config _
                  eq_refl eq_refl eq_refl eq_refl eq_refl eq_refl eq_refl)).
Defined.

(** X8.  Overwriting an existing deployment.  With the operator, when
    the first answer has no reply and a list of existing deployments,
    the first of them is taken: the run says so and makes no second
    prepare-deploy call, also when the answer has a suggestion.  An
    upload of such a run is for the key of that deployment, and when the
    upload succeeds the run sleeps sixty times one second, for the old
    deployment to come down, before it polls. *)
Theorem deploy_overwrites_existing (w : world) (o : deploy_options)
    (lines : list string) (c : config) (first : prepare_response)
    (e : prep_info) (others : list prep_info) :
  w_feature_enabled w = true ->
  opt_interactive o = true ->
  w_check_requirements_txt_exist w = Ok tt ->
  w_check_initialized w true = Ok tt ->
  w_prepare_deploy w 0 (opt_app_name o) (opt_key o) (opt_frontend_hostname o) = Ok first ->
  reply first = None ->
  existing first = Some (e :: others) ->
  (exists t,
     events (deploy w o lines) c =
       deploy_preamble o ++
       [PrepareDeploy (opt_app_name o) (opt_key o) (opt_frontend_hostname o);
        ConsolePrint [Lit "Overwrite deployment [ "; Str (pi_key e); Lit " ] ..."]] ++ t /\
     Forall no_prepare t) /\
  forall req,
    In (HostingDeploy req) (events (deploy w o lines) c) ->
    up_key req = Some (pi_key e) /\
    forall r, w_deploy w req = Ok r ->
      exists t1 t2,
        events (deploy w o lines) c =
          t1 ++ HostingDeploy req ::
          [ConsoleDebug [Lit "deploy_response: "; DeployResponseText r];
           ConsolePrint [Lit "Deployment will start shortly."];
           ConsolePrint [Lit "Waiting for the old deployment to come down"];
           ConsoleStatus "this is a TODO"] ++
          repeat (Sleep 1) 60 ++
          [ConsolePrint [Lit "Waiting for the new deployment to come up"];
           ConsoleStatus "Checking backend ..."] ++
          backend_events w r ++ t2 /\
        Forall no_upload t1.
Proof.
  intros Hfeat Hint Hreq Hinit Hfirst Hreply Hexisting.
  pose proof (negotiate_existing_run w o lines first e others
                (extend (initial_state c) (deploy_preamble o))
                Hint Hfirst Hreply Hexisting) as Hneg.
  split.
  - unfold events. rewrite deploy_prefix. cbv zeta.
    rewrite Hfeat, Hint, Hreq, Hinit. cbn [negb andb]. cbv iota.
    unfold bind at 1.
    change ([ConsoleSetLogLevel (opt_loglevel o); FeatureEnabled] ++
            [CheckRequirementsTxtExist; CheckInitialized true]) with (deploy_preamble o).
    rewrite Hneg.
    match goal with
    | |- context [ask_params o first ?kc ?au ?du ?ov lines ?st] =>
        destruct (ask_params_local o first kc au du ov lines st) as (t1 & Hs1 & Ht1 & _);
        destruct (ask_params o first kc au du ov lines st) as [[n | ex] s1]
    end; simpl in Hs1; subst s1.
    + match goal with
      | |- context [check_and_deploy w o n ?st] =>
          destruct (check_and_deploy_no_prepare w o n st) as (t2 & Hs2 & Ht2)
      end.
      exists (t1 ++ t2). split.
      * etransitivity; [exact Hs2 |]. unfold deploy_preamble. simpl.
        by rewrite <- ?app_assoc.
      * apply Forall_app. split; [| done].
        eapply Forall_impl; [exact Ht1 | apply local_no_prepare].
    + exists t1. split; [unfold deploy_preamble; simpl; by rewrite <- ?app_assoc |].
      eapply Forall_impl; [exact Ht1 | apply local_no_prepare].
  - intros req Hin.
    destruct (deploy_uploads_with w o lines c req Hin)
      as (n & s & Hreach & Hs & Hcfg & Hin' & Hrun).
    apply reaches_check_Some in Hreach as (_ & _ & _ & _ & Hneg').
    rewrite Hneg in Hneg'.
    destruct (ask_params_result _ _ _ _ _ _ _ _ n (f_equal fst Hneg'))
      as (Hkey & _ & _ & _ & Hover & _).
    destruct (check_and_deploy_uploads w o n s req Hs Hin')
      as (d & _ & _ & _ & Hreq' & _ & _ & Hrun').
    split; [by rewrite Hreq' |].
    intros r Hr. cbv zeta in Hrun'. rewrite Hr, await_deployment_run in Hrun'.
    exists (trace s ++ params_debug o n ::
            export_events true true true (opt_loglevel o) (n_deploy_url n) ++
            [ConsolePrint [Lit "Uploading code ..."]]),
      ([ConsolePrint [Lit (if backend_up w r then "Backend is up" else "Backend unreachable")];
        ConsoleStatus "Checking frontend ..."] ++
       frontend_events w r ++
       [ConsolePrint [Lit (if frontend_up w r then "frontend is up"
                           else "frontend is unreachable")];
        CleanUp] ++
       match w_clean_up w with Ok _ => [final_report w n r] | Raise _ => [] end).
    split.
    + unfold events. rewrite Hrun, Hrun'. unfold await_events, old_deployment_wait.
      rewrite Hover.
      destruct (w_clean_up w); cbn [snd trace extend];
        rewrite <- ?app_assoc; cbn [app]; rewrite <- ?app_assoc; cbn [app];
        rewrite ?app_nil_r; reflexivity.
    + apply Forall_app. split; [done |]. by repeat constructor.
Qed.

(** The control plane knows [old-app] and suggests [app-one]: the run
    goes on with [old-app] after the one call. *)
Lemma deploy_overwrites_existing_witness :
  exists t,
    events (deploy (with_prepare_deploy example_world prepare_existing)
              options_interactive [EmptyString; EmptyString]) example_config =
      deploy_preamble options_interactive ++
      [PrepareDeploy "app" None None;
       ConsolePrint [Lit "Overwrite deployment [ "; Str "old-app"; Lit " ] ..."]] ++ t /\
    Forall no_prepare t.
Proof.
  exact (proj1 (deploy_overwrites_existing
                  (with_prepare_deploy example_world prepare_existing)
                  options_interactive [EmptyString; EmptyString] example_config
                  _ _ _ eq_refl eq_refl eq_refl eq_refl eq_refl eq_refl eq_refl)).
Defined.

(** X9.  The first entry that is not accepted decides.  When a run
    arrives at line 583 and its entries are some accepted entries
    followed by one that is not, the run reports the error of that one
    entry, the format error when it has no [=] and the name error when it
    has one, and raises [typer.Exit(1)]: the entries after it are not
    looked at. *)
Theorem deploy_first_bad_entry (w : world) (o : deploy_options) (lines : list string)
    (c : config) (n : negotiated) (s : state) (good rest : list string) (bad : string) :
  reaches_check w o lines c = Some (n, s) ->
  required_ok o n = true ->
  n_envs n = good ++ bad :: rest ->
  forallb accepted good = true ->
  accepted bad = false ->
  outcome (deploy w o lines) c = Raise (TyperExit 1) /\
  events (deploy w o lines) c =
    trace s ++ [params_debug o n; ConsoleError (entry_error bad)].
Proof.
  intros Hreach Hreq Henvs Hgood Hbad.
  destruct (reaches_check_deploy w o lines c n s Hreach) as (Hrun & _).
  assert (truthy_list (n_envs n) = true) as Htruthy by (rewrite Henvs; by destruct good).
  assert (check_and_deploy w o n s =
            (Raise (TyperExit 1),
             extend s [params_debug o n; ConsoleError (entry_error bad)])) as Hrun'.
  { unfold check_and_deploy, bind at 1. simpl.
    rewrite required_ok_test, Hreq, Htruthy. simpl.
    unfold bind. rewrite Henvs.
    rewrite (process_envs_first_bad good bad rest _ _ Hgood Hbad).
    f_equal. state_eq. }
  unfold outcome, events. by rewrite Hrun, Hrun'.
Qed.

(** The second entry has no [=]: its error is the one reported, though
    the third has a name that starts with a digit. *)
Lemma deploy_first_bad_entry_witness :
  events (deploy example_world (options_with_envs ["A=1"; "DEBUG"; "1B=2"]) [])
    example_config =
    (deploy_preamble (options_with_envs ["A=1"; "DEBUG"; "1B=2"]) ++
     [PrepareDeploy "app" (Some "app-one") None]) ++
    [params_debug (options_with_envs ["A=1"; "DEBUG"; "1B=2"])
       (example_negotiated ["A=1"; "DEBUG"; "1B=2"]);
     ConsoleError [Lit "Invalid env format: should be <key>=<value>."]].
Proof.
  exact (proj2 (deploy_first_bad_entry example_world
                  (options_with_envs ["A=1"; "DEBUG"; "1B=2"]) [] example_config
                  (example_negotiated ["A=1"; "DEBUG"; "1B=2"])
                  (extend (initial_state example_config)
                     (deploy_preamble (options_with_envs ["A=1"; "DEBUG"; "1B=2"]) ++
                      [PrepareDeploy "app" (Some "app-one") None]))
                  ["A=1"] ["1B=2"] "DEBUG"
                  eq_refl eq_refl eq_refl eq_refl eq_refl)).
Defined.

(** X10.  Asking again for the name.  With the operator and a suggested
    key, every answer that the control plane does not confirm (the call
    raises, or has no reply, or a reply for another key) is followed by
    the error of line 540 and the same question with the same default.
    When the answers [tried] are not confirmed and the next one is, the
    run has made the first call, one call for each answer, and no other
    prepare-deploy call; and an upload is for the confirmed key. *)
Theorem deploy_asks_name_again (w : world) (o : deploy_options)
    (tried : list string) (line : string) (rest : list string) (c : config)
    (first : prepare_response) (sg r : prep_info) :
  w_feature_enabled w = true ->
  opt_interactive o = true ->
  w_check_requirements_txt_exist w = Ok tt ->
  w_check_initialized w true = Ok tt ->
  w_prepare_deploy w 0 (opt_app_name o) (opt_key o) (opt_frontend_hostname o) = Ok first ->
  reply first = None ->
  existing first = None \/ existing first = Some [] ->
  suggestion first = Some sg ->
  truthy_str (pi_key sg) = true ->
  all_rejected w o 1 (pi_key sg) tried ->
  confirmation w o (1 + length tried) (ask_answer (Some (pi_key sg)) line) = Some r ->
  (exists t,
     events (deploy w o (tried ++ line :: rest)) c =
       deploy_preamble o ++
       [PrepareDeploy (opt_app_name o) (opt_key o) (opt_frontend_hostname o)] ++
       rejected_answers o (pi_key sg) tried ++
       [ConsoleAsk "Name of deployment" (Some (pi_key sg));
        PrepareDeploy (opt_app_name o) (Some (ask_answer (Some (pi_key sg)) line))
          (opt_frontend_hostname o)] ++ t /\
     Forall no_prepare t) /\
  length (List.filter is_prepare (events (deploy w o (tried ++ line :: rest)) c))
    = 2 + length tried /\
  forall req,
    In (HostingDeploy req) (events (deploy w o (tried ++ line :: rest)) c) ->
    up_key req = Some (ask_answer (Some (pi_key sg)) line).
Proof.
  intros Hfeat Hint Hreq Hinit Hfirst Hreply Hexisting Hsg Hkey Hrej Hconf.
  pose proof (fun s => negotiate_suggestion_retries w o tried line rest first sg r s
                Hint Hfirst Hreply Hexisting Hsg Hkey Hrej Hconf) as Hneg.
  assert (pi_key r = ask_answer (Some (pi_key sg)) line) as Hsame.
  { unfold confirmation in Hconf.
    destruct (w_prepare_deploy w (1 + length tried) (opt_app_name o)
                (Some (ask_answer (Some (pi_key sg)) line)) (opt_frontend_hostname o))
      as [response | ex]; [| done].
    destruct (reply response) as [r' |]; [| done].
    destruct (String.eqb_spec (ask_answer (Some (pi_key sg)) line) (pi_key r'));
      [| done].
    by injection Hconf as <-. }
  assert (exists t,
     events (deploy w o (tried ++ line :: rest)) c =
       deploy_preamble o ++
       [PrepareDeploy (opt_app_name o) (opt_key o) (opt_frontend_hostname o)] ++
       rejected_answers o (pi_key sg) tried ++
       [ConsoleAsk "Name of deployment" (Some (pi_key sg));
        PrepareDeploy (opt_app_name o) (Some (ask_answer (Some (pi_key sg)) line))
          (opt_frontend_hostname o)] ++ t /\
     Forall no_prepare t) as (t & Ht & Hno).
  { unfold events. rewrite deploy_prefix. cbv zeta.
    rewrite Hfeat, Hint, Hreq, Hinit. cbn [negb andb]. cbv iota.
    unfold bind at 1. rewrite Hneg, extend_extend.
    match goal with
    | |- context [ask_params o first ?kc ?au ?du ?ov rest ?st] =>
        destruct (ask_params_local o first kc au du ov rest st) as (t1 & Hs1 & Ht1 & _);
        destruct (ask_params o first kc au du ov rest st) as [[n | ex] s1]
    end; simpl in Hs1; subst s1.
    - match goal with
      | |- context [check_and_deploy w o n ?st] =>
          destruct (check_and_deploy_no_prepare w o n st) as (t2 & Hs2 & Ht2)
      end.
      exists (t1 ++ t2). split.
      + etransitivity; [exact Hs2 |]. unfold deploy_preamble.
        cbn [trace extend initial_state app]. rewrite <- ?app_assoc. cbn [app].
        rewrite <- ?app_assoc. reflexivity.
      + apply Forall_app. split; [| done].
        eapply Forall_impl; [exact Ht1 | apply local_no_prepare].
    - exists t1. split.
      + unfold deploy_preamble. cbn [snd trace extend initial_state app].
        rewrite <- ?app_assoc. cbn [app]. rewrite <- ?app_assoc. reflexivity.
      + eapply Forall_impl; [exact Ht1 | apply local_no_prepare]. }
  split; [by exists t |]. split.
  - rewrite Ht. rewrite !List.filter_app.
    assert (List.filter is_prepare t = []) as ->.
    { clear Ht. induction Hno as [| e t He _ IH]; [done |]. simpl.
      unfold no_prepare in He. by rewrite He. }
    assert (length (List.filter is_prepare (rejected_answers o (pi_key sg) tried))
              = length tried) as Hlen.
    { clear. unfold rejected_answers. induction tried as [| l tried IH]; [done |].
      simpl. by rewrite IH. }
    rewrite !length_app, Hlen. simpl. lia.
  - intros req Hin.
    destruct (deploy_uploads_with w o _ c req Hin)
      as (n & s & Hreach & Hs & Hcfg & Hin' & Hrun).
    apply reaches_check_Some in Hreach as (_ & _ & _ & _ & Hneg').
    rewrite Hneg in Hneg'.
    destruct (ask_params_result _ _ _ _ _ _ _ _ n (f_equal fst Hneg')) as (Hk & _).
    destruct (check_and_deploy_uploads w o n s req Hs Hin')
      as (d & _ & _ & _ & -> & _).
    cbn. by rewrite Hk, Hsame.
Qed.

(** The operator first asks for [mine], which the control plane refuses,
    then takes the suggestion: three prepare-deploy calls. *)
Lemma deploy_asks_name_again_witness :
  length (List.filter is_prepare
            (events (deploy (with_prepare_deploy example_world prepare_only_app_one)
                       options_interactive ["mine"; EmptyString; EmptyString; EmptyString])
               example_config)) = 3.
Proof.
  exact (proj1 (proj2 (deploy_asks_name_again
                         (with_prepare_deploy example_world prepare_only_app_one)
                         options_interactive ["mine"] EmptyString
                         [EmptyString; EmptyString] example_config
                         _ _ _ eq_refl eq_refl eq_refl eq_refl eq_refl eq_refl
                         (or_introl eq_refl) eq_refl eq_refl (conj eq_refl I) eq_refl))).
Defined.

(** X11.  The entries typed at the prompt.  With the operator and a
    first answer that has a reply with a key and both URLs, let the
    operator answer the region question, with nothing or with a visible
    text, and then type names and values, each of them a text that is
    not empty and has only visible characters, and an empty name to
    finish.  Then the run arrives at line 577 with the key of the
    reply, with the regions of the command line or else the one region
    answered, and with the entries of the command line followed by one
    [name=value] for each pair typed, in the order typed.  The closing
    message says that entries were added whenever this whole list is
    not empty.  Nothing is said of a value that is empty or of a text
    with blanks around it, which the prompt does not hand on as typed. *)
Theorem deploy_typed_entries (w : world) (o : deploy_options)
    (region : string) (pairs : list (string * string)) (rest : list string)
    (c : config) (first : prepare_response) (r : prep_info) :
  w_feature_enabled w = true ->
  opt_interactive o = true ->
  w_check_requirements_txt_exist w = Ok tt ->
  w_check_initialized w true = Ok tt ->
  w_prepare_deploy w 0 (opt_app_name o) (opt_key o) (opt_frontend_hostname o) = Ok first ->
  reply first = Some r ->
  truthy_str (pi_key r) = true -> truthy_str (pi_api_url r) = true ->
  truthy_str (pi_deploy_url r) = true ->
  region = EmptyString \/ typed_text region = true ->
  Forall (fun pair => typed_text (fst pair) = true /\ typed_text (snd pair) = true) pairs ->
  let default := match opt_regions o with region0 :: _ => region0 | [] => "sjc" end in
  let lines := region :: typed_lines pairs ++ EmptyString :: rest in
  let n := {| n_key := Some (pi_key r);
              n_regions := if truthy_list (opt_regions o) then opt_regions o
                           else [if truthy_str region then region else default];
              n_envs := opt_envs o ++ map typed_entry pairs;
              n_app_prefix := app_prefix first;
              n_api_url := pi_api_url r; n_deploy_url := pi_deploy_url r;
              n_overwrite_existing := false |} in
  reaches_check w o lines c =
    Some (n,
          extend (initial_state c)
            (deploy_preamble o ++
             [PrepareDeploy (opt_app_name o) (opt_key o) (opt_frontend_hostname o);
              ConsoleAsk "Region to deploy to" (Some default);
              ConsolePrint [Lit "Environment variables ..."]] ++
             typed_questions "  Env name (enter to skip)" pairs ++
             [ConsoleAsk (next_prompt "  Env name (enter to skip)" pairs) None;
              ConsolePrint [Lit (if truthy_list (opt_envs o ++ map typed_entry pairs)
                                 then "Finished adding envs."
                                 else "No envs added. Continuing ...")]])) /\
  forall req,
    In (HostingDeploy req) (events (deploy w o lines) c) ->
    up_key req = Some (pi_key r) /\
    processed (opt_envs o ++ map typed_entry pairs) (up_envs req).
Proof.
  intros Hfeat Hint Hreq Hinit Hfirst Hreply Hkey Hapi Hurl Hregion Htyped default lines n.
  assert (Forall (fun pair => truthy_str (fst pair) = true) pairs) as Hkeys.
  { eapply Forall_impl; [exact Htyped |]. intros pair [Hname _].
    unfold typed_text in Hname. by apply andb_true_iff in Hname as [? _]. }
  assert (reaches_check w o lines c =
    Some (n,
          extend (initial_state c)
            (deploy_preamble o ++
             [PrepareDeploy (opt_app_name o) (opt_key o) (opt_frontend_hostname o);
              ConsoleAsk "Region to deploy to" (Some default);
              ConsolePrint [Lit "Environment variables ..."]] ++
             typed_questions "  Env name (enter to skip)" pairs ++
             [ConsoleAsk (next_prompt "  Env name (enter to skip)" pairs) None;
              ConsolePrint [Lit (if truthy_list (opt_envs o ++ map typed_entry pairs)
                                 then "Finished adding envs."
                                 else "No envs added. Continuing ...")]]))) as Hreach.
  { unfold reaches_check. rewrite Hfeat, Hint, Hreq, Hinit. cbn [negb andb]. cbv iota.
    unfold lines.
    rewrite (negotiate_reply_typed w o region pairs rest first r _
               Hint Hfirst Hreply Hkey Hapi Hurl Hkeys).
    cbv zeta. by rewrite extend_extend. }
  split; [exact Hreach |].
  intros req Hin.
  destruct (deploy_uploads_with w o _ c req Hin)
    as (n' & s & Hreach' & Hs & Hcfg & Hin' & Hrun).
  rewrite Hreach in Hreach'. injection Hreach' as <- <-.
  destruct (check_and_deploy_uploads w o n _ req Hs Hin')
    as (d & _ & _ & Hd & -> & _).
  split; [reflexivity | exact Hd].
Qed.

(** One entry on the command line, and the operator types [B] with the
    value [x=y] and [A] with the value [2]: three entries, in this
    order. *)
Lemma deploy_typed_entries_witness :
  exists s,
    reaches_check example_world options_interactive_with_key
      [EmptyString; "B"; "x=y"; "A"; "2"; EmptyString] example_config =
      Some ({| n_key := Some "app-one"; n_regions := ["sjc"];
               n_envs := ["A=1"; "B=x=y"; "A=2"];
               n_app_prefix := "prefix"; n_api_url := "https://api.example";
               n_deploy_url := "https://app.example"; n_overwrite_existing := false |}, s).
Proof.
  eexists.
  exact (proj1 (deploy_typed_entries example_world options_interactive_with_key
                  EmptyString [("B", "x=y"); ("A", "2")] [] example_config
                  _ _ eq_refl eq_refl eq_refl eq_refl eq_refl eq_refl
                  eq_refl eq_refl eq_refl (or_introl eq_refl)
                  ltac:(by repeat constructor))).
Defined.

(** ** [login] *)

(** X12.  Only a validated token is saved.  Whenever a run of [login]
    saves a token to the configuration, there was no stored token, the
    token is not empty, it is the answer to one of the requests for the
    token within the bound, one of the validations of this token within
    the bound succeeded, and the command ends well. *)
Theorem login_saves_validated_token (w : world) (loglevel : string) (c : config)
    (token code : string) :
  In (SaveTokenToConfig token code) (events (login w loglevel) c) ->
  is_raise (w_get_existing_access_token w) = true /\
  truthy_str token = true /\
  (exists i, i < WEB_AUTH_TIMEOUT w /\
             w_fetch_token w i (w_uuid4_hex w) = Ok (token, code)) /\
  (exists j, j < WEB_AUTH_TIMEOUT w /\ w_validate_token w j token = Ok tt) /\
  outcome (login w loglevel) c = Ok tt.
Proof.
  assert (forall t e, Forall (fun e => is_save e = false) t -> In e t -> is_save e = true ->
                      False) as Hsave.
  { intros t e Ht Hin He. rewrite Forall_forall in Ht. apply list_elem_of_In in Hin.
    by rewrite (Ht _ Hin) in He. }
  assert (forall tk cd had s,
    Forall (fun e => is_save e = false) (trace s) ->
    In (SaveTokenToConfig token code) (trace (snd (validate_and_report w tk cd had s))) ->
    had = false /\ tk = token /\ cd = code /\
    (exists j, j < WEB_AUTH_TIMEOUT w /\ w_validate_token w j tk = Ok tt) /\
    fst (validate_and_report w tk cd had s) = Ok tt) as Hreport.
  { intros tk cd had s Hs Hin. rewrite validate_and_report_run in Hin |- *.
    match goal with
    | |- context [validate_token_loop w tk ?n 0 ?st] =>
        destruct (validate_token_loop_inv w tk n 0 st) as (t & Ht & Hno & Hq);
        destruct (validate_token_loop w tk n 0 st) as [[[] | e] s1]
    end; cbn [fst snd] in *; subst s1; cbn [trace extend snd] in Hin.
    - destruct had.
      + exfalso. eapply Hsave; [| exact Hin | reflexivity]. no_save.
      + apply in_app_or in Hin as [Hin | Hin].
        * exfalso. eapply Hsave; [| exact Hin | reflexivity]. no_save.
        * destruct Hin as [[= -> ->] | [Hin | []]]; [| done].
          destruct Hq as (j & Hj & Hvalid). repeat split; try done.
          exists j. split; [lia | done].
    - exfalso. eapply Hsave; [| exact Hin | reflexivity]. no_save.
    - exfalso. eapply Hsave; [| exact Hin | reflexivity]. no_save. }
  unfold events, outcome. rewrite login_run.
  destruct (w_feature_enabled w); cbn [negb]; cbv iota.
  2:{ intros Hin. exfalso. eapply Hsave; [| exact Hin | reflexivity]. no_save. }
  destruct (w_get_existing_access_token w) as [[tk cd] | ex].
  { intros Hin. apply Hreport in Hin as (Hhad & _); [done | no_save]. }
  destruct (w_webbrowser_open w _); cbn [negb]; cbv iota.
  2:{ intros Hin. exfalso. eapply Hsave; [| exact Hin | reflexivity]. no_save. }
  match goal with
  | |- context [fetch_token_loop w ?rid ?n 0 ?st] =>
      destruct (fetch_token_loop_inv w rid n 0 st) as (t & Ht & Hno & Hq);
      destruct (fetch_token_loop w rid n 0 st) as [[[[tk cd] |] | e] s1]
  end; cbn [fst snd] in *; subst s1; [| | done].
  - destruct (truthy_str tk) eqn:Htk.
    + intros Hin. apply Hreport in Hin as (_ & -> & -> & Hvalid & Hout).
      * destruct Hq as (i & Hi & Hfetch). repeat split; try done.
        exists i. split; [lia | done].
      * no_save.
    + intros Hin. exfalso. cbn [snd trace extend] in Hin.
      eapply Hsave; [| exact Hin | reflexivity]. no_save.
  - intros Hin. exfalso. cbn [snd trace extend] in Hin.
    eapply Hsave; [| exact Hin | reflexivity]. no_save.
Qed.

(** A login through the browser: the token that is saved was validated. *)
Lemma login_saves_validated_token_witness :
  In (SaveTokenToConfig "token" "code") (events (login world_new_login "info") example_config) /\
  (exists j, j < WEB_AUTH_TIMEOUT world_new_login /\
             w_validate_token world_new_login j "token" = Ok tt) /\
  outcome (login world_new_login "info") example_config = Ok tt.
Proof.
  assert (In (SaveTokenToConfig "token" "code")
             (events (login world_new_login "info") example_config)) as Hin
    by (vm_compute; tauto).
  destruct (login_saves_validated_token _ _ _ _ _ Hin) as (_ & _ & _ & Hvalid & Hout).
  split; [exact Hin |]. split; [exact Hvalid | exact Hout].
Defined.

(** X13.  A stored token.  When a token is stored and its validation
    succeeds after [k] transient errors, within the bound, [login] says
    that the user is logged in already and returns: the browser is not
    opened, no token is requested and nothing is saved. *)
Theorem login_with_stored_token (w : world) (loglevel : string) (c : config)
    (token code : string) (k : nat) :
  w_feature_enabled w = true ->
  w_get_existing_access_token w = Ok (token, code) ->
  k < WEB_AUTH_TIMEOUT w ->
  (forall i, i < k -> transient (w_validate_token w i token)) ->
  w_validate_token w k token = Ok tt ->
  outcome (login w loglevel) c = Ok tt /\
  events (login w loglevel) c =
    [ConsoleSetLogLevel loglevel; FeatureEnabled; GetExistingAccessToken;
     ConsoleStatus "Validating access token ..."] ++
    retries w token 0 k ++
    [ValidateToken token; ConsolePrint [Lit "You already logged in."]].
Proof.
  intros Hfeat Htoken Hk Htr Hvalid.
  assert (forall i, 0 <= i < 0 + k -> transient (w_validate_token w i token)) as Htr'
    by (intros i Hi; apply Htr; lia).
  unfold outcome, events. rewrite login_run, Hfeat, Htoken. cbn [negb]. cbv iota.
  rewrite validate_and_report_run.
  replace (WEB_AUTH_TIMEOUT w) with (k + S (WEB_AUTH_TIMEOUT w - S k)) by lia.
  rewrite (validate_token_loop_retries w token _ _ 0 _ Htr').
  rewrite (validate_token_loop_ok w token _ _ _ Hvalid).
  split; [done |]. rewrite ?extend_extend. cbn [snd trace extend initial_state app].
  rewrite <- ?app_assoc. reflexivity.
Qed.

Lemma login_with_stored_token_witness :
  outcome (login world_logged_in "info") example_config = Ok tt /\
  List.filter is_save (events (login world_logged_in "info") example_config) = [].
Proof.
  assert (forall i, i < 2 -> transient (w_validate_token world_logged_in i "token")) as Htr.
  { intros [| [| i]] Hi; [exact I | exact I | lia]. }
  assert (2 < WEB_AUTH_TIMEOUT world_logged_in) as Hk by (vm_compute; lia).
  destruct (login_with_stored_token world_logged_in "info" example_config "token" "code" 2
              eq_refl eq_refl Hk Htr eq_refl) as [Hout Hev].
  split; [exact Hout |]. rewrite Hev. reflexivity.
Defined.

(** X14.  A login through the browser.  Without a stored token, when
    the browser opens, the first [k] requests for the token fail and
    the next one, within the bound, brings a token that is not empty,
    and the first validation of it succeeds, then [login] sleeps five
    seconds after each failed request and not after the one that
    succeeds, validates, saves the token with its code and says that
    the login succeeded. *)
Theorem login_through_browser (w : world) (loglevel : string) (c : config)
    (token code : string) (k : nat) :
  w_feature_enabled w = true ->
  is_raise (w_get_existing_access_token w) = true ->
  w_webbrowser_open w (login_url w c) = true ->
  k < WEB_AUTH_TIMEOUT w ->
  (forall i, i < k -> is_raise (w_fetch_token w i (w_uuid4_hex w)) = true) ->
  w_fetch_token w k (w_uuid4_hex w) = Ok (token, code) ->
  truthy_str token = true ->
  w_validate_token w 0 token = Ok tt ->
  outcome (login w loglevel) c = Ok tt /\
  events (login w loglevel) c =
    login_opening w loglevel c ++
    [ConsoleStatus "Waiting for access token ..."] ++
    failed_fetches (w_uuid4_hex w) k ++
    [FetchToken (w_uuid4_hex w);
     ConsoleStatus "Validating access token ...";
     ValidateToken token;
     SaveTokenToConfig token code;
     ConsolePrint [Lit "Successfully logged in."]].
Proof.
  intros Hfeat Hnone Hopen Hk Hfail Hfetch Htoken Hvalid.
  assert (forall i, 0 <= i < 0 + k -> is_raise (w_fetch_token w i (w_uuid4_hex w)) = true)
    as Hfail' by (intros i Hi; apply Hfail; lia).
  unfold outcome, events. rewrite login_run, Hfeat. cbn [negb]. cbv iota.
  destruct (w_get_existing_access_token w) as [tc | ex]; [done |].
  cbn [cfg initial_state]. rewrite Hopen. cbn [negb]. cbv iota.
  replace (WEB_AUTH_TIMEOUT w) with (k + S (WEB_AUTH_TIMEOUT w - S k)) at 1 2 by lia.
  rewrite !(fetch_token_loop_fails w _ k _ 0 _ Hfail').
  rewrite !(fetch_token_loop_found w _ _ _ _ _ Hfetch). rewrite Htoken.
  rewrite validate_and_report_run.
  replace (WEB_AUTH_TIMEOUT w) with (S (WEB_AUTH_TIMEOUT w - 1)) by lia.
  rewrite (validate_token_loop_ok w token _ _ _ Hvalid).
  split; [done |]. rewrite ?extend_extend. cbn [snd trace extend initial_state app].
  rewrite <- ?app_assoc. reflexivity.
Qed.

Lemma login_through_browser_witness :
  outcome (login world_new_login "info") example_config = Ok tt /\
  List.filter is_fetch (events (login world_new_login "info") example_config) =
    [FetchToken "0123456789abcdef"; FetchToken "0123456789abcdef";
     FetchToken "0123456789abcdef"].
Proof.
  assert (forall i, i < 2 ->
            is_raise (w_fetch_token world_new_login i (w_uuid4_hex world_new_login)) = true)
    as Hfail.
  { intros [| [| i]] Hi; [reflexivity | reflexivity | lia]. }
  assert (2 < WEB_AUTH_TIMEOUT world_new_login) as Hk by (vm_compute; lia).
  destruct (login_through_browser world_new_login "info" example_config "token" "code" 2
              eq_refl eq_refl eq_refl Hk Hfail eq_refl eq_refl eq_refl)
    as [Hout Hev].
  split; [exact Hout |]. rewrite Hev. reflexivity.
Defined.

(** X15.  No token arrives.  Without a stored token, when the browser
    opens and every request for the token within the bound fails,
    [login] makes exactly that many requests, five seconds apart,
    reports that it cannot fetch the token and raises [typer.Exit(1)]:
    nothing is validated and nothing is saved. *)
Theorem login_no_token_arrives (w : world) (loglevel : string) (c : config) :
  w_feature_enabled w = true ->
  is_raise (w_get_existing_access_token w) = true ->
  w_webbrowser_open w (login_url w c) = true ->
  (forall i, i < WEB_AUTH_TIMEOUT w ->
             is_raise (w_fetch_token w i (w_uuid4_hex w)) = true) ->
  outcome (login w loglevel) c = Raise (TyperExit 1) /\
  events (login w loglevel) c =
    login_opening w loglevel c ++
    [ConsoleStatus "Waiting for access token ..."] ++
    failed_fetches (w_uuid4_hex w) (WEB_AUTH_TIMEOUT w) ++
    [ConsoleError [Lit "Unable to fetch access token. Please try again or contact support."]].
Proof.
  intros Hfeat Hnone Hopen Hfail.
  unfold outcome, events. rewrite login_run, Hfeat. cbn [negb]. cbv iota.
  destruct (w_get_existing_access_token w) as [tc | ex]; [done |].
  cbn [cfg initial_state]. rewrite Hopen. cbn [negb]. cbv iota.
  rewrite (fetch_token_loop_exhausted w _ _ _ Hfail).
  split; [done |]. rewrite ?extend_extend. cbn [snd trace extend initial_state app].
  rewrite <- ?app_assoc. reflexivity.
Qed.

Lemma login_no_token_arrives_witness :
  outcome (login world_no_token "info") example_config = Raise (TyperExit 1) /\
  length (List.filter is_fetch (events (login world_no_token "info") example_config)) = 8 /\
  List.filter is_validate (events (login world_no_token "info") example_config) = [].
Proof.
  destruct (login_no_token_arrives world_no_token "info" example_config
              eq_refl eq_refl eq_refl (fun i _ => eq_refl)) as [Hout Hev].
  split; [exact Hout |]. rewrite Hev. split; reflexivity.
Defined.

(** X16.  No browser.  Without a stored token, when the browser cannot
    be opened, [login] reports it and raises [typer.Exit(1)] without
    asking for a token. *)
Theorem login_browser_fails (w : world) (loglevel : string) (c : config) :
  w_feature_enabled w = true ->
  is_raise (w_get_existing_access_token w) = true ->
  w_webbrowser_open w (login_url w c) = false ->
  outcome (login w loglevel) c = Raise (TyperExit 1) /\
  events (login w loglevel) c =
    login_opening w loglevel c ++
    [ConsoleError [Lit "Unable to open the browser to authenticate. Please contact support."]].
Proof.
  intros Hfeat Hnone Hopen.
  unfold outcome, events. rewrite login_run, Hfeat. cbn [negb]. cbv iota.
  destruct (w_get_existing_access_token w) as [tc | ex]; [done |].
  cbn [cfg initial_state]. rewrite Hopen. cbn [negb]. cbv iota.
  split; reflexivity.
Qed.

Lemma login_browser_fails_witness :
  outcome (login world_no_browser "info") example_config = Raise (TyperExit 1).
Proof.
  exact (proj1 (login_browser_fails world_no_browser "info" example_config
                  eq_refl eq_refl eq_refl)).
Defined.

(** X29.  The feature gate.  When the hosting feature is not enabled,
    [deploy] and [login] return after the feature check, whatever their
    options: nothing is checked, asked, opened or sent, and the
    configuration is as it was. *)
Theorem hosting_feature_gate (w : world) (o : deploy_options) (lines : list string)
    (loglevel : string) (c : config) :
  w_feature_enabled w = false ->
  outcome (deploy w o lines) c = Ok tt /\
  events (deploy w o lines) c = [ConsoleSetLogLevel (opt_loglevel o); FeatureEnabled] /\
  final_cfg (deploy w o lines) c = c /\
  outcome (login w loglevel) c = Ok tt /\
  events (login w loglevel) c = [ConsoleSetLogLevel loglevel; FeatureEnabled] /\
  final_cfg (login w loglevel) c = c.
Proof.
  intros Hfeat. unfold outcome, events, final_cfg.
  rewrite deploy_prefix, login_run. cbv zeta. rewrite Hfeat. by repeat split.
Qed.

Lemma hosting_feature_gate_witness :
  events (deploy world_feature_off options_interactive []) example_config =
    [ConsoleSetLogLevel "info"; FeatureEnabled] /\
  events (login world_feature_off "debug") example_config =
    [ConsoleSetLogLevel "debug"; FeatureEnabled].
Proof.
  destruct (hosting_feature_gate world_feature_off options_interactive [] "debug"
              example_config eq_refl) as (_ & Hdeploy & _ & _ & Hlogin & _).
  split; [exact Hdeploy | exact Hlogin].
Defined.

(** ** [run] and [export] *)

(** X17.  The ports of the configuration.  When the app is initialized,
    a run of [run] leaves in the configuration the two ports it settled
    on (the port asked for, or the answer of the port negotiation when
    the side is on and the port is taken), whether it then starts the
    app or fails to import it; and it calls [config._set_persistent]
    for a port exactly when this port is not the one the configuration
    had. *)
Theorem run_persists_ports (w : world) (o : run_options) (c : config) :
  w_check_initialized w (frontend_on o) = Ok tt ->
  final_cfg (run w o) c = with_ports c (frontend_port_of w o) (backend_port_of w o) /\
  List.filter is_persist (events (run w o) c) =
    (if String.eqb (frontend_port_of w o) (cfg_frontend_port c) then []
     else [SetPersistentFrontendPort (frontend_port_of w o)]) ++
    (if String.eqb (backend_port_of w o) (cfg_backend_port c) then []
     else [SetPersistentBackendPort (backend_port_of w o)]).
Proof.
  intros Hinit. unfold final_cfg, events. rewrite run_run. cbv zeta. rewrite Hinit.
  cbn [initial_state trace cfg].
  destruct (frontend_on o), (backend_on o), (w_get_app w) as [[] | ex], (run_env o),
    (w_is_process_on_port w (run_frontend_port o)),
    (w_is_process_on_port w (run_backend_port o)),
    (String.eqb (frontend_port_of w o) (cfg_frontend_port c)),
    (String.eqb (backend_port_of w o) (cfg_backend_port c));
    split; reflexivity.
Qed.

(** Port 3000 is taken and the operator moves to 3001: the new port is
    made persistent and is in the configuration afterwards. *)
Lemma run_persists_ports_witness :
  cfg_frontend_port (final_cfg (run world_port_taken example_run_options) example_config)
    = "3001" /\
  List.filter is_persist (events (run world_port_taken example_run_options) example_config)
    = [SetPersistentFrontendPort "3001"].
Proof.
  destruct (run_persists_ports world_port_taken example_run_options example_config eq_refl)
    as [Hcfg Hev].
  split; [by rewrite Hcfg | by rewrite Hev].
Defined.



(** X19.  An app that is not initialized.  When the check of the app
    raises, the exception leaves [run] as it is, before any question
    about a port: the configuration is as it was and nothing is
    started. *)
Theorem run_not_initialized (w : world) (o : run_options) (c : config) (ex : exn) :
  w_check_initialized w (frontend_on o) = Raise ex ->
  outcome (run w o) c = Raise ex /\
  final_cfg (run w o) c = c /\
  List.filter is_port_question (events (run w o) c) = [] /\
  List.filter is_concurrent (events (run w o) c) = [] /\
  List.filter is_main_thread (events (run w o) c) = [].
Proof.
  intros Hinit. unfold outcome, final_cfg, events. rewrite run_run. cbv zeta.
  rewrite Hinit. cbn [fst snd initial_state trace cfg extend].
  split; [done |]. split; [done |].
  destruct (negb (frontend_on o) && backend_on o); by repeat split.
Qed.

Lemma run_not_initialized_witness :
  outcome (run (with_check_initialized example_world
                  (fun _ => Raise (OtherError "not initialized")))
             example_run_options) example_config = Raise (OtherError "not initialized") /\
  final_cfg (run (with_check_initialized example_world
                    (fun _ => Raise (OtherError "not initialized")))
               example_run_options) example_config = example_config.
Proof.
  destruct (run_not_initialized
              (with_check_initialized example_world
                 (fun _ => Raise (OtherError "not initialized")))
              example_run_options example_config (OtherError "not initialized") eq_refl)
    as (Hout & Hcfg & _).
  split; [exact Hout | exact Hcfg].
Defined.

(** X20.  [export] builds, then reports.  A run of [export] that ends
    well has made exactly the events of a full export: the checks, for
    the frontend the import of the app and the set-up, the build with
    the three flags as given and the deploy URL of the configuration,
    and the telemetry event last.  When the check of the app raises,
    and when the import of the app for the frontend raises, the
    exception leaves [export] as it is before anything is set up, built
    or reported.  With the frontend off the app is never imported.  The
    configuration is as it was. *)
Theorem export_builds_then_reports (w : world) (zipping frontend backend : bool)
    (loglevel : string) (c : config) :
  (outcome (export w zipping frontend backend loglevel) c = Ok tt ->
   events (export w zipping frontend backend loglevel) c =
     export_events zipping frontend backend loglevel (cfg_deploy_url c)) /\
  (forall ex,
     w_check_initialized w frontend = Raise ex ->
     outcome (export w zipping frontend backend loglevel) c = Raise ex /\
     events (export w zipping frontend backend loglevel) c =
       [ConsoleSetLogLevel loglevel; OutputSystemInfo; CheckInitialized frontend]) /\
  (forall ex,
     w_check_initialized w frontend = Ok tt -> frontend = true ->
     w_get_app w = Raise ex ->
     outcome (export w zipping frontend backend loglevel) c = Raise ex /\
     events (export w zipping frontend backend loglevel) c =
       [ConsoleSetLogLevel loglevel; OutputSystemInfo; CheckInitialized frontend;
        ConsoleRule [Lit "[bold]Compiling production app and preparing for export."];
        GetApp]) /\
  (frontend = false ->
   List.filter is_frontend_work (events (export w zipping frontend backend loglevel) c) = []) /\
  final_cfg (export w zipping frontend backend loglevel) c = c.
Proof.
  unfold outcome, events, final_cfg. rewrite export_run. cbv zeta.
  split; [| split; [| split; [| split]]].
  - destruct (w_check_initialized w frontend) as [[] | ex0]; [| done].
    destruct frontend; [| done].
    by destruct (w_get_app w) as [[] | ex1].
  - by intros ex ->.
  - intros ex -> -> ->. done.
  - intros ->.
    by destruct (w_check_initialized w false) as [[] | ex0].
  - destruct (w_check_initialized w frontend) as [[] | ex0]; [| done].
    destruct frontend; [| done].
    by destruct (w_get_app w) as [[] | ex1].
Qed.

(** An app that cannot be imported: nothing is built. *)
Lemma export_builds_then_reports_witness :
  outcome (export (with_get_app example_world (Raise (ImportError "No module named app")))
             true true true "info") example_config
    = Raise (ImportError "No module named app") /\
  List.filter is_export
    (events (export (with_get_app example_world (Raise (ImportError "No module named app")))
               true true true "info") example_config) = [].
Proof.
  destruct (export_builds_then_reports
              (with_get_app example_world (Raise (ImportError "No module named app")))
              true true true "info" example_config)
    as (_ & _ & Himport & _).
  destruct (Himport (ImportError "No module named app") eq_refl eq_refl eq_refl)
    as [Hout Hev].
  split; [exact Hout |]. rewrite Hev. reflexivity.
Defined.

(** ** [logout] *)

(** X21.  [logout] logs nobody out.  Whatever the feature check
    answers, a run of [logout] sets the log level, asks whether the
    hosting feature is enabled and returns: the stored token is not
    deleted and the configuration is as it was. *)
Theorem logout_keeps_token (w : world) (loglevel : string) (c : config) :
  outcome (logout w loglevel) c = Ok tt /\
  events (logout w loglevel) c = [ConsoleSetLogLevel loglevel; FeatureEnabled] /\
  final_cfg (logout w loglevel) c = c.
Proof.
  unfold outcome, events, final_cfg, logout, console_set_log_level.
  rewrite (bind_runs _ _ _ _ _ (log_runs _ _)).
  rewrite (bind_runs _ _ _ _ _ (feature_enabled_runs _ _)).
  by destruct (w_feature_enabled w).
Qed.

(** ** [init], [db] and [deployments] *)

Module SubcommandsFacts.
Import Subcommands.
Local Open Scope sub_scope.

(** [starts_with] and [is_substring] are Python's [startswith] and
    [in]. *)
Lemma starts_with_spec p : forall s,
  starts_with p s = true <-> exists rest, s = p +:+ rest.
Proof.
  induction p as [| a p IH]; intros s; simpl.
  - split; [by exists s | done].
  - destruct s as [| b s]; simpl.
    + split; [done | by intros [rest Hrest]].
    + rewrite andb_true_iff, IH. split.
      * intros [Hab [rest ->]]. apply Ascii.eqb_eq in Hab as ->. by exists rest.
      * intros [rest [= -> ->]]. split; [apply Ascii.eqb_refl | by exists rest].
Qed.

Lemma is_substring_spec needle : forall haystack,
  is_substring needle haystack = true <->
  exists before after, haystack = before +:+ needle +:+ after.
Proof.
  induction haystack as [| b s IH]; simpl.
  - rewrite orb_false_r, starts_with_spec. split.
    + intros [rest Hrest]. by exists EmptyString, rest.
    + intros (before & after & H). destruct before; simpl in H.
      * by exists after.
      * discriminate.
  - rewrite orb_true_iff, starts_with_spec, IH. split.
    + intros [[rest Hrest] | (before & after & ->)].
      * by exists EmptyString, rest.
      * by exists (String b before), after.
    + intros (before & after & H). destruct before as [| a before]; simpl in H.
      * left. by exists after.
      * right. injection H as -> ->. by exists before, after.
Qed.

(** X22.  A list that cannot be tabulated.  With the feature on and
    without [--json], when the hosting service lists no deployment at
    all, taking the first one raises [IndexError]; and when [tabulate]
    raises for the deployments listed, that is the exception.  In both
    cases the command writes a debug line with the exception, prints
    the list as Python shows it, and returns with exit code 0. *)
Theorem list_deployments_falls_back (sv : services) (loglevel : string)
    (deployments : list deployment) (ex : error) :
  s_feature_enabled sv = true ->
  s_list_deployments sv = Returns deployments ->
  (deployments = [] /\ ex = IndexError) \/
  (exists d others, deployments = d :: others /\
     s_tabulate sv (map (map snd) deployments) (map fst d) = Raises ex) ->
  exit_code (outcome (list_deployments sv loglevel false)) = Some 0%Z /\
  exists tried,
    calls (list_deployments sv loglevel false) =
      [SetLogLevel loglevel; FeatureEnabled; ListDeployments] ++ tried ++
      [Debug [Lit "Unable to tabulate the deployments due to: "; ErrorText ex];
       Print [ListText deployments]] /\
    (deployments = [] -> tried = []).
Proof.
  intros Hfeat Hlist Hcause. unfold outcome, calls, list_deployments.
  cbv beta iota zeta delta [bind try_ lift log ret raise]. rewrite Hfeat, Hlist.
  cbn [negb]. cbv beta iota.
  destruct Hcause as [[-> ->] | (d & others & -> & Htab)].
  - cbv beta iota. cbn [fst snd app]. split; [done |]. by exists [].
  - cbv beta iota. rewrite Htab. cbv beta iota. cbn [fst snd app]. split; [done |].
    exists [Tabulate (map (map snd) (d :: others)) (map fst d)]. by split.
Qed.

(** No deployment yet. *)
Lemma list_deployments_falls_back_witness :
  calls (list_deployments example_services "info" false) =
    [SetLogLevel "info"; FeatureEnabled; ListDeployments;
     Debug [Lit "Unable to tabulate the deployments due to: "; ErrorText IndexError];
     Print [ListText []]].
Proof.
  destruct (list_deployments_falls_back example_services "info" [] IndexError
              eq_refl eq_refl (or_introl (conj eq_refl eq_refl)))
    as (_ & tried & Hcalls & Hnone).
  rewrite (Hnone eq_refl) in Hcalls. exact Hcalls.
Defined.

(** X23.  The three [deployments] commands fail alike.  With the
    feature on, when the call to the hosting service raises, each of
    [list], [delete] and [logs] reports the exception in an error and
    exits with code 1; [delete] then does not say that it deleted. *)
Theorem deployments_commands_exit_1 (sv : services) (key loglevel : string)
    (as_json : bool) (ex : error) :
  s_feature_enabled sv = true ->
  (s_list_deployments sv = Raises ex ->
   outcome (list_deployments sv loglevel as_json) = Raises (Exit 1) /\
   calls (list_deployments sv loglevel as_json) =
     [SetLogLevel loglevel; FeatureEnabled; ListDeployments;
      Error [Lit "Unable to list deployments due to: "; ErrorText ex]]) /\
  (s_delete_deployment sv key = Raises ex ->
   outcome (delete_deployment sv key loglevel) = Raises (Exit 1) /\
   calls (delete_deployment sv key loglevel) =
     [SetLogLevel loglevel; FeatureEnabled; DeleteDeployment key;
      Error [Lit "Unable to delete deployment due to: "; ErrorText ex]]) /\
  (s_get_logs sv key = Raises ex ->
   outcome (get_deployment_logs sv key loglevel) = Raises (Exit 1) /\
   calls (get_deployment_logs sv key loglevel) =
     [SetLogLevel loglevel; FeatureEnabled;
      Print [Lit "Note: there is a few seconds delay for logs to be available."];
      GetLogs key;
      Error [Lit "Unable to get deployment logs due to: "; ErrorText ex]]).
Proof.
  intros Hfeat.
  unfold outcome, calls, list_deployments, delete_deployment, get_deployment_logs.
  cbv beta iota zeta delta [bind try_ lift log ret raise]. rewrite Hfeat.
  cbn [negb]. cbv beta iota.
  split; [| split]; intros ->; split; reflexivity.
Qed.

Lemma deployments_commands_exit_1_witness :
  outcome (delete_deployment failing_services "app-one" "info") = Raises (Exit 1) /\
  exit_code (outcome (get_deployment_logs failing_services "app-one" "info")) = Some 1%Z.
Proof.
  destruct (deployments_commands_exit_1 failing_services "app-one" "info" false
              (OtherException "401 Unauthorized") eq_refl) as (_ & Hdelete & Hlogs).
  split; [exact (proj1 (Hdelete eq_refl)) |].
  by rewrite (proj1 (Hlogs eq_refl)).
Defined.

(** X24.  [delete] says that it deleted only when it did.  The message
    of success is among the calls of [delete] exactly when the feature
    is on and the hosting service deleted the deployment. *)
Theorem delete_reports_what_happened (sv : services) (key loglevel : string) :
  In (Print [Lit "Successfully deleted [ "; Str key; Lit " ]."])
     (calls (delete_deployment sv key loglevel)) <->
  s_feature_enabled sv = true /\ s_delete_deployment sv key = Returns tt.
Proof.
  unfold calls, delete_deployment.
  cbv beta iota zeta delta [bind try_ lift log ret raise].
  destruct (s_feature_enabled sv); cbn [negb]; cbv beta iota.
  - destruct (s_delete_deployment sv key) as [[] | ex]; cbv beta iota; cbn [snd app In].
    + split; [done | tauto].
    + split; [| by intros [_ ?]]. intros [H | [H | [H | [H | []]]]]; discriminate.
  - cbn [snd app In]. split; [| by intros [? _]].
    intros [H | [H | []]]; discriminate.
Qed.

(** X25.  [db init] does not start without a database or over an
    initialized one.  When no database URL is configured, or when the
    alembic configuration exists, [db init] reports one error and
    returns, with exit code 0: the app is not imported, alembic is not
    initialized and nothing is migrated. *)
Theorem db_init_guards (sv : services) :
  s_db_url sv = None \/ s_alembic_config_exists sv = true ->
  exit_code (outcome (db_init sv)) = Some 0%Z /\
  exists msg, calls (db_init sv) = [Error msg].
Proof.
  intros Hguard. unfold outcome, calls, db_init.
  destruct (s_db_url sv) as [url |].
  - destruct Hguard as [? | ->]; [done |]. split; [done | by eexists].
  - split; [done | by eexists].
Qed.

Lemma db_init_guards_witness :
  exit_code (outcome (db_init example_services)) = Some 0%Z /\
  List.filter is_database_work (calls (db_init example_services)) = [].
Proof.
  destruct (db_init_guards example_services (or_intror eq_refl)) as (Hexit & msg & Hcalls).
  split; [exact Hexit |]. rewrite Hcalls. reflexivity.
Defined.

(** X26.  No migration without an initialized database.  When the app
    imports and the check of the database answers that it is not
    initialized, [db migrate] and [db makemigrations] return at once:
    no connection is opened, nothing is migrated and no script is
    generated. *)
Theorem migrations_need_initialized_database (sv : services) (message : option string) :
  s_get_app sv = Returns tt ->
  s_check_db_initialized sv = Returns false ->
  outcome (migrate sv) = Returns tt /\
  calls (migrate sv) = [SkipCompile; GetApp; CheckDbInitialized] /\
  outcome (makemigrations sv message) = Returns tt /\
  calls (makemigrations sv message) = [SkipCompile; GetApp; CheckDbInitialized].
Proof.
  intros Happ Hcheck. unfold outcome, calls, migrate, makemigrations, get_app.
  cbv beta iota zeta delta [bind try_ lift log ret raise]. rewrite Happ, Hcheck.
  by repeat split.
Qed.

Lemma migrations_need_initialized_database_witness :
  List.filter is_database_work (calls (migrate failing_services)) = [] /\
  List.filter is_database_work (calls (makemigrations failing_services None)) = [].
Proof.
  destruct (migrations_need_initialized_database failing_services None eq_refl eq_refl)
    as (_ & Hmigrate & _ & Hmake).
  rewrite Hmigrate, Hmake. split; reflexivity.
Defined.

(** X27.  A database that is behind.  When the generation of the
    migration scripts raises alembic's [CommandError], what
    [db makemigrations] does depends on the text of the error: when the
    sentence [Target database is not up to date.] occurs in it, the
    command reports the error with the advice to run [db migrate] and
    returns; when it does not, the error leaves the command as it is. *)
Theorem makemigrations_database_behind (sv : services) (message : option string)
    (msg : string) :
  s_get_app sv = Returns tt ->
  s_check_db_initialized sv = Returns true ->
  s_connect sv = Returns tt ->
  s_alembic_autogenerate sv message = Raises (CommandError msg) ->
  ((exists before after,
      msg = before +:+ "Target database is not up to date." +:+ after) ->
   outcome (makemigrations sv message) = Returns tt /\
   calls (makemigrations sv message) =
     [SkipCompile; GetApp; CheckDbInitialized; EngineConnect; AlembicAutogenerate message;
      Error [ErrorText (CommandError msg);
             Lit " Run [bold]reflex db migrate[/bold] to update database."]]) /\
  ((forall before after,
      msg <> before +:+ "Target database is not up to date." +:+ after) ->
   outcome (makemigrations sv message) = Raises (CommandError msg) /\
   calls (makemigrations sv message) =
     [SkipCompile; GetApp; CheckDbInitialized; EngineConnect; AlembicAutogenerate message]).
Proof.
  intros Happ Hcheck Hconnect Hgen. unfold outcome, calls, makemigrations, get_app.
  cbv beta iota zeta delta [bind try_ lift log ret raise].
  rewrite Happ, Hcheck, Hconnect, Hgen. cbn [negb]. cbv beta iota.
  split.
  - intros Hin. apply is_substring_spec in Hin. by rewrite Hin.
  - intros Hout.
    destruct (is_substring "Target database is not up to date." msg) eqn:E; [| done].
    apply is_substring_spec in E as (before & after & E). by destruct (Hout before after).
Qed.

Lemma makemigrations_database_behind_witness :
  outcome (makemigrations example_services None) = Returns tt.
Proof.
  exact (proj1 (proj1 (makemigrations_database_behind example_services None
                         "Target database is not up to date."
                         eq_refl eq_refl eq_refl eq_refl)
                  (ex_intro _ EmptyString (ex_intro _ EmptyString eq_refl)))).
Defined.

(** X28.  [init] keeps a configuration that is there.  When the
    configuration file exists, no run of [init] creates a configuration
    or an app directory, whatever else happens; a run that ends well
    has sent the telemetry event [reinit] and not [init]. *)
Theorem init_keeps_configuration (sv : services) (name : option string)
    (template loglevel : string) :
  s_config_file_exists sv = true ->
  List.filter is_creation (calls (init sv name template loglevel)) = [] /\
  (outcome (init sv name template loglevel) = Returns tt ->
   In (TelemetrySend "reinit") (calls (init sv name template loglevel)) /\
   ~ In (TelemetrySend "init") (calls (init sv name template loglevel))).
Proof.
  intros Hexists. unfold outcome, calls, init.
  cbv beta iota zeta delta [bind try_ lift log ret raise]. rewrite Hexists.
  cbn [negb]. cbv beta iota.
  destruct name as [n |]; cbv beta iota;
    [| destruct (s_get_default_app_name sv) as [n | e0]; cbv beta iota];
    try (by split);
    (destruct (s_initialize_frontend_dependencies sv) as [[] | e1]; cbv beta iota;
       [| by split]);
    (destruct (s_migrate_to_reflex sv) as [[] | e2]; cbv beta iota; [| by split]);
    (destruct (s_initialize_gitignore sv) as [[] | e3]; cbv beta iota; [| by split]);
    (destruct (s_initialize_requirements_txt sv) as [[] | e4]; cbv beta iota;
       [| by split]);
    cbn [fst snd app]; (split; [reflexivity |]); intros _; cbn [In];
    (split; [tauto |]); intros H;
    repeat (destruct H as [H | H]; [discriminate |]); exact H.
Qed.

Lemma init_keeps_configuration_witness :
  List.filter is_creation (calls (init example_services None "blank" "info")) = [] /\
  In (TelemetrySend "reinit") (calls (init example_services None "blank" "info")).
Proof.
  destruct (init_keeps_configuration example_services None "blank" "info" eq_refl)
    as [Hnone Hdone].
  split; [exact Hnone | exact (proj1 (Hdone eq_refl))].
Defined.

End SubcommandsFacts.
